(** * EVE-NG Link Manager: a shallow embedding of [eve_link_manager.py]

    The development follows the Python module function by function.  Python
    strings are modelled as [string] over ASCII text, dictionaries that the
    program iterates over as association lists in iteration order, and the
    effects of the program (external commands, delays, console output, the
    lab-management API, the file system) through a small state-and-error
    monad that records a chronological trace of events. *)

From Stdlib Require Import String Ascii List ZArith Bool Lia Arith.
From Stdlib Require Import DecimalString.
Import ListNotations.
Local Open Scope list_scope.
Local Open Scope string_scope.

(** ** Python string primitives (ASCII) *)

Module PyStr.

(** [c.isdigit()] *)
Definition isdigit (c : ascii) : bool :=
  let n := nat_of_ascii c in (48 <=? n)%nat && (n <=? 57)%nat.

(** [c.isspace()]: TAB, LF, VT, FF, CR, FS, GS, RS, US and SPACE. *)
Definition isspace (c : ascii) : bool :=
  let n := nat_of_ascii c in
  ((9 <=? n)%nat && (n <=? 13)%nat) || ((28 <=? n)%nat && (n <=? 32)%nat).

Definition lower_char (c : ascii) : ascii :=
  let n := nat_of_ascii c in
  if (65 <=? n)%nat && (n <=? 90)%nat then ascii_of_nat (n + 32) else c.

(** [s.lower()] *)
Fixpoint lower (s : string) : string :=
  match s with
  | EmptyString => EmptyString
  | String c s' => String (lower_char c) (lower s')
  end.

(** [''.join(c for c in s if p(c))] *)
Fixpoint filter (p : ascii -> bool) (s : string) : string :=
  match s with
  | EmptyString => EmptyString
  | String c s' => if p c then String c (filter p s') else filter p s'
  end.

(** [s.startswith(p)] *)
Definition startswith (s p : string) : bool := String.prefix p s.

(** [s[n:]] *)
Fixpoint drop (n : nat) (s : string) : string :=
  match n, s with
  | O, _ => s
  | S n', String _ s' => drop n' s'
  | S _, EmptyString => EmptyString
  end.

(** [s[:n]] for [n >= 0] *)
Fixpoint take (n : nat) (s : string) : string :=
  match n, s with
  | S n', String c s' => String c (take n' s')
  | _, _ => EmptyString
  end.

(** [s.endswith(p)] *)
Definition endswith (s p : string) : bool :=
  (String.length p <=? String.length s)%nat
  && String.eqb (drop (String.length s - String.length p) s) p.

(** [sub in s] *)
Fixpoint contains (sub s : string) : bool :=
  String.prefix sub s
  || match s with
     | EmptyString => false
     | String _ s' => contains sub s'
     end.

(** [s.split(sep)] for a one-character separator; never empty. *)
Fixpoint split (sep : ascii) (s : string) : list string :=
  match s with
  | EmptyString => [EmptyString]
  | String c s' =>
      if Ascii.eqb c sep then EmptyString :: split sep s'
      else match split sep s' with
           | h :: t => String c h :: t
           | [] => [String c EmptyString]
           end
  end.

Fixpoint lstrip (s : string) : string :=
  match s with
  | EmptyString => EmptyString
  | String c s' => if isspace c then lstrip s' else s
  end.

Fixpoint rstrip (s : string) : string :=
  match s with
  | EmptyString => EmptyString
  | String c s' =>
      let r := rstrip s' in
      if isspace c && String.eqb r EmptyString then EmptyString
      else String c r
  end.

(** Nothing but whitespace (the empty string included). *)
Fixpoint all_space (s : string) : bool :=
  match s with
  | EmptyString => true
  | String c s' => isspace c && all_space s'
  end.

(** [s.strip()] *)
Definition strip (s : string) : string := rstrip (lstrip s).

(** [' '.join(l)] and friends *)
Definition join (sep : string) (l : list string) : string :=
  String.concat sep l.

(** [str(n)] for a Python [int] *)
Definition str_int (z : Z) : string := NilZero.string_of_int (Z.to_int z).

(** Truthiness of a string: non-empty. *)
Definition truthy (s : string) : bool := negb (String.eqb s EmptyString).

(** Position of the first digit, as found by
    [for i, c in enumerate(s): if c.isdigit(): ... break]. *)
Fixpoint first_digit (s : string) : option nat :=
  match s with
  | EmptyString => None
  | String c s' =>
      if isdigit c then Some O
      else match first_digit s' with
           | Some i => Some (S i)
           | None => None
           end
  end.

End PyStr.

(** ** Exceptions, events and the external world *)

(** The Python exceptions the program distinguishes: [except
    subprocess.CalledProcessError] handles the first, [except Exception]
    the first two, and nothing handles [SystemExit] (raised by [sys.exit]).
    Each carries what [str(e)] would show. *)
Inductive exn : Type :=
| CalledProcessError (text : string)
| Exception (text : string)
| SystemExit (code : Z).

Inductive result (A : Type) : Type :=
| Return (a : A)
| Raise (e : exn).
Arguments Return {A} a.
Arguments Raise {A} e.

Inductive transition_op : Type := Suspend | Resume.

(** What [subprocess.run(cmd, check=True)] can do: complete with status
    zero, complete with a non-zero status (raising [CalledProcessError]),
    or fail to run the command at all (raising [OSError] and the like). *)
Inductive run_outcome : Type :=
| Completed
| NonZeroExit (text : string)
| RunFails (text : string).

(** Replies of the lab-management API. *)
Record response (A : Type) : Type := mkResponse {
  status : string;
  data : A                       (* [resp.get('data', {})] *)
}.
Arguments mkResponse {A}.
Arguments status {A}.
Arguments data {A}.

Inductive api_reply (A : Type) : Type :=
| ApiRaises (text : string)
| ApiReturns (r : response A).
Arguments ApiRaises {A} text.
Arguments ApiReturns {A} r.

(** Python dictionaries, in iteration order. *)
Definition dict (V : Type) : Type := list (string * V).

Fixpoint dict_get {V : Type} (d : dict V) (k : string) : option V :=
  match d with
  | [] => None
  | (k', v) :: d' => if String.eqb k' k then Some v else dict_get d' k
  end.

(** A node of the lab: [{'name': ...}]. *)
Record node : Type := mkNode { node_name : string }.

(** An interface entry: a dictionary with an optional ['name'], or some
    other value ([isinstance(if_data, dict)] is false). *)
Inductive if_data : Type :=
| IfDict (name : option string)
| IfOther.

(** [eve_client.api] *)
Record EvengClient : Type := mkClient {
  list_nodes : string -> api_reply (dict node);
  get_node_interfaces : string -> string -> api_reply (dict (dict if_data))
}.

Record World : Type := mkWorld {
  (** the outcome of the [n]-th call of [subprocess.run], on its command *)
  subprocess_run : nat -> list string -> run_outcome;
  (** the text files of the host, as lists of lines; [None]: no such path *)
  files : string -> option (list string);
  (** [os.getenv] *)
  getenv : string -> option string;
  (** [EvengClient(host, ...).login(username, password)] *)
  login : string -> string -> string -> option EvengClient
}.

(** ** The skeleton of a trace: its transitions and delays *)

Inductive step : Type :=
| Transition (op : transition_op)
| Delay.

Definition transition_op_eqb (a b : transition_op) : bool :=
  match a, b with
  | Suspend, Suspend | Resume, Resume => true
  | _, _ => false
  end.

(** How many transitions of kind [op] a skeleton holds. *)
Fixpoint count_transitions (op : transition_op) (sk : list step) : nat :=
  match sk with
  | [] => 0
  | Transition op' :: sk' =>
      (if transition_op_eqb op op' then 1 else 0) + count_transitions op sk'
  | Delay :: sk' => count_transitions op sk'
  end.

(** How many delays come while the latest transition is one of kind [op];
    [last] is the latest transition before the skeleton starts. *)
Fixpoint delays_after (op : transition_op) (last : option transition_op)
  (sk : list step) : nat :=
  match sk with
  | [] => 0
  | Transition op' :: sk' => delays_after op (Some op') sk'
  | Delay :: sk' =>
      (match last with
       | Some op' => if transition_op_eqb op op' then 1 else 0
       | None => 0
       end) + delays_after op last sk'
  end.

(** ** Sample worlds *)

Definition no_files : string -> option (list string) := fun _ => None.
Definition no_env : string -> option string := fun _ => None.
Definition no_login : string -> string -> string -> option EvengClient :=
  fun _ _ _ => None.

(** Every external command completes with status zero. *)
Definition calm_world : World :=
  mkWorld (fun _ _ => Completed) no_files no_env no_login.

(** The [k]-th external command exits with a non-zero status. *)
Definition world_rejecting (k : nat) (text : string) : World :=
  mkWorld (fun n _ => if Nat.eqb n k then NonZeroExit text else Completed)
          no_files no_env no_login.

(** No external command can be started (say, [sudo] is not installed). *)
Definition world_without_sudo : World :=
  mkWorld (fun _ _ => RunFails "[Errno 2] No such file or directory: 'sudo'")
          no_files no_env no_login.

(** For the examples, a float is given by the text [str] shows for it. *)
Definition sample_float : Type := string.
Definition sample_str_float : sample_float -> string := fun s => s.

Definition demo_lab : string := "/opt/unetlab/labs/demo.unl".

(** A lab with no nodes at all. *)
Definition empty_lab : EvengClient :=
  mkClient (fun _ => ApiReturns (mkResponse "success" []))
           (fun _ _ => ApiReturns (mkResponse "success" [])).

(** A host holding one batch file, whose lab accepts every login. *)
Definition world_with_file (filename : string) (lines : list string) : World :=
  mkWorld (fun _ _ => Completed)
          (fun f => if String.eqb f filename then Some lines else None)
          no_env
          (fun _ _ _ => Some empty_lab).

(** A host holding one batch file, whose lab refuses every login. *)
Definition world_locked_out (filename : string) (lines : list string) : World :=
  mkWorld (fun _ _ => Completed)
          (fun f => if String.eqb f filename then Some lines else None)
          no_env no_login.

(** A host whose environment names the lab and whose first external
    command is rejected. *)
Definition world_with_lab_env : World :=
  mkWorld (fun n _ => if Nat.eqb n 0 then NonZeroExit "exit status 1"
                      else Completed)
          no_files
          (fun k => if String.eqb k "EVE_LAB" then Some "demo.unl" else None)
          no_login.

(** A lab of three routers, each with two Ethernet interfaces and one
    serial interface. *)
Definition demo_client : EvengClient :=
  mkClient
    (fun _ => ApiReturns (mkResponse "success"
                            [("1", mkNode "R1"); ("2", mkNode "r2");
                             ("3", mkNode "R2")]))
    (fun _ _ => ApiReturns (mkResponse "success"
                              [("ethernet", [("0", IfDict (Some "e0/0"));
                                             ("1", IfDict (Some "e0/1"))]);
                               ("serial", [("0", IfDict (Some "s1/0"))])])).

(** What [time.sleep] does with the sample delays: one written with a
    minus sign is refused. *)
Definition sample_sleep_error : sample_float -> option string :=
  fun delay =>
    if String.prefix "-" delay
    then Some "sleep length must be non-negative" else None.

Section Program.

(** Python's [float] is kept abstract: the program only passes a delay on
    to [time.sleep] and formats it into messages. *)
Variable float : Type.
Variable str_float : float -> string.

Variable w : World.

(** One side of a link, or a host interface. *)
Inductive target : Type :=
| EvengIf (lab_path device_id interface_id : string)
| HostIf (interface_name : string).

(** The trace records, in order: each entry into a transition function
    (where the source logs "Suspending ..." or "Resuming ..."), each call of
    [subprocess.run], each [time.sleep], each [print], and each login. *)
Inductive event : Type :=
| EvTransition (op : transition_op) (t : target) (dry_run : bool)
| EvRun (cmd : list string)
| EvSleep (delay : float)
| EvPrint (text : string)
| EvLogin (host username password : string).

(** ** The monad: a counter of external commands run so far, the events
    emitted, and a value or an exception. *)
Definition M (A : Type) : Type := nat -> result A * list event * nat.

Definition ret {A : Type} (a : A) : M A := fun n => (Return a, [], n).

Definition raise {A : Type} (e : exn) : M A := fun n => (Raise e, [], n).

Definition bind {A B : Type} (m : M A) (k : A -> M B) : M B :=
  fun n =>
    match m n with
    | (Return a, tr, n') =>
        let '(r, tr', n'') := k a n' in (r, (tr ++ tr')%list, n'')
    | (Raise e, tr, n') => (Raise e, tr, n')
    end.

(** [try: m except ... as e: h e]; a handler re-raises what its [except]
    clause does not match. *)
Definition try_except {A : Type} (m : M A) (h : exn -> M A) : M A :=
  fun n =>
    match m n with
    | (Raise e, tr, n') =>
        let '(r, tr', n'') := h e n' in (r, (tr ++ tr')%list, n'')
    | (Return a, tr, n') => (Return a, tr, n')
    end.

Definition emit (e : event) : M unit := fun n => (Return tt, [e], n).

Notation "x <- m ;; k" := (bind m (fun x => k))
  (at level 100, m at next level, right associativity).
Notation "' p <- m ;; k" := (bind m (fun x => let 'p := x in k))
  (at level 100, p pattern, m at next level, right associativity).
Notation "m ;;; k" := (bind m (fun _ => k))
  (at level 100, right associativity).

Definition value_of {A : Type} (x : result A * list event * nat) : result A :=
  fst (fst x).
Definition trace_of {A : Type} (x : result A * list event * nat) : list event :=
  snd (fst x).
Definition runs_of {A : Type} (x : result A * list event * nat) : nat :=
  snd x.

(** [subprocess.run(cmd, check=True)] *)
Definition run (cmd : list string) : M unit :=
  fun n =>
    (match subprocess_run w n cmd with
     | Completed => Return tt
     | NonZeroExit t => Raise (CalledProcessError t)
     | RunFails t => Raise (Exception t)
     end, [EvRun cmd], S n).

(** [time.sleep(delay)], for a delay that it accepts: a finite number
    that is not negative.  For any other delay [time.sleep] raises, which
    this embedding leaves out. *)
Definition sleep (delay : float) : M unit := emit (EvSleep delay).

(** [print(text)] *)
Definition print (text : string) : M unit := emit (EvPrint text).

(** ** Host interfaces *)

Definition suspend_interface (interface_name : string) : M (bool * string) :=
  emit (EvTransition Suspend (HostIf interface_name) false) ;;;
  try_except
    (run ["sudo"; "ip"; "link"; "set"; interface_name; "down"] ;;;
     ret (true, "Successfully suspended " ++ interface_name))
    (fun e =>
       match e with
       | CalledProcessError text =>
           let error_msg :=
             "Failed to suspend " ++ interface_name ++ ": " ++ text in
           ret (false, error_msg)
       | _ => raise e
       end).

Definition resume_interface (interface_name : string) : M (bool * string) :=
  emit (EvTransition Resume (HostIf interface_name) false) ;;;
  try_except
    (run ["sudo"; "ip"; "link"; "set"; interface_name; "up"] ;;;
     ret (true, "Successfully resumed " ++ interface_name))
    (fun e =>
       match e with
       | CalledProcessError text =>
           let error_msg :=
             "Failed to resume " ++ interface_name ++ ": " ++ text in
           ret (false, error_msg)
       | _ => raise e
       end).

(** ** Endpoint Transition Executor *)

Definition unl_wrapper_cmd (action lab_path device_id interface_id : string)
  : list string :=
  ["sudo"; "/opt/unetlab/wrappers/unl_wrapper";
   "-a"; action;
   "-T"; "0";
   "-I"; interface_id;
   "-D"; device_id;
   "-F"; lab_path].

Definition suspend_eveng_interface
  (lab_path device_id interface_id : string) (dry_run : bool)
  : M (bool * string) :=
  emit (EvTransition Suspend (EvengIf lab_path device_id interface_id) dry_run) ;;;
  let cmd := unl_wrapper_cmd "suspendlink" lab_path device_id interface_id in
  if dry_run then
    let cmd_str := PyStr.join " " cmd in
    ret (true, "DRY RUN - Would suspend device " ++ device_id
                 ++ " interface " ++ interface_id
                 ++ " with command: " ++ cmd_str)
  else
    try_except
      (run cmd ;;;
       ret (true, "Successfully suspended device " ++ device_id
                    ++ " interface " ++ interface_id))
      (fun e =>
         match e with
         | CalledProcessError text =>
             let error_msg := "Failed to suspend EVE-NG interface: " ++ text in
             ret (false, error_msg)
         | _ => raise e
         end).

Definition resume_eveng_interface
  (lab_path device_id interface_id : string) (dry_run : bool)
  : M (bool * string) :=
  emit (EvTransition Resume (EvengIf lab_path device_id interface_id) dry_run) ;;;
  let cmd := unl_wrapper_cmd "resumelink" lab_path device_id interface_id in
  if dry_run then
    let cmd_str := PyStr.join " " cmd in
    ret (true, "DRY RUN - Would resume device " ++ device_id
                 ++ " interface " ++ interface_id
                 ++ " with command: " ++ cmd_str)
  else
    try_except
      (run cmd ;;;
       ret (true, "Successfully resumed device " ++ device_id
                    ++ " interface " ++ interface_id))
      (fun e =>
         match e with
         | CalledProcessError text =>
             let error_msg := "Failed to resume EVE-NG interface: " ++ text in
             ret (false, error_msg)
         | _ => raise e
         end).

(** ** Link Transition Coordinator *)

Definition suspend_eveng_link
  (lab_path device1_id interface1_id device2_id interface2_id : string)
  (dry_run : bool) : M (bool * string) :=
  '(success1, message1) <-
     suspend_eveng_interface lab_path device1_id interface1_id dry_run ;;
  '(success2, message2) <-
     suspend_eveng_interface lab_path device2_id interface2_id dry_run ;;
  if success1 && success2 then
    ret (true, "Successfully suspended link between device " ++ device1_id
                 ++ " interface " ++ interface1_id
                 ++ " and device " ++ device2_id
                 ++ " interface " ++ interface2_id)
  else if negb success1 then
    ret (false, "Failed to suspend first side of link: " ++ message1)
  else
    ret (false, "Failed to suspend second side of link: " ++ message2).

Definition resume_eveng_link
  (lab_path device1_id interface1_id device2_id interface2_id : string)
  (dry_run : bool) : M (bool * string) :=
  '(success1, message1) <-
     resume_eveng_interface lab_path device1_id interface1_id dry_run ;;
  '(success2, message2) <-
     resume_eveng_interface lab_path device2_id interface2_id dry_run ;;
  if success1 && success2 then
    ret (true, "Successfully resumed link between device " ++ device1_id
                 ++ " interface " ++ interface1_id
                 ++ " and device " ++ device2_id
                 ++ " interface " ++ interface2_id)
  else if negb success1 then
    ret (false, "Failed to resume first side of link: " ++ message1)
  else
    ret (false, "Failed to resume second side of link: " ++ message2).

(** ** Flap Sequencer *)

(** The body of [for i in range(count)], from iteration [i] on, with
    [remaining] iterations to go.  [Some r]: the loop was left by
    [return r]; [None]: it ran to its end. *)
Fixpoint flap_interface_loop (interface_name : string) (count : Z)
  (delay : float) (i : Z) (remaining : nat) : M (option (bool * string)) :=
  match remaining with
  | O => ret None
  | S remaining' =>
      '(suspend_success, _) <- suspend_interface interface_name ;;
      if negb suspend_success then
        ret (Some (false, "Failed to flap " ++ interface_name
                            ++ " (suspend failed)"))
      else
        sleep delay ;;;
        '(resume_success, _) <- resume_interface interface_name ;;
        if negb resume_success then
          ret (Some (false, "Failed to flap " ++ interface_name
                              ++ " (resume failed)"))
        else
          (if (i <? count - 1)%Z then sleep delay else ret tt) ;;;
          flap_interface_loop interface_name count delay (i + 1)%Z remaining'
  end.

Definition flap_interface (interface_name : string) (count : Z)
  (delay : float) : M (bool * string) :=
  r <- flap_interface_loop interface_name count delay 0%Z (Z.to_nat count) ;;
  match r with
  | Some res => ret res
  | None =>
      ret (true, "Successfully flapped " ++ interface_name ++ " "
                   ++ PyStr.str_int count ++ " times")
  end.

Fixpoint flap_eveng_interface_loop (lab_path device_id interface_id : string)
  (count : Z) (delay : float) (dry_run : bool) (i : Z) (remaining : nat)
  : M (option (bool * string)) :=
  match remaining with
  | O => ret None
  | S remaining' =>
      '(suspend_success, suspend_msg) <-
         suspend_eveng_interface lab_path device_id interface_id dry_run ;;
      if negb suspend_success then
        ret (Some (false, "Failed to flap device " ++ device_id
                            ++ " interface " ++ interface_id
                            ++ " (suspend failed): " ++ suspend_msg))
      else
        sleep delay ;;;
        '(resume_success, resume_msg) <-
           resume_eveng_interface lab_path device_id interface_id dry_run ;;
        if negb resume_success then
          ret (Some (false, "Failed to flap device " ++ device_id
                              ++ " interface " ++ interface_id
                              ++ " (resume failed): " ++ resume_msg))
        else
          (if (i <? count - 1)%Z then sleep delay else ret tt) ;;;
          flap_eveng_interface_loop lab_path device_id interface_id
            count delay dry_run (i + 1)%Z remaining'
  end.

Definition flap_eveng_interface (lab_path device_id interface_id : string)
  (count : Z) (delay : float) (dry_run : bool) : M (bool * string) :=
  r <- flap_eveng_interface_loop lab_path device_id interface_id
         count delay dry_run 0%Z (Z.to_nat count) ;;
  match r with
  | Some res => ret res
  | None =>
      if dry_run then
        ret (true, "DRY RUN - Would flap device " ++ device_id
                     ++ " interface " ++ interface_id ++ " "
                     ++ PyStr.str_int count ++ " times with "
                     ++ str_float delay ++ "s delay")
      else
        ret (true, "Successfully flapped device " ++ device_id
                     ++ " interface " ++ interface_id ++ " "
                     ++ PyStr.str_int count ++ " times with "
                     ++ str_float delay ++ "s delay")
  end.

(** ** Identifier Resolver *)

(** The lab path as the API expects it: without the [/opt/unetlab/labs/]
    prefix and without the [.unl] extension. *)
Definition to_api_lab_path (lab_path : string) : string :=
  let api_lab_path :=
    if PyStr.startswith lab_path "/opt/unetlab/labs/"
    then PyStr.drop (String.length "/opt/unetlab/labs/") lab_path
    else lab_path in
  if PyStr.endswith api_lab_path ".unl"
  then PyStr.take (String.length api_lab_path - 4) api_lab_path
  else api_lab_path.

(** [for node_id, node in nodes.items(): if node['name'].lower() == ...] *)
Fixpoint find_node (nodes : dict node) (device_name : string) : option string :=
  match nodes with
  | [] => None
  | (node_id, nd) :: nodes' =>
      if String.eqb (PyStr.lower (node_name nd)) (PyStr.lower device_name)
      then Some node_id
      else find_node nodes' device_name
  end.

(** The API is only read; its calls leave no event.  Any exception inside
    is caught by [except Exception] and gives [None]. *)
Definition get_device_id_by_name (eve_client : EvengClient)
  (lab_path device_name : string) : option string :=
  let api_lab_path := to_api_lab_path lab_path in
  match list_nodes eve_client api_lab_path with
  | ApiRaises _ => None
  | ApiReturns nodes_response =>
      if negb (String.eqb (status nodes_response) "success") then None
      else find_node (data nodes_response) device_name
  end.

(** The type token and the number token of an interface name. *)
Definition parse_interface_name (interface_name : string) : string * string :=
  if PyStr.contains "/" interface_name then
    let parts := PyStr.split "/" (PyStr.lower interface_name) in
    let type_part := nth 0 parts "" in
    let interface_type := PyStr.filter (fun c => negb (PyStr.isdigit c)) type_part in
    let type_number := PyStr.filter PyStr.isdigit type_part in
    let interface_number := nth 1 parts "" in
    if PyStr.truthy type_number
    then (interface_type, type_number ++ "/" ++ interface_number)
    else (interface_type, interface_number)
  else
    match PyStr.first_digit (PyStr.lower interface_name) with
    | Some i => (PyStr.lower (PyStr.take i interface_name),
                 PyStr.drop i interface_name)
    | None => ("", "")
    end.

Definition eve_types : dict string :=
  [("e", "ethernet"); ("eth", "ethernet"); ("ethernet", "ethernet");
   ("gi", "ethernet"); ("fa", "ethernet"); ("g", "ethernet");
   ("gigabitethernet", "ethernet"); ("fastethernet", "ethernet");
   ("s", "serial"); ("serial", "serial")].

(** [interface_number.split('/')[-1]], or the number itself *)
Definition last_part_of (interface_number : string) : string :=
  if PyStr.contains "/" interface_number
  then last (PyStr.split "/" interface_number) ""
  else interface_number.

(** [if_data.get('name', '')]; also the string held by an
    [Optional[str]] already known not to be [None]. *)
Definition name_of (name : option string) : string :=
  match name with Some s => s | None => "" end.

Definition id_matches (if_id last_part : string) : bool :=
  String.eqb if_id last_part.

Definition name_matches (d : if_data) (interface_name : string) : bool :=
  match d with
  | IfDict name =>
      String.eqb (PyStr.lower (name_of name)) (PyStr.lower interface_name)
  | IfOther => false
  end.

Definition partial_name_matches (d : if_data) (interface_name : string) : bool :=
  match d with
  | IfDict name =>
      PyStr.contains (PyStr.lower interface_name) (PyStr.lower (name_of name))
  | IfOther => false
  end.

(** [for if_id, if_data in interfaces[eve_type].items(): ...] *)
Fixpoint find_interface (bucket : dict if_data)
  (last_part interface_name : string) : option string :=
  match bucket with
  | [] => None
  | (if_id, d) :: bucket' =>
      if id_matches if_id last_part then Some if_id
      else if name_matches d interface_name then Some if_id
      else if partial_name_matches d interface_name then Some if_id
      else find_interface bucket' last_part interface_name
  end.

(** An entry of the bucket passes one of the three tests of the loop. *)
Definition entry_matches (last_part interface_name : string)
  (entry : string * if_data) : bool :=
  id_matches (fst entry) last_part
  || name_matches (snd entry) interface_name
  || partial_name_matches (snd entry) interface_name.

(** The part of [get_interface_id_by_name] after the API reply. *)
Definition resolve_in (interfaces : dict (dict if_data))
  (interface_name : string) : option string :=
  let '(interface_type, interface_number) :=
    parse_interface_name interface_name in
  let eve_type :=
    match dict_get eve_types interface_type with
    | Some t => t
    | None => "ethernet"
    end in
  match dict_get interfaces eve_type with
  | Some bucket =>
      find_interface bucket (last_part_of interface_number) interface_name
  | None => None
  end.

Definition get_interface_id_by_name (eve_client : EvengClient)
  (lab_path device_id interface_name : string) : option string :=
  let api_lab_path := to_api_lab_path lab_path in
  match get_node_interfaces eve_client api_lab_path device_id with
  | ApiRaises _ => None
  | ApiReturns interfaces_response =>
      if negb (String.eqb (status interfaces_response) "success") then None
      else resolve_in (data interfaces_response) interface_name
  end.

(** [not x] for an [Optional[str]] *)
Definition falsy (x : option string) : bool :=
  match x with
  | Some s => negb (PyStr.truthy s)
  | None => true
  end.

Definition suspend_interface_by_name (eve_client : EvengClient)
  (lab_path device_name interface_name : string) (dry_run : bool)
  : M (bool * string) :=
  match get_device_id_by_name eve_client lab_path device_name with
  | Some device_id =>
      if negb (PyStr.truthy device_id) then
        ret (false, "Failed to find device named '" ++ device_name ++ "'")
      else
        match get_interface_id_by_name eve_client lab_path device_id interface_name with
        | Some interface_id =>
            if negb (PyStr.truthy interface_id) then
              ret (false, "Failed to find interface named '" ++ interface_name
                            ++ "' on device '" ++ device_name ++ "'")
            else suspend_eveng_interface lab_path device_id interface_id dry_run
        | None =>
            ret (false, "Failed to find interface named '" ++ interface_name
                          ++ "' on device '" ++ device_name ++ "'")
        end
  | None => ret (false, "Failed to find device named '" ++ device_name ++ "'")
  end.

Definition resume_interface_by_name (eve_client : EvengClient)
  (lab_path device_name interface_name : string) (dry_run : bool)
  : M (bool * string) :=
  match get_device_id_by_name eve_client lab_path device_name with
  | Some device_id =>
      if negb (PyStr.truthy device_id) then
        ret (false, "Failed to find device named '" ++ device_name ++ "'")
      else
        match get_interface_id_by_name eve_client lab_path device_id interface_name with
        | Some interface_id =>
            if negb (PyStr.truthy interface_id) then
              ret (false, "Failed to find interface named '" ++ interface_name
                            ++ "' on device '" ++ device_name ++ "'")
            else resume_eveng_interface lab_path device_id interface_id dry_run
        | None =>
            ret (false, "Failed to find interface named '" ++ interface_name
                          ++ "' on device '" ++ device_name ++ "'")
        end
  | None => ret (false, "Failed to find device named '" ++ device_name ++ "'")
  end.

(** ** Batch Runner *)

(** [connect_to_eveng]: any failure to log in ends the process. *)
Definition connect_to_eveng (host username password : string) : M EvengClient :=
  emit (EvLogin host username password) ;;;
  match login w host username password with
  | Some cli => ret cli
  | None => raise (SystemExit 1)
  end.

(** [x or d] *)
Definition or_default (x : option string) (d : string) : string :=
  match x with
  | Some s => if PyStr.truthy s then s else d
  | None => d
  end.

Definition newline : string := String (ascii_of_nat 10) EmptyString.

(** [if result: success_count += 1 ... else: failure_count += 1 ...] *)
Definition tally (i : Z) (line : string) (res : bool * string)
  (counts : Z * Z) : M (Z * Z) :=
  let '(result, message) := res in
  let '(success_count, failure_count) := counts in
  if result then
    print ("Line " ++ PyStr.str_int i ++ ": " ++ message
             ++ " (for " ++ line ++ ")") ;;;
    ret ((success_count + 1)%Z, failure_count)
  else
    print ("Line " ++ PyStr.str_int i ++ ": Failed - " ++ message
             ++ " (for " ++ line ++ ")") ;;;
    ret (success_count, (failure_count + 1)%Z).

(** The body of the [try] for one line that is neither blank nor a
    comment.  The counters change only after the last call that can raise,
    so the handler below sees them as they were when the line began. *)
Definition process_record (eve_client : EvengClient)
  (operation lab_path : string) (dry_run : bool) (count : Z) (delay : float)
  (i : Z) (line : string) (counts : Z * Z) : M (Z * Z) :=
  let '(success_count, failure_count) := counts in
  let parts := PyStr.split "," line in
  match parts with
  | [device1_id; interface1_id; device2_id; interface2_id] =>
      res <-
        (if String.eqb operation "suspend" then
           suspend_eveng_link lab_path device1_id interface1_id
             device2_id interface2_id dry_run
         else if String.eqb operation "resume" then
           resume_eveng_link lab_path device1_id interface1_id
             device2_id interface2_id dry_run
         else
           '(result1, message1) <-
              flap_eveng_interface lab_path device1_id interface1_id
                count delay dry_run ;;
           '(result2, message2) <-
              flap_eveng_interface lab_path device2_id interface2_id
                count delay dry_run ;;
           ret (result1 && result2,
                "Flapped link between device " ++ device1_id
                  ++ " interface " ++ interface1_id
                  ++ " and device " ++ device2_id
                  ++ " interface " ++ interface2_id)) ;;
      tally i line res counts
  | [device_name; interface_name] =>
      let device_id := get_device_id_by_name eve_client lab_path device_name in
      if falsy device_id then
        print ("Line " ++ PyStr.str_int i ++ ": Failed to find device named '"
                 ++ device_name ++ "' (for " ++ line ++ ")") ;;;
        ret (success_count, (failure_count + 1)%Z)
      else
        let device_id := name_of device_id in
        let interface_id :=
          get_interface_id_by_name eve_client lab_path device_id interface_name in
        if falsy interface_id then
          print ("Line " ++ PyStr.str_int i
                   ++ ": Failed to find interface named '" ++ interface_name
                   ++ "' on device " ++ device_name
                   ++ " (for " ++ line ++ ")") ;;;
          ret (success_count, (failure_count + 1)%Z)
        else
          let interface_id := name_of interface_id in
          res <-
            (if String.eqb operation "suspend" then
               suspend_eveng_interface lab_path device_id interface_id dry_run
             else if String.eqb operation "resume" then
               resume_eveng_interface lab_path device_id interface_id dry_run
             else
               flap_eveng_interface lab_path device_id interface_id
                 count delay dry_run) ;;
          tally i line res counts
  | _ =>
      print ("Line " ++ PyStr.str_int i
               ++ ": Invalid format - expected 2 or 4 comma-separated values, got "
               ++ PyStr.str_int (Z.of_nat (List.length parts))
               ++ " (for " ++ line ++ ")") ;;;
      ret (success_count, (failure_count + 1)%Z)
  end.

(** A line is skipped when, once stripped, it is empty or starts with [#]. *)
Definition skipped (line : string) : bool :=
  negb (PyStr.truthy line) || PyStr.startswith line "#".

(** One iteration of [for i, line in enumerate(f, 1)]. *)
Definition process_line (eve_client : EvengClient)
  (operation lab_path : string) (dry_run : bool) (count : Z) (delay : float)
  (i : Z) (raw : string) (counts : Z * Z) : M (Z * Z) :=
  let line := PyStr.strip raw in
  if skipped line then ret counts
  else
    try_except
      (process_record eve_client operation lab_path dry_run count delay
         i line counts)
      (fun e =>
         match e with
         | SystemExit _ => raise e
         | CalledProcessError text | Exception text =>
             let '(success_count, failure_count) := counts in
             print ("Line " ++ PyStr.str_int i ++ ": Error processing line: "
                      ++ text ++ " (for " ++ line ++ ")") ;;;
             ret (success_count, (failure_count + 1)%Z)
         end).

Fixpoint batch_loop (eve_client : EvengClient)
  (operation lab_path : string) (dry_run : bool) (count : Z) (delay : float)
  (i : Z) (lines : list string) (counts : Z * Z) : M (Z * Z) :=
  match lines with
  | [] => ret counts
  | raw :: lines' =>
      counts' <- process_line eve_client operation lab_path dry_run
                   count delay i raw counts ;;
      batch_loop eve_client operation lab_path dry_run count delay
        (i + 1)%Z lines' counts'
  end.

(** [os.path.exists(filename)], on a host where every path that exists
    is a text file that can be read: a directory or an unreadable file is
    not among [files]. *)
Definition path_exists (filename : string) : bool :=
  match files w filename with Some _ => true | None => false end.

Definition valid_operation (operation : string) : bool :=
  existsb (String.eqb operation) ["suspend"; "resume"; "flap"].

Definition process_batch_file (filename operation lab_path : string)
  (dry_run : bool) (count : Z) (delay : float) : M (Z * Z) :=
  if negb (path_exists filename) then ret (0%Z, 0%Z)
  else if negb (valid_operation operation) then ret (0%Z, 0%Z)
  else
    let env_host := getenv w "EVE_HOST" in
    let env_username := getenv w "EVE_USERNAME" in
    let env_password := getenv w "EVE_PASSWORD" in
    let host := or_default env_host "localhost" in
    let username := or_default env_username "admin" in
    let password := or_default env_password "eve" in
    eve_client <- connect_to_eveng host username password ;;
    match files w filename with
    | Some lines =>
        batch_loop eve_client operation lab_path dry_run count delay
          1%Z lines (0%Z, 0%Z)
    | None => raise (Exception ("No such file or directory: " ++ filename))
    end.

(** ** The [batch] subcommand of [main], and the script *)

Record batch_args : Type := mkBatchArgs {
  args_operation : string;
  args_file : string;
  args_lab : string;
  args_count : Z;
  args_delay : float;
  args_dry_run : bool
}.

(** [main()] when [args.command == 'batch']; [None] is Python's [None],
    returned by falling off the end of the function. *)
Definition main (args : batch_args) : M (option Z) :=
  let lab_path :=
    if PyStr.truthy (args_lab args)
       && negb (PyStr.startswith (args_lab args) "/opt/unetlab/labs")
    then "/opt/unetlab/labs/" ++ args_lab args
    else args_lab args in
  let count := args_count args in
  let delay := args_delay args in
  '(success_count, failure_count) <-
     process_batch_file (args_file args) (args_operation args) lab_path
       (args_dry_run args) count delay ;;
  print (newline ++ "Batch processing complete:") ;;;
  print ("  Successful operations: " ++ PyStr.str_int success_count) ;;;
  print ("  Failed operations: " ++ PyStr.str_int failure_count) ;;;
  if (failure_count >? 0)%Z then ret (Some 1%Z) else ret None.

(** The exit status of the Python process: 0 when the script runs to its
    end, the code of [sys.exit], 1 on any other uncaught exception. *)
Definition exit_status {A : Type} (r : result A) : Z :=
  match r with
  | Return _ => 0%Z
  | Raise (SystemExit code) => code
  | Raise _ => 1%Z
  end.

(** [if __name__ == "__main__": main()]: the value of [main()] is dropped. *)
Definition script (args : batch_args) : Z :=
  exit_status (value_of ((main args ;;; ret tt) 0%nat)).

(** ** Reading traces *)

Fixpoint skeleton (tr : list event) : list step :=
  match tr with
  | [] => []
  | EvTransition op _ _ :: tr' => Transition op :: skeleton tr'
  | EvSleep _ :: tr' => Delay :: skeleton tr'
  | _ :: tr' => skeleton tr'
  end.

(** The transition functions entered, in order, with their arguments. *)
Fixpoint transitions (tr : list event) : list (transition_op * target * bool) :=
  match tr with
  | [] => []
  | EvTransition op t dry_run :: tr' => (op, t, dry_run) :: transitions tr'
  | _ :: tr' => transitions tr'
  end.

(** The external commands run, in order. *)
Fixpoint commands (tr : list event) : list (list string) :=
  match tr with
  | [] => []
  | EvRun cmd :: tr' => cmd :: commands tr'
  | _ :: tr' => commands tr'
  end.

(** Delays between a suspend and its resume. *)
Definition mid_pair_delays (tr : list event) : nat :=
  delays_after Suspend None (skeleton tr).

(** Delays between a resume and the next suspend. *)
Definition between_pair_delays (tr : list event) : nat :=
  delays_after Resume None (skeleton tr).

(** ** The two transitions, by kind *)

Definition eveng_interface (op : transition_op)
  : string -> string -> string -> bool -> M (bool * string) :=
  match op with
  | Suspend => suspend_eveng_interface
  | Resume => resume_eveng_interface
  end.

Definition eveng_link (op : transition_op)
  : string -> string -> string -> string -> string -> bool -> M (bool * string) :=
  match op with
  | Suspend => suspend_eveng_link
  | Resume => resume_eveng_link
  end.

Definition verb (op : transition_op) : string :=
  match op with Suspend => "suspend" | Resume => "resume" end.

Definition action (op : transition_op) : string :=
  match op with Suspend => "suspendlink" | Resume => "resumelink" end.

Definition done (op : transition_op) : string :=
  match op with Suspend => "suspended" | Resume => "resumed" end.

(** ** The loop shared by [flap_interface] and [flap_eveng_interface] *)

Section FlapLoop.

Variables suspend resume : M (bool * string).
Variables suspend_failed resume_failed : string -> string.
Variable count : Z.
Variable delay : float.

Fixpoint flap_loop (i : Z) (remaining : nat) : M (option (bool * string)) :=
  match remaining with
  | O => ret None
  | S remaining' =>
      '(suspend_success, suspend_msg) <- suspend ;;
      if negb suspend_success then
        ret (Some (false, suspend_failed suspend_msg))
      else
        sleep delay ;;;
        '(resume_success, resume_msg) <- resume ;;
        if negb resume_success then
          ret (Some (false, resume_failed resume_msg))
        else
          (if (i <? count - 1)%Z then sleep delay else ret tt) ;;;
          flap_loop (i + 1)%Z remaining'
  end.

(** The skeleton of [remaining] complete cycles starting at cycle [i]. *)
Fixpoint cycles_skeleton (i : Z) (remaining : nat) : list step :=
  match remaining with
  | O => []
  | S remaining' =>
      Transition Suspend :: Delay :: Transition Resume
        :: ((if (i <? count - 1)%Z then [Delay] else [])
              ++ cycles_skeleton (i + 1)%Z remaining')%list
  end.

(** The whole sequence: the loop, then the closing [return] with the
    result [final]. *)
Definition flap_with (final : bool * string) : M (bool * string) :=
  r <- flap_loop 0%Z (Z.to_nat count) ;;
  match r with
  | Some res => ret res
  | None => ret final
  end.

End FlapLoop.

(** What a flap sequence works on: a host interface ([flap_interface]) or
    an EVE-NG endpoint ([flap_eveng_interface]). *)
Inductive flap_target : Type :=
| FlapHost (interface_name : string)
| FlapEveng (lab_path device_id interface_id : string) (dry_run : bool).

Definition flap_suspend (t : flap_target) : M (bool * string) :=
  match t with
  | FlapHost interface_name => suspend_interface interface_name
  | FlapEveng lab_path device_id interface_id dry_run =>
      suspend_eveng_interface lab_path device_id interface_id dry_run
  end.

Definition flap_resume (t : flap_target) : M (bool * string) :=
  match t with
  | FlapHost interface_name => resume_interface interface_name
  | FlapEveng lab_path device_id interface_id dry_run =>
      resume_eveng_interface lab_path device_id interface_id dry_run
  end.

Definition flap_cycles (t : flap_target) (count : Z) (delay : float)
  : Z -> nat -> M (option (bool * string)) :=
  match t with
  | FlapHost interface_name =>
      flap_interface_loop interface_name count delay
  | FlapEveng lab_path device_id interface_id dry_run =>
      flap_eveng_interface_loop lab_path device_id interface_id
        count delay dry_run
  end.

Definition flap (t : flap_target) (count : Z) (delay : float)
  : M (bool * string) :=
  match t with
  | FlapHost interface_name => flap_interface interface_name count delay
  | FlapEveng lab_path device_id interface_id dry_run =>
      flap_eveng_interface lab_path device_id interface_id count delay dry_run
  end.

(** The message of a sequence ended by a failing step, from the message
    of that step. *)
Definition flap_failure (t : flap_target) (op : transition_op)
  (step_msg : string) : string :=
  match t with
  | FlapHost interface_name =>
      "Failed to flap " ++ interface_name ++ " (" ++ verb op ++ " failed)"
  | FlapEveng lab_path device_id interface_id dry_run =>
      "Failed to flap device " ++ device_id ++ " interface " ++ interface_id
        ++ " (" ++ verb op ++ " failed): " ++ step_msg
  end.

(** The result of a sequence that ran to its end. *)
Definition flap_success (t : flap_target) (count : Z) (delay : float)
  : bool * string :=
  match t with
  | FlapHost interface_name =>
      (true, "Successfully flapped " ++ interface_name ++ " "
               ++ PyStr.str_int count ++ " times")
  | FlapEveng lab_path device_id interface_id dry_run =>
      if dry_run then
        (true, "DRY RUN - Would flap device " ++ device_id
                 ++ " interface " ++ interface_id ++ " "
                 ++ PyStr.str_int count ++ " times with "
                 ++ str_float delay ++ "s delay")
      else
        (true, "Successfully flapped device " ++ device_id
                 ++ " interface " ++ interface_id ++ " "
                 ++ PyStr.str_int count ++ " times with "
                 ++ str_float delay ++ "s delay")
  end.

(** All the transitions of a trace, suspends and resumes together. *)
Definition transitions_performed (tr : list event) : nat :=
  count_transitions Suspend (skeleton tr) + count_transitions Resume (skeleton tr).

(** ** Further parts of the module *)

(** What [time.sleep] does with a delay: [None] when it sleeps, which it
    does for a finite number that is not negative; otherwise the text of
    the [ValueError] or [OverflowError] that it raises.  [sleep] is
    [time.sleep] on the delays that it accepts, and the properties of the
    sequences that sleep are stated for those delays. *)
Variable sleep_error : float -> option string.

(** *** Reading traces, continued *)

(** The delays slept, in order. *)
Fixpoint sleeps (tr : list event) : list float :=
  match tr with
  | [] => []
  | EvSleep delay :: tr' => delay :: sleeps tr'
  | _ :: tr' => sleeps tr'
  end.

(** The messages printed, in order. *)
Fixpoint printed (tr : list event) : list string :=
  match tr with
  | [] => []
  | EvPrint text :: tr' => text :: printed tr'
  | _ :: tr' => printed tr'
  end.

(** A computation that runs no external command, wherever it starts. *)
Definition quiet {A : Type} (m : M A) : Prop :=
  forall n, commands (trace_of (m n)) = [] /\ runs_of (m n) = n.

(** A computation that never ends the process with [sys.exit]. *)
Definition contained {A : Type} (m : M A) : Prop :=
  forall n code, value_of (m n) <> Raise (SystemExit code).

(** The lines of a batch file that are neither blank nor comments. *)
Definition records (lines : list string) : list string :=
  List.filter (fun raw => negb (skipped (PyStr.strip raw))) lines.

(** *** The lab-to-host mapping *)

(** [d[k] = v]: the value is replaced where the key is, or the pair is
    added at the end. *)
Fixpoint dict_set {V : Type} (d : dict V) (k : string) (v : V) : dict V :=
  match d with
  | [] => [(k, v)]
  | (k', v') :: d' =>
      if String.eqb k' k then (k', v) :: d' else (k', v') :: dict_set d' k v
  end.

(** The inventory that [get_lab_inventory] builds: for each node id, the
    name of the node and, for each interface id, a name and a network id. *)
Record inventory_interface : Type := mkInventoryInterface {
  inv_if_name : string;
  inv_network_id : Z
}.

Record inventory_node : Type := mkInventoryNode {
  inv_name : string;
  inv_interfaces : dict inventory_interface
}.

(** [for if_index, if_data in node_data['interfaces'].items():
       node_to_host_interface[node_name][if_data['name']] = None],
    on the dictionary [m] held at [node_name]. *)
Fixpoint unmapped_interfaces (interfaces : dict inventory_interface)
  (m : dict (option string)) : dict (option string) :=
  match interfaces with
  | [] => m
  | (if_index, if_data) :: interfaces' =>
      unmapped_interfaces interfaces' (dict_set m (inv_if_name if_data) None)
  end.

(** [for node_id, node_data in inventory.items(): ...], on the mapping
    built so far. *)
Fixpoint map_nodes (inventory : dict inventory_node)
  (node_to_host_interface : dict (dict (option string)))
  : dict (dict (option string)) :=
  match inventory with
  | [] => node_to_host_interface
  | (node_id, node_data) :: inventory' =>
      let node_name := inv_name node_data in
      map_nodes inventory'
        (dict_set node_to_host_interface node_name
           (unmapped_interfaces (inv_interfaces node_data) []))
  end.

(** [mac_to_interface] is only read for debug logging. *)
Definition map_lab_to_host_interfaces (inventory : dict inventory_node)
  (mac_to_interface : dict string) : dict (dict (option string)) :=
  map_nodes inventory [].

(** *** The [suspend], [resume] and [flap] subcommands of [main] *)

(** [x or y] on optional strings *)
Definition py_or (x y : option string) : option string :=
  if falsy x then y else x.

(** [a and b and ...] as a condition *)
Definition all_given (l : list (option string)) : bool :=
  forallb (fun x => negb (falsy x)) l.

(** The lab path at the start of [main] for these three subcommands.  The
    environment is the one seen once [.env], if there is one, is loaded.
    With no lab path the condition goes on to read [args.use_eveng_api],
    an attribute that no parser defines. *)
Definition main_lab_path (lab : option string) : M string :=
  let lab_path := py_or lab (getenv w "EVE_LAB") in
  if falsy lab_path then
    raise (Exception "'Namespace' object has no attribute 'use_eveng_api'")
  else
    let lab_path := name_of lab_path in
    if negb (PyStr.startswith lab_path "/opt/unetlab/labs")
    then ret ("/opt/unetlab/labs/" ++ lab_path)
    else ret lab_path.

Record transition_args : Type := mkTransitionArgs {
  targs_interface : option string;
  targs_device_id : option string;
  targs_interface_id : option string;
  targs_lab : option string;
  targs_device1_id : option string;
  targs_interface1_id : option string;
  targs_device2_id : option string;
  targs_interface2_id : option string;
  targs_count : Z;
  targs_delay : float;
  targs_dry_run : bool
}.

(** [main()] when [args.command == 'suspend'] *)
Definition main_suspend (args : transition_args) : M (option Z) :=
  lab_path <- main_lab_path (targs_lab args) ;;
  let dry_run := targs_dry_run args in
  (if all_given [targs_device1_id args; targs_interface1_id args;
                 targs_device2_id args; targs_interface2_id args] then
     '(success, message) <-
        suspend_eveng_link lab_path
          (name_of (targs_device1_id args)) (name_of (targs_interface1_id args))
          (name_of (targs_device2_id args)) (name_of (targs_interface2_id args))
          dry_run ;;
     print message
   else if all_given [targs_device_id args; targs_interface_id args] then
     '(success, message) <-
        suspend_eveng_interface lab_path
          (name_of (targs_device_id args)) (name_of (targs_interface_id args))
          dry_run ;;
     print message
   else if negb (falsy (targs_interface args)) then
     '(success, message) <- suspend_interface (name_of (targs_interface args)) ;;
     print message
   else
     print "Error: Either --interface, or --device-id and --interface-id, or --device1-id, --interface1-id, --device2-id, --interface2-id must be specified") ;;;
  ret None.

(** [main()] when [args.command == 'resume'] *)
Definition main_resume (args : transition_args) : M (option Z) :=
  lab_path <- main_lab_path (targs_lab args) ;;
  let dry_run := targs_dry_run args in
  (if all_given [targs_device1_id args; targs_interface1_id args;
                 targs_device2_id args; targs_interface2_id args] then
     '(success, message) <-
        resume_eveng_link lab_path
          (name_of (targs_device1_id args)) (name_of (targs_interface1_id args))
          (name_of (targs_device2_id args)) (name_of (targs_interface2_id args))
          dry_run ;;
     print message
   else if all_given [targs_device_id args; targs_interface_id args] then
     '(success, message) <-
        resume_eveng_interface lab_path
          (name_of (targs_device_id args)) (name_of (targs_interface_id args))
          dry_run ;;
     print message
   else if negb (falsy (targs_interface args)) then
     '(success, message) <- resume_interface (name_of (targs_interface args)) ;;
     print message
   else
     print "Error: Either --interface, or --device-id and --interface-id, or --device1-id, --interface1-id, --device2-id, --interface2-id must be specified") ;;;
  ret None.

(** [main()] when [args.command == 'flap'] *)
Definition main_flap (args : transition_args) : M (option Z) :=
  lab_path <- main_lab_path (targs_lab args) ;;
  let dry_run := targs_dry_run args in
  let count := targs_count args in
  let delay := targs_delay args in
  (if all_given [targs_device_id args; targs_interface_id args] then
     '(success, message) <-
        flap_eveng_interface lab_path
          (name_of (targs_device_id args)) (name_of (targs_interface_id args))
          count delay dry_run ;;
     print message
   else if negb (falsy (targs_interface args)) then
     '(success, message) <-
        flap_interface (name_of (targs_interface args)) count delay ;;
     print message
   else
     print "Error: Either --interface, or --device-id and --interface-id must be specified") ;;;
  ret None.

(** The three subcommands, by name. *)
Inductive subcommand : Type := CmdSuspend | CmdResume | CmdFlap.

Definition main_transition (c : subcommand) : transition_args -> M (option Z) :=
  match c with
  | CmdSuspend => main_suspend
  | CmdResume => main_resume
  | CmdFlap => main_flap
  end.

(** The exit status of the process for a run of [main()] as the script
    makes it, its value dropped. *)
Definition exit_status_of (m : M (option Z)) : Z :=
  exit_status (value_of ((m ;;; ret tt) 0%nat)).

(** A computation on the counters that, when it returns, has added one to
    exactly one of them, and that never ends the process. *)
Definition counted_once (success_count failure_count : Z) (m : M (Z * Z)) : Prop :=
  forall n,
    match value_of (m n) with
    | Return (s', f') =>
        (s' = (success_count + 1)%Z /\ f' = failure_count)
        \/ (s' = success_count /\ f' = (failure_count + 1)%Z)
    | Raise (SystemExit _) => False
    | Raise _ => True
    end.

(** The credentials [process_batch_file] logs in with. *)
Definition batch_host : string := or_default (getenv w "EVE_HOST") "localhost".
Definition batch_username : string := or_default (getenv w "EVE_USERNAME") "admin".
Definition batch_password : string := or_default (getenv w "EVE_PASSWORD") "eve".

(** The last segment of a requested name: what follows its last slash,
    in lower case (the resolver splits the lower-cased name); for a name
    without a slash, what starts at its first digit, and nothing when it
    holds no digit. *)
Definition last_segment (interface_name : string) : string :=
  if PyStr.contains "/" interface_name
  then last (PyStr.split "/" (PyStr.lower interface_name)) ""
  else match PyStr.first_digit (PyStr.lower interface_name) with
       | Some i => PyStr.drop i interface_name
       | None => ""
       end.

(** The type bucket that the resolver consults for a type token. *)
Definition bucket_of (interface_type : string) : string :=
  if String.eqb interface_type "s" || String.eqb interface_type "serial"
  then "serial" else "ethernet".

(** The last node of the inventory that bears a name. *)
Fixpoint last_node_named (inventory : dict inventory_node) (node_name : string)
  : option inventory_node :=
  match inventory with
  | [] => None
  | (node_id, node_data) :: inventory' =>
      match last_node_named inventory' node_name with
      | Some nd => Some nd
      | None =>
          if String.eqb (inv_name node_data) node_name
          then Some node_data else None
      end
  end.

(** A computation that always returns a value. *)
Definition returning {A : Type} (m : M A) : Prop :=
  forall n, exists a, value_of (m n) = Return a.

(** *** Host interfaces and bridges, as the host commands list them *)

(** The characters at which [str.splitlines] breaks: LF, VT, FF, CR, FS,
    GS and RS (CR followed by LF counts once). *)
Definition is_linebreak (c : ascii) : bool :=
  let n := nat_of_ascii c in
  ((10 <=? n)%nat && (n <=? 13)%nat) || ((28 <=? n)%nat && (n <=? 30)%nat).

(** [s.splitlines()] *)
Fixpoint splitlines (s : string) : list string :=
  match s with
  | EmptyString => []
  | String c s' =>
      if is_linebreak c then
        match s' with
        | String c2 s'' =>
            if Ascii.eqb c (ascii_of_nat 13) && Ascii.eqb c2 (ascii_of_nat 10)
            then EmptyString :: splitlines s''
            else EmptyString :: splitlines s'
        | EmptyString => [EmptyString]
        end
      else
        match splitlines s' with
        | h :: t => String c h :: t
        | [] => [String c EmptyString]
        end
  end.

(** [s.split()]: the runs of characters that are not whitespace. *)
Fixpoint split_ws (s : string) : list string :=
  match s with
  | EmptyString => []
  | String c s' =>
      if PyStr.isspace c then split_ws s'
      else
        match s' with
        | EmptyString => [String c EmptyString]
        | String c2 _ =>
            if PyStr.isspace c2 then String c EmptyString :: split_ws s'
            else match split_ws s' with
                 | h :: t => String c h :: t
                 | [] => [String c EmptyString]
                 end
        end
  end.

(** [s.split(sep)] for a separator of one character or more; [skip]
    counts the characters of a separator still to pass over. *)
Fixpoint split_str_from (sep : string) (skip : nat) (s : string) : list string :=
  match s with
  | EmptyString => [EmptyString]
  | String c s' =>
      match skip with
      | S k => split_str_from sep k s'
      | O =>
          if String.prefix sep s
          then EmptyString :: split_str_from sep (String.length sep - 1) s'
          else match split_str_from sep 0 s' with
               | h :: t => String c h :: t
               | [] => [String c EmptyString]
               end
      end
  end.

Definition split_str (sep s : string) : list string := split_str_from sep 0 s.

(** The loop of [map_macs_to_host_interfaces] over the lines of
    [ip link]; [None] when [line.split()[1]] raises IndexError. *)
Fixpoint macs_loop (lines : list string) (current_interface : option string)
  (mac_to_interface : dict string) : option (dict string) :=
  match lines with
  | [] => Some mac_to_interface
  | line :: lines' =>
      if PyStr.contains ": " line then
        macs_loop lines'
          (Some (nth 0 (PyStr.split "@" (nth 1 (split_str ": " line) "")) ""))
          mac_to_interface
      else if PyStr.contains "link/ether" line && negb (falsy current_interface) then
        match nth_error (split_ws line) 1 with
        | Some token =>
            let mac := PyStr.lower token in
            macs_loop lines' current_interface
              (dict_set mac_to_interface mac (name_of current_interface))
        | None => None
        end
      else macs_loop lines' current_interface mac_to_interface
  end.

(** [map_macs_to_host_interfaces], given what [ip link] wrote on its
    standard output ([None]: the command could not be run).  Any exception
    ends the process. *)
Definition map_macs_to_host_interfaces (ip_link : option string)
  : result (dict string) :=
  match ip_link with
  | Some stdout =>
      match macs_loop (splitlines stdout) None [] with
      | Some mac_to_interface => Return mac_to_interface
      | None => Raise (SystemExit 1%Z)
      end
  | None => Raise (SystemExit 1%Z)
  end.

(** The loop of [get_bridges_for_interfaces] over the lines of
    [brctl show]. *)
Fixpoint bridges_loop (lines : list string) (current_bridge : option string)
  (interface_to_bridge : dict string) : dict string :=
  match lines with
  | [] => interface_to_bridge
  | line :: lines' =>
      let parts := split_ws line in
      if (4 <=? List.length parts)%nat
         && negb (String.eqb (nth 0 parts "") "bridge") then
        let current_bridge := nth 0 parts "" in
        bridges_loop lines' (Some current_bridge)
          (if (3 <? List.length parts)%nat
           then dict_set interface_to_bridge (nth 3 parts "") current_bridge
           else interface_to_bridge)
      else if Nat.eqb (List.length parts) 1 && negb (falsy current_bridge) then
        bridges_loop lines' current_bridge
          (dict_set interface_to_bridge (nth 0 parts "") (name_of current_bridge))
      else bridges_loop lines' current_bridge interface_to_bridge
  end.

(** [get_bridges_for_interfaces], given what [brctl show] wrote on its
    standard output ([None]: the command could not be run).  On an
    exception the answer is the empty mapping. *)
Definition get_bridges_for_interfaces (brctl_show : option string) : dict string :=
  match brctl_show with
  | Some stdout => bridges_loop (splitlines stdout) None []
  | None => []
  end.

(** The two by-name transitions, by kind. *)
Definition interface_by_name (op : transition_op)
  : EvengClient -> string -> string -> string -> bool -> M (bool * string) :=
  match op with
  | Suspend => suspend_interface_by_name
  | Resume => resume_interface_by_name
  end.

(** * Properties *)

(** ** The monad *)

Lemma bind_unfold {A B : Type} (m : M A) (k : A -> M B) (n : nat) :
  bind m k n =
    match m n with
    | (Return a, tr, n') =>
        (value_of (k a n'), (tr ++ trace_of (k a n'))%list, runs_of (k a n'))
    | (Raise e, tr, n') => (Raise e, tr, n')
    end.
Proof.
  unfold bind, value_of, trace_of, runs_of.
  destruct (m n) as [[[a | e] tr] n']; [ | reflexivity ].
  destruct (k a n') as [[r tr'] n'']. reflexivity.
Qed.

Lemma bind_returns {A B : Type} (m : M A) (k : A -> M B) n a tr n' :
  m n = (Return a, tr, n') ->
  bind m k n =
    (value_of (k a n'), (tr ++ trace_of (k a n'))%list, runs_of (k a n')).
Proof. intros H. rewrite bind_unfold, H. reflexivity. Qed.

Lemma bind_raises {A B : Type} (m : M A) (k : A -> M B) n e tr n' :
  m n = (Raise e, tr, n') -> bind m k n = (Raise e, tr, n').
Proof. intros H. rewrite bind_unfold, H. reflexivity. Qed.

Lemma triple_eta {A : Type} (x : result A * list event * nat) :
  x = (value_of x, trace_of x, runs_of x).
Proof. destruct x as [[r tr] n]. reflexivity. Qed.

Lemma transitions_app (a b : list event) :
  transitions (a ++ b) = (transitions a ++ transitions b)%list.
Proof.
  induction a as [ | e a IH ]; [ reflexivity | ].
  destruct e; simpl; rewrite IH; reflexivity.
Qed.

Lemma skeleton_app (a b : list event) :
  skeleton (a ++ b) = (skeleton a ++ skeleton b)%list.
Proof.
  induction a as [ | e a IH ]; [ reflexivity | ].
  destruct e; simpl; rewrite IH; reflexivity.
Qed.

Lemma commands_app (a b : list event) :
  commands (a ++ b) = (commands a ++ commands b)%list.
Proof.
  induction a as [ | e a IH ]; [ reflexivity | ].
  destruct e; simpl; rewrite IH; reflexivity.
Qed.

(** ** Endpoint Transition Executor *)

Lemma eveng_interface_dry_run op lab_path device_id interface_id n :
  eveng_interface op lab_path device_id interface_id true n =
    (Return (true,
             "DRY RUN - Would " ++ verb op ++ " device " ++ device_id
               ++ " interface " ++ interface_id ++ " with command: "
               ++ PyStr.join " "
                    (unl_wrapper_cmd (action op) lab_path device_id interface_id)),
     [EvTransition op (EvengIf lab_path device_id interface_id) true],
     n).
Proof. destruct op; reflexivity. Qed.

Lemma eveng_interface_apply op lab_path device_id interface_id n :
  eveng_interface op lab_path device_id interface_id false n =
    (match subprocess_run w n
             (unl_wrapper_cmd (action op) lab_path device_id interface_id) with
     | Completed =>
         Return (true, "Successfully " ++ done op ++ " device " ++ device_id
                         ++ " interface " ++ interface_id)
     | NonZeroExit text =>
         Return (false, "Failed to " ++ verb op ++ " EVE-NG interface: " ++ text)
     | RunFails text => Raise (Exception text)
     end,
     [EvTransition op (EvengIf lab_path device_id interface_id) false;
      EvRun (unl_wrapper_cmd (action op) lab_path device_id interface_id)],
     S n).
Proof.
  destruct op; cbn;
    unfold suspend_eveng_interface, resume_eveng_interface,
      bind, try_except, emit, run, ret, raise; cbn;
    match goal with |- context [subprocess_run w n ?c] =>
      destruct (subprocess_run w n c) end; reflexivity.
Qed.

Lemma eveng_interface_transitions op lab_path device_id interface_id dry_run n :
  transitions
    (trace_of (eveng_interface op lab_path device_id interface_id dry_run n))
  = [(op, EvengIf lab_path device_id interface_id, dry_run)].
Proof.
  destruct dry_run.
  - rewrite eveng_interface_dry_run. reflexivity.
  - rewrite eveng_interface_apply. reflexivity.
Qed.

Lemma eveng_interface_skeleton op lab_path device_id interface_id dry_run n :
  skeleton
    (trace_of (eveng_interface op lab_path device_id interface_id dry_run n))
  = [Transition op].
Proof.
  destruct dry_run.
  - rewrite eveng_interface_dry_run. reflexivity.
  - rewrite eveng_interface_apply. reflexivity.
Qed.

(** An endpoint transition in dry-run mode runs no external command,
    succeeds, and says so with a "DRY RUN" marker. *)
Lemma eveng_interface_dry_run_marked op lab_path device_id interface_id n :
  exists message,
    eveng_interface op lab_path device_id interface_id true n
      = (Return (true, message),
         [EvTransition op (EvengIf lab_path device_id interface_id) true], n)
    /\ PyStr.startswith message "DRY RUN" = true.
Proof.
  eexists. split; [ apply eveng_interface_dry_run | destruct op; reflexivity ].
Qed.

(** C6 (as amended).  In apply mode, a non-zero completion status of the
    external command is caught inside the Endpoint Transition Executor and
    comes back as a result with success=false and the error text in its
    message; a failure of any other kind to run the command is not caught
    there and leaves the executor as an exception. *)
Theorem nonzero_status_caught_other_failures_raised
  op lab_path device_id interface_id n :
  (forall text,
      subprocess_run w n
        (unl_wrapper_cmd (action op) lab_path device_id interface_id)
      = NonZeroExit text ->
      value_of (eveng_interface op lab_path device_id interface_id false n)
      = Return (false, "Failed to " ++ verb op ++ " EVE-NG interface: " ++ text))
  /\ (forall text,
      subprocess_run w n
        (unl_wrapper_cmd (action op) lab_path device_id interface_id)
      = RunFails text ->
      value_of (eveng_interface op lab_path device_id interface_id false n)
      = Raise (Exception text)).
Proof.
  split; intros text H; rewrite eveng_interface_apply, H; reflexivity.
Qed.

(** ** Link Transition Coordinator *)

Lemma eveng_link_unfold op lab_path device1_id interface1_id
  device2_id interface2_id dry_run n :
  eveng_link op lab_path device1_id interface1_id device2_id interface2_id
    dry_run n
  = bind (eveng_interface op lab_path device1_id interface1_id dry_run)
      (fun r1 =>
         bind (eveng_interface op lab_path device2_id interface2_id dry_run)
           (fun r2 =>
              if fst r1 && fst r2 then
                ret (true, "Successfully " ++ done op
                             ++ " link between device " ++ device1_id
                             ++ " interface " ++ interface1_id
                             ++ " and device " ++ device2_id
                             ++ " interface " ++ interface2_id)
              else if negb (fst r1) then
                ret (false, "Failed to " ++ verb op
                              ++ " first side of link: " ++ snd r1)
              else
                ret (false, "Failed to " ++ verb op
                              ++ " second side of link: " ++ snd r2))) n.
Proof.
  destruct op; cbn [eveng_link eveng_interface verb done];
    unfold suspend_eveng_link, resume_eveng_link, bind;
    match goal with |- context [?f lab_path device1_id interface1_id dry_run n] =>
      destruct (f lab_path device1_id interface1_id dry_run n)
        as [[[[s1 m1] | e1] tr1] n1]; [ | reflexivity ];
      destruct (f lab_path device2_id interface2_id dry_run n1)
        as [[[[s2 m2] | e2] tr2] n2]; reflexivity
    end.
Qed.

(** C2.  When the two endpoint transitions of a link operation return
    their results, the combined result succeeds exactly when both did; when
    endpoint 1 failed its message is endpoint 1's (whatever endpoint 2
    said), and when only endpoint 2 failed its message is endpoint 2's. *)
Theorem link_result_combines_endpoints
  op lab_path device1_id interface1_id device2_id interface2_id dry_run
  n success1 message1 tr1 n1 success2 message2 tr2 n2 :
  eveng_interface op lab_path device1_id interface1_id dry_run n
    = (Return (success1, message1), tr1, n1) ->
  eveng_interface op lab_path device2_id interface2_id dry_run n1
    = (Return (success2, message2), tr2, n2) ->
  exists success message,
    eveng_link op lab_path device1_id interface1_id device2_id interface2_id
      dry_run n
      = (Return (success, message), (tr1 ++ tr2)%list, n2)
    /\ (success = true <-> success1 = true /\ success2 = true)
    /\ (success1 = false ->
        message = "Failed to " ++ verb op ++ " first side of link: " ++ message1)
    /\ (success1 = true -> success2 = false ->
        message = "Failed to " ++ verb op ++ " second side of link: " ++ message2).
Proof.
  intros H1 H2.
  rewrite eveng_link_unfold.
  rewrite (bind_returns _ _ _ _ _ _ H1), (bind_returns _ _ _ _ _ _ H2).
  destruct success1, success2; cbn; rewrite app_nil_r;
    eexists; eexists; (split; [ reflexivity | ]);
    repeat split; intros; try discriminate; try reflexivity;
    match goal with H : _ /\ _ |- _ => destruct H; discriminate end.
Qed.

(** C3 (as amended).  Whenever the transition of endpoint 1 returns a
    result, success or failure, a link operation enters the Endpoint
    Transition Executor exactly twice: on endpoint 1 first, then on
    endpoint 2. *)
Theorem link_invokes_both_endpoints_in_order
  op lab_path device1_id interface1_id device2_id interface2_id dry_run
  n r1 tr1 n1 :
  eveng_interface op lab_path device1_id interface1_id dry_run n
    = (Return r1, tr1, n1) ->
  transitions
    (trace_of (eveng_link op lab_path device1_id interface1_id
                 device2_id interface2_id dry_run n))
  = [(op, EvengIf lab_path device1_id interface1_id, dry_run);
     (op, EvengIf lab_path device2_id interface2_id, dry_run)].
Proof.
  intros H1.
  pose proof (eveng_interface_transitions op lab_path device1_id
                interface1_id dry_run n) as T1.
  pose proof (eveng_interface_transitions op lab_path device2_id
                interface2_id dry_run n1) as T2.
  rewrite H1 in T1. cbn [trace_of fst snd] in T1.
  rewrite eveng_link_unfold, (bind_returns _ _ _ _ _ _ H1).
  cbn [trace_of fst snd].
  rewrite transitions_app, T1.
  rewrite bind_unfold.
  destruct (eveng_interface op lab_path device2_id interface2_id dry_run n1)
    as [[[r2 | e2] tr2] n2]; cbn [trace_of fst snd] in *.
  - rewrite transitions_app, T2.
    destruct (fst r1 && fst r2); [ reflexivity | ].
    destruct (negb (fst r1)); reflexivity.
  - rewrite T2. reflexivity.
Qed.

(** In dry-run mode no premise is needed: both endpoints are entered, no
    external command is run, and the link operation succeeds. *)
Lemma link_dry_run op lab_path device1_id interface1_id
  device2_id interface2_id n :
  eveng_link op lab_path device1_id interface1_id device2_id interface2_id
    true n
  = (Return (true, "Successfully " ++ done op
                     ++ " link between device " ++ device1_id
                     ++ " interface " ++ interface1_id
                     ++ " and device " ++ device2_id
                     ++ " interface " ++ interface2_id),
     [EvTransition op (EvengIf lab_path device1_id interface1_id) true;
      EvTransition op (EvengIf lab_path device2_id interface2_id) true],
     n).
Proof. destruct op; reflexivity. Qed.

(** C1.  A link operation in dry-run mode runs no external command and
    succeeds, but the message it returns is the one of a real success and
    holds no dry-run marker: here on the link between interface 0 of
    device 1 and interface 0 of device 2. *)
Theorem link_dry_run_message_unmarked n :
  let suspended :=
    suspend_eveng_link "/opt/unetlab/labs/demo.unl" "1" "0" "2" "0" true n in
  let resumed :=
    resume_eveng_link "/opt/unetlab/labs/demo.unl" "1" "0" "2" "0" true n in
  value_of suspended
    = Return (true, "Successfully suspended link between device 1 interface 0 and device 2 interface 0")
  /\ value_of resumed
    = Return (true, "Successfully resumed link between device 1 interface 0 and device 2 interface 0")
  /\ commands (trace_of suspended) = []
  /\ commands (trace_of resumed) = []
  /\ PyStr.contains "dry"
       (PyStr.lower "Successfully suspended link between device 1 interface 0 and device 2 interface 0")
     = false
  /\ PyStr.contains "dry"
       (PyStr.lower "Successfully resumed link between device 1 interface 0 and device 2 interface 0")
     = false.
Proof. cbv zeta. repeat split; reflexivity. Qed.

(** ** Flap Sequencer *)

Lemma count_transitions_app op (a b : list step) :
  count_transitions op (a ++ b) = count_transitions op a + count_transitions op b.
Proof.
  induction a as [ | [op' | ] a IH ]; cbn; [ reflexivity | | exact IH ].
  rewrite IH. lia.
Qed.

Lemma transitions_performed_app (a b : list event) :
  transitions_performed (a ++ b)
  = transitions_performed a + transitions_performed b.
Proof.
  unfold transitions_performed.
  rewrite skeleton_app, !count_transitions_app. lia.
Qed.

Section FlapLoopFacts.

Variables suspend resume : M (bool * string).
Variables suspend_failed resume_failed : string -> string.
Variable count : Z.
Variable delay : float.

Let loop := flap_loop suspend resume suspend_failed resume_failed count delay.

(** One turn of the loop, spelled out. *)
Lemma flap_loop_step i remaining n :
  loop i (S remaining) n =
    match suspend n with
    | (Raise e, tr1, n1) => (Raise e, tr1, n1)
    | (Return (false, m1), tr1, n1) =>
        (Return (Some (false, suspend_failed m1)), tr1, n1)
    | (Return (true, _), tr1, n1) =>
        match resume n1 with
        | (Raise e, tr2, n2) =>
            (Raise e, (tr1 ++ EvSleep delay :: tr2)%list, n2)
        | (Return (false, m2), tr2, n2) =>
            (Return (Some (false, resume_failed m2)),
             (tr1 ++ EvSleep delay :: tr2)%list, n2)
        | (Return (true, _), tr2, n2) =>
            (value_of (loop (i + 1)%Z remaining n2),
             (tr1 ++ EvSleep delay :: tr2
                ++ (if (i <? count - 1)%Z then [EvSleep delay] else [])
                ++ trace_of (loop (i + 1)%Z remaining n2))%list,
             runs_of (loop (i + 1)%Z remaining n2))
        end
    end.
Proof.
  unfold loop. cbn [flap_loop]. fold loop.
  rewrite bind_unfold.
  destruct (suspend n) as [[[[[ | ] m1] | e1] tr1] n1]; cbn [negb];
    [ | cbn; rewrite app_nil_r; reflexivity | reflexivity ].
  rewrite bind_unfold. cbn [sleep emit].
  rewrite bind_unfold.
  destruct (resume n1) as [[[[[ | ] m2] | e2] tr2] n2]; cbn [negb];
    [ | cbn; rewrite app_nil_r; reflexivity | reflexivity ].
  rewrite bind_unfold.
  destruct (i <? count - 1)%Z; cbn; reflexivity.
Qed.

(** The loop leaves early only with a failure. *)
Lemma flap_loop_early_return_fails remaining :
  forall i n res tr n',
    loop i remaining n = (Return (Some res), tr, n') -> fst res = false.
Proof.
  induction remaining as [ | remaining IH ]; intros i n res tr n' H.
  - discriminate H.
  - rewrite flap_loop_step in H.
    destruct (suspend n) as [[[[[ | ] m1] | e1] tr1] n1];
      [ | injection H as <- _ _; reflexivity | discriminate H ].
    destruct (resume n1) as [[[[[ | ] m2] | e2] tr2] n2];
      [ | injection H as <- _ _; reflexivity | discriminate H ].
    injection H as Hv _ _.
    apply (IH (i + 1)%Z n2 res
             (trace_of (loop (i + 1)%Z remaining n2))
             (runs_of (loop (i + 1)%Z remaining n2))).
    rewrite (triple_eta (loop (i + 1)%Z remaining n2)) at 1.
    rewrite Hv. reflexivity.
Qed.

(** Cycles that complete can be followed by further cycles. *)
Lemma flap_loop_app a :
  forall i n tr0 n0 b,
    loop i a n = (Return None, tr0, n0) ->
    loop i (a + b) n =
      (value_of (loop (i + Z.of_nat a)%Z b n0),
       (tr0 ++ trace_of (loop (i + Z.of_nat a)%Z b n0))%list,
       runs_of (loop (i + Z.of_nat a)%Z b n0)).
Proof.
  induction a as [ | a IH ]; intros i n tr0 n0 b H.
  - injection H as <- <-. cbn [Nat.add Z.of_nat app].
    rewrite Z.add_0_r. apply triple_eta.
  - cbn [Nat.add]. rewrite flap_loop_step in H. rewrite flap_loop_step.
    destruct (suspend n) as [[[[[ | ] m1] | e1] tr1] n1];
      [ | discriminate H | discriminate H ].
    destruct (resume n1) as [[[[[ | ] m2] | e2] tr2] n2];
      [ | discriminate H | discriminate H ].
    injection H as Hv Ht Hn.
    assert (E : loop (i + 1)%Z a n2
                = (Return None, trace_of (loop (i + 1)%Z a n2), n0)).
    { rewrite (triple_eta (loop (i + 1)%Z a n2)) at 1.
      rewrite Hv, Hn. reflexivity. }
    rewrite (IH _ _ _ _ b E).
    replace (i + 1 + Z.of_nat a)%Z with (i + Z.of_nat (S a))%Z by lia.
    cbn [value_of trace_of runs_of fst snd].
    rewrite <- Ht.
    f_equal. f_equal.
    rewrite <- !app_assoc. cbn [app].
    rewrite <- !app_assoc. reflexivity.
Qed.

(** A suspend that fails after [a] complete cycles ends the loop there. *)
Lemma flap_loop_suspend_fails a i n tr0 n0 b m1 tr1 n1 :
  loop i a n = (Return None, tr0, n0) ->
  suspend n0 = (Return (false, m1), tr1, n1) ->
  loop i (a + S b) n
  = (Return (Some (false, suspend_failed m1)), (tr0 ++ tr1)%list, n1).
Proof.
  intros H Hs.
  rewrite (flap_loop_app _ _ _ _ _ (S b) H), flap_loop_step, Hs.
  reflexivity.
Qed.

(** A resume that fails after [a] complete cycles ends the loop there. *)
Lemma flap_loop_resume_fails a i n tr0 n0 b m1 tr1 n1 m2 tr2 n2 :
  loop i a n = (Return None, tr0, n0) ->
  suspend n0 = (Return (true, m1), tr1, n1) ->
  resume n1 = (Return (false, m2), tr2, n2) ->
  loop i (a + S b) n
  = (Return (Some (false, resume_failed m2)),
     (tr0 ++ tr1 ++ EvSleep delay :: tr2)%list, n2).
Proof.
  intros H Hs Hr.
  rewrite (flap_loop_app _ _ _ _ _ (S b) H), flap_loop_step, Hs, Hr.
  reflexivity.
Qed.

Hypothesis suspend_skeleton :
  forall n, skeleton (trace_of (suspend n)) = [Transition Suspend].
Hypothesis resume_skeleton :
  forall n, skeleton (trace_of (resume n)) = [Transition Resume].

(** The skeleton of cycles that complete. *)
Lemma flap_loop_skeleton remaining :
  forall i n tr n',
    loop i remaining n = (Return None, tr, n') ->
    skeleton tr = cycles_skeleton count i remaining.
Proof.
  induction remaining as [ | remaining IH ]; intros i n tr n' H.
  - injection H as <- _. reflexivity.
  - rewrite flap_loop_step in H.
    pose proof (suspend_skeleton n) as Hs.
    destruct (suspend n) as [[[[[ | ] m1] | e1] tr1] n1];
      [ | discriminate H | discriminate H ].
    pose proof (resume_skeleton n1) as Hr.
    destruct (resume n1) as [[[[[ | ] m2] | e2] tr2] n2];
      [ | discriminate H | discriminate H ].
    cbn [trace_of fst snd] in Hs, Hr.
    injection H as Hv Ht Hn.
    assert (E : loop (i + 1)%Z remaining n2
                = (Return None, trace_of (loop (i + 1)%Z remaining n2), n')).
    { rewrite (triple_eta (loop (i + 1)%Z remaining n2)) at 1.
      rewrite Hv, Hn. reflexivity. }
    apply IH in E.
    rewrite <- Ht.
    rewrite skeleton_app. cbn [skeleton].
    rewrite !skeleton_app, Hs, Hr, E.
    cbn [cycles_skeleton app].
    destruct (i <? count - 1)%Z; reflexivity.
Qed.

End FlapLoopFacts.

Section CyclesSkeleton.

Variable count : Z.

Lemma cycles_suspends remaining :
  forall i, count_transitions Suspend (cycles_skeleton count i remaining)
            = remaining.
Proof.
  induction remaining as [ | remaining IH ]; intros i; [ reflexivity | ].
  cbn [cycles_skeleton count_transitions transition_op_eqb].
  rewrite count_transitions_app, IH.
  destruct (i <? count - 1)%Z; cbn; lia.
Qed.

Lemma cycles_resumes remaining :
  forall i, count_transitions Resume (cycles_skeleton count i remaining)
            = remaining.
Proof.
  induction remaining as [ | remaining IH ]; intros i; [ reflexivity | ].
  cbn [cycles_skeleton count_transitions transition_op_eqb].
  rewrite count_transitions_app, IH.
  destruct (i <? count - 1)%Z; cbn; lia.
Qed.

(** Cycles start with a transition, so what came before does not
    matter to the classification of their delays. *)
Lemma cycles_delays_any_last op last last' i remaining :
  delays_after op last (cycles_skeleton count i remaining)
  = delays_after op last' (cycles_skeleton count i remaining).
Proof. destruct remaining; reflexivity. Qed.

Lemma cycles_mid_pair_delays remaining :
  forall i last,
    delays_after Suspend last (cycles_skeleton count i remaining) = remaining.
Proof.
  induction remaining as [ | remaining IH ]; intros i last; [ reflexivity | ].
  cbn [cycles_skeleton delays_after transition_op_eqb].
  destruct (i <? count - 1)%Z; cbn [app delays_after transition_op_eqb];
    rewrite IH; lia.
Qed.

Lemma cycles_between_pair_delays remaining :
  forall i last,
    delays_after Resume last (cycles_skeleton count i remaining)
    = Z.to_nat (Z.min (i + Z.of_nat remaining) (count - 1) - i).
Proof.
  induction remaining as [ | remaining IH ]; intros i last.
  - cbn [cycles_skeleton delays_after]. lia.
  - cbn [cycles_skeleton delays_after transition_op_eqb].
    destruct (Z.ltb_spec i (count - 1));
      cbn [app delays_after transition_op_eqb]; rewrite IH; lia.
Qed.

End CyclesSkeleton.

Lemma flap_with_unfold suspend resume suspend_failed resume_failed
  count delay final n :
  flap_with suspend resume suspend_failed resume_failed count delay final n
  = (match value_of (flap_loop suspend resume suspend_failed resume_failed
                       count delay 0%Z (Z.to_nat count) n) with
     | Return (Some res) => Return res
     | Return None => Return final
     | Raise e => Raise e
     end,
     trace_of (flap_loop suspend resume suspend_failed resume_failed
                 count delay 0%Z (Z.to_nat count) n),
     runs_of (flap_loop suspend resume suspend_failed resume_failed
                count delay 0%Z (Z.to_nat count) n)).
Proof.
  unfold flap_with. rewrite bind_unfold.
  destruct (flap_loop _ _ _ _ _ _ _ _ n) as [[[[res | ] | e] tr] n'];
    cbn; rewrite ?app_nil_r; reflexivity.
Qed.

(** Both loops of the source are the shared loop. *)
Lemma flap_cycles_is_flap_loop t count delay remaining :
  forall i n,
    flap_cycles t count delay i remaining n
    = flap_loop (flap_suspend t) (flap_resume t)
        (flap_failure t Suspend) (flap_failure t Resume)
        count delay i remaining n.
Proof.
  induction remaining as [ | remaining IH ]; intros i n.
  - destruct t; reflexivity.
  - rewrite flap_loop_step.
    destruct t as [ name | lab_path device_id interface_id dry_run ];
      cbn [flap_cycles flap_suspend flap_resume flap_failure verb] in *;
      cbn [flap_interface_loop flap_eveng_interface_loop];
      rewrite bind_unfold.
    + destruct (suspend_interface name n) as [[[[[ | ] m1] | e1] tr1] n1];
        cbn [negb]; try (cbn; rewrite ?app_nil_r; reflexivity).
      rewrite bind_unfold; cbn [sleep emit]; rewrite bind_unfold.
      destruct (resume_interface name n1) as [[[[[ | ] m2] | e2] tr2] n2];
        cbn [negb]; try (cbn; rewrite ?app_nil_r; reflexivity).
      rewrite bind_unfold, <- IH.
      destruct (i <? count - 1)%Z; cbn; reflexivity.
    + destruct (suspend_eveng_interface lab_path device_id interface_id dry_run n)
        as [[[[[ | ] m1] | e1] tr1] n1];
        cbn [negb]; try (cbn; rewrite ?app_nil_r; reflexivity).
      rewrite bind_unfold; cbn [sleep emit]; rewrite bind_unfold.
      destruct (resume_eveng_interface lab_path device_id interface_id dry_run n1)
        as [[[[[ | ] m2] | e2] tr2] n2];
        cbn [negb]; try (cbn; rewrite ?app_nil_r; reflexivity).
      rewrite bind_unfold, <- IH.
      destruct (i <? count - 1)%Z; cbn; reflexivity.
Qed.

Lemma flap_cycles_is_flap_loop_early t count delay remaining i n res tr n' :
  flap_cycles t count delay i remaining n = (Return (Some res), tr, n') ->
  fst res = false.
Proof.
  rewrite flap_cycles_is_flap_loop. apply flap_loop_early_return_fails.
Qed.

Lemma flap_is_flap_with t count delay n :
  flap t count delay n
  = flap_with (flap_suspend t) (flap_resume t)
      (flap_failure t Suspend) (flap_failure t Resume)
      count delay (flap_success t count delay) n.
Proof.
  rewrite flap_with_unfold, <- flap_cycles_is_flap_loop.
  destruct t as [ name | lab_path device_id interface_id dry_run ];
    cbn [flap flap_cycles flap_success];
    unfold flap_interface, flap_eveng_interface;
    rewrite bind_unfold;
    match goal with |- context [match ?l n with _ => _ end] =>
      destruct (l n) as [[[[res | ] | e] tr] n']
    end; cbn; rewrite ?app_nil_r; try reflexivity.
  destruct dry_run; cbn; rewrite ?app_nil_r; reflexivity.
Qed.

Lemma flap_suspend_skeleton t n :
  skeleton (trace_of (flap_suspend t n)) = [Transition Suspend].
Proof.
  destruct t as [ name | lab_path device_id interface_id dry_run ].
  - cbn [flap_suspend].
    unfold suspend_interface, bind, try_except, emit, run, ret, raise; cbn.
    destruct (subprocess_run w n _); reflexivity.
  - apply (eveng_interface_skeleton Suspend).
Qed.

Lemma flap_resume_skeleton t n :
  skeleton (trace_of (flap_resume t n)) = [Transition Resume].
Proof.
  destruct t as [ name | lab_path device_id interface_id dry_run ].
  - cbn [flap_resume].
    unfold resume_interface, bind, try_except, emit, run, ret, raise; cbn.
    destruct (subprocess_run w n _); reflexivity.
  - apply (eveng_interface_skeleton Resume).
Qed.

Lemma flap_cycles_skeleton t count delay remaining i n tr n' :
  flap_cycles t count delay i remaining n = (Return None, tr, n') ->
  skeleton tr = cycles_skeleton count i remaining.
Proof.
  rewrite flap_cycles_is_flap_loop.
  apply flap_loop_skeleton;
    [ apply flap_suspend_skeleton | apply flap_resume_skeleton ].
Qed.

(** A sequence that succeeds ran all its cycles. *)
Lemma flap_success_ran_all t count delay n message :
  value_of (flap t count delay n) = Return (true, message) ->
  skeleton (trace_of (flap t count delay n))
  = cycles_skeleton count 0%Z (Z.to_nat count).
Proof.
  rewrite flap_is_flap_with, flap_with_unfold, <- flap_cycles_is_flap_loop.
  cbn [value_of trace_of fst snd].
  intros H.
  destruct (flap_cycles t count delay 0%Z (Z.to_nat count) n)
    as [[[[res | ] | e] tr] n'] eqn:E; cbn [value_of trace_of fst snd] in *.
  - apply flap_cycles_is_flap_loop_early in E.
    injection H as H. rewrite H in E. discriminate E.
  - eapply flap_cycles_skeleton. exact E.
  - discriminate H.
Qed.

Lemma flap_stops_at_failing_suspend t count delay k n tr0 n0 m1 tr1 n1 :
  (0 <= k < count)%Z ->
  flap_cycles t count delay 0%Z (Z.to_nat k) n = (Return None, tr0, n0) ->
  flap_suspend t n0 = (Return (false, m1), tr1, n1) ->
  flap t count delay n
  = (Return (false, flap_failure t Suspend m1), (tr0 ++ tr1)%list, n1).
Proof.
  intros Hk H0 Hs.
  rewrite flap_cycles_is_flap_loop in H0.
  rewrite flap_is_flap_with, flap_with_unfold.
  replace (Z.to_nat count)
    with (Z.to_nat k + S (Z.to_nat count - Z.to_nat k - 1))%nat by lia.
  rewrite (flap_loop_suspend_fails _ _ _ _ _ _ _ _ _ _ _ _ _ _ _ H0 Hs).
  reflexivity.
Qed.

Lemma flap_stops_at_failing_resume t count delay k n tr0 n0
  m1 tr1 n1 m2 tr2 n2 :
  (0 <= k < count)%Z ->
  flap_cycles t count delay 0%Z (Z.to_nat k) n = (Return None, tr0, n0) ->
  flap_suspend t n0 = (Return (true, m1), tr1, n1) ->
  flap_resume t n1 = (Return (false, m2), tr2, n2) ->
  flap t count delay n
  = (Return (false, flap_failure t Resume m2),
     (tr0 ++ tr1 ++ EvSleep delay :: tr2)%list, n2).
Proof.
  intros Hk H0 Hs Hr.
  rewrite flap_cycles_is_flap_loop in H0.
  rewrite flap_is_flap_with, flap_with_unfold.
  replace (Z.to_nat count)
    with (Z.to_nat k + S (Z.to_nat count - Z.to_nat k - 1))%nat by lia.
  rewrite (flap_loop_resume_fails _ _ _ _ _ _ _ _ _ _ _ _ _ _ _ _ _ _
             H0 Hs Hr).
  reflexivity.
Qed.

(** The sequence ends at the first step that fails.  In a flap sequence,
    let [k] cycles have completed.  If the suspend of the next cycle
    returns success=false, or its suspend succeeds and its resume returns
    success=false, the sequence ends with that step: its trace is the
    trace of the completed cycles followed by that of the cycle up to the
    failing step, with no transition or delay after it, and its result is
    success=false with the message that [flap_failure] builds: it names
    the failed step, and only for an EVE-NG endpoint does it hold the
    step's own message. *)
Theorem flap_aborts_at_first_failure t count delay k n tr0 n0 :
  (0 <= k < count)%Z ->
  flap_cycles t count delay 0%Z (Z.to_nat k) n = (Return None, tr0, n0) ->
  (forall m1 tr1 n1,
      flap_suspend t n0 = (Return (false, m1), tr1, n1) ->
      flap t count delay n
      = (Return (false, flap_failure t Suspend m1), (tr0 ++ tr1)%list, n1))
  /\ (forall m1 tr1 n1 m2 tr2 n2,
      flap_suspend t n0 = (Return (true, m1), tr1, n1) ->
      flap_resume t n1 = (Return (false, m2), tr2, n2) ->
      flap t count delay n
      = (Return (false, flap_failure t Resume m2),
         (tr0 ++ tr1 ++ EvSleep delay :: tr2)%list, n2)).
Proof.
  intros Hk H0. split.
  - intros m1 tr1 n1 Hs.
    exact (flap_stops_at_failing_suspend _ _ _ _ _ _ _ _ _ _ Hk H0 Hs).
  - intros m1 tr1 n1 m2 tr2 n2 Hs Hr.
    exact (flap_stops_at_failing_resume _ _ _ _ _ _ _ _ _ _ _ _ _
             Hk H0 Hs Hr).
Qed.

Lemma completed_cycles_transitions t count delay remaining i n tr n' :
  flap_cycles t count delay i remaining n = (Return None, tr, n') ->
  transitions_performed tr = 2 * remaining.
Proof.
  intros H. apply flap_cycles_skeleton in H.
  unfold transitions_performed.
  rewrite H, cycles_suspends, cycles_resumes. lia.
Qed.

(** C4 (as amended).  For a count N >= 1, a flap sequence that succeeds
    performs exactly 2N transitions, N suspends and N resumes, with N
    delays between a suspend and its resume and N-1 delays between one
    cycle and the next; and when the first k-1 cycles complete and cycle k
    fails, the sequence has performed 2k-1 transitions if the suspend
    failed and 2k if the resume did. *)
Theorem flap_transition_and_delay_counts t N delay n :
  (1 <= N)%Z ->
  (forall message,
      value_of (flap t N delay n) = Return (true, message) ->
      count_transitions Suspend (skeleton (trace_of (flap t N delay n)))
        = Z.to_nat N
      /\ count_transitions Resume (skeleton (trace_of (flap t N delay n)))
        = Z.to_nat N
      /\ transitions_performed (trace_of (flap t N delay n)) = 2 * Z.to_nat N
      /\ mid_pair_delays (trace_of (flap t N delay n)) = Z.to_nat N
      /\ between_pair_delays (trace_of (flap t N delay n)) = Z.to_nat N - 1)
  /\ (forall k tr0 n0,
        (1 <= k <= N)%Z ->
        flap_cycles t N delay 0%Z (Z.to_nat (k - 1)) n = (Return None, tr0, n0) ->
        (forall m1 tr1 n1,
            flap_suspend t n0 = (Return (false, m1), tr1, n1) ->
            transitions_performed (trace_of (flap t N delay n))
            = Z.to_nat (2 * k - 1))
        /\ (forall m1 tr1 n1 m2 tr2 n2,
            flap_suspend t n0 = (Return (true, m1), tr1, n1) ->
            flap_resume t n1 = (Return (false, m2), tr2, n2) ->
            transitions_performed (trace_of (flap t N delay n))
            = Z.to_nat (2 * k))).
Proof.
  intros HN. split.
  - intros message H.
    apply flap_success_ran_all in H.
    unfold transitions_performed, mid_pair_delays, between_pair_delays.
    rewrite H, cycles_suspends, cycles_resumes,
      cycles_mid_pair_delays, cycles_between_pair_delays.
    repeat split; lia.
  - intros k tr0 n0 Hk H0.
    assert (Hk' : (0 <= k - 1 < N)%Z) by lia.
    pose proof (completed_cycles_transitions _ _ _ _ _ _ _ _ H0) as T0.
    split.
    + intros m1 tr1 n1 Hs.
      rewrite (flap_stops_at_failing_suspend _ _ _ _ _ _ _ _ _ _ Hk' H0 Hs).
      cbn [trace_of fst snd].
      rewrite transitions_performed_app, T0.
      pose proof (flap_suspend_skeleton t n0) as S1.
      rewrite Hs in S1. cbn [trace_of fst snd] in S1.
      unfold transitions_performed at 1. rewrite S1.
      cbn [count_transitions transition_op_eqb skeleton]. lia.
    + intros m1 tr1 n1 m2 tr2 n2 Hs Hr.
      rewrite (flap_stops_at_failing_resume _ _ _ _ _ _ _ _ _ _ _ _ _
                 Hk' H0 Hs Hr).
      cbn [trace_of fst snd].
      rewrite !transitions_performed_app, T0.
      pose proof (flap_suspend_skeleton t n0) as S1.
      rewrite Hs in S1. cbn [trace_of fst snd] in S1.
      pose proof (flap_resume_skeleton t n1) as S2.
      rewrite Hr in S2. cbn [trace_of fst snd] in S2.
      change (EvSleep delay :: tr2) with ([EvSleep delay] ++ tr2)%list.
      rewrite transitions_performed_app.
      unfold transitions_performed at 1 2 3. rewrite S1, S2.
      cbn [count_transitions transition_op_eqb skeleton]. lia.
Qed.

(** ** Identifier Resolver *)

Lemma find_interface_is_first_match bucket last_part interface_name :
  find_interface bucket last_part interface_name
  = option_map fst (find (entry_matches last_part interface_name) bucket).
Proof.
  induction bucket as [ | [if_id d] bucket IH ]; [ reflexivity | ].
  cbn [find_interface find]. unfold entry_matches at 1. cbn [fst snd].
  destruct (id_matches if_id last_part); [ reflexivity | ].
  destruct (name_matches d interface_name); [ reflexivity | ].
  destruct (partial_name_matches d interface_name); [ reflexivity | ].
  exact IH.
Qed.

(** The loop over a bucket, for any text compared with the local IDs:
    the interfaces are tried in the provider's order, and the first one
    that passes any of the three tests (local ID equal to that text,
    display name equal up to case, requested name contained in the
    display name) is returned; so an interface whose local ID equals the
    text is the one returned whenever no interface listed before it
    passes any of the tests. *)
Theorem find_interface_first_entry_passing_any_test
  bucket last_part interface_name :
  find_interface bucket last_part interface_name
  = option_map fst (find (entry_matches last_part interface_name) bucket)
  /\ (forall before if_id d after,
        bucket = (before ++ (if_id, d) :: after)%list ->
        forallb (fun e => negb (entry_matches last_part interface_name e))
          before = true ->
        id_matches if_id last_part = true ->
        find_interface bucket last_part interface_name = Some if_id).
Proof.
  split; [ apply find_interface_is_first_match | ].
  intros before if_id d after -> Hbefore Hid.
  rewrite find_interface_is_first_match.
  induction before as [ | e before IH ]; cbn [app find forallb] in *.
  - unfold entry_matches. cbn [fst snd]. rewrite Hid. reflexivity.
  - apply andb_true_iff in Hbefore as [He Hbefore].
    apply negb_true_iff in He. rewrite He. apply IH, Hbefore.
Qed.

(** ** Batch Runner *)

Lemma lstrip_all_space s : PyStr.all_space s = true -> PyStr.lstrip s = "".
Proof.
  induction s as [ | c s IH ]; [ reflexivity | ].
  cbn [PyStr.all_space PyStr.lstrip]. intros H.
  apply andb_true_iff in H as [Hc Hs]. rewrite Hc. apply IH, Hs.
Qed.

Lemma blank_line_skipped raw :
  PyStr.all_space raw = true -> skipped (PyStr.strip raw) = true.
Proof.
  intros H. unfold PyStr.strip. rewrite (lstrip_all_space _ H). reflexivity.
Qed.

Lemma comment_line_skipped raw :
  PyStr.startswith raw "#" = true -> skipped (PyStr.strip raw) = true.
Proof.
  unfold PyStr.startswith. destruct raw as [ | c raw ]; [ discriminate | ].
  cbn [String.prefix]. destruct (ascii_dec "#" c) as [ <- | ]; [ | discriminate ].
  intros _. unfold skipped, PyStr.strip, PyStr.startswith.
  assert (E : PyStr.isspace "#" = false) by reflexivity.
  cbn [PyStr.lstrip]. rewrite E.
  cbn [PyStr.rstrip]. rewrite E.
  cbn [andb String.prefix].
  destruct (ascii_dec "#" "#") as [ _ | N ]; [ | contradiction ].
  destruct (PyStr.rstrip raw); apply orb_true_r.
Qed.

Lemma skipped_line_ignored eve_client operation lab_path dry_run count delay
  i raw counts n :
  skipped (PyStr.strip raw) = true ->
  process_line eve_client operation lab_path dry_run count delay i raw counts n
  = (Return counts, [], n).
Proof. intros H. unfold process_line. rewrite H. reflexivity. Qed.

Lemma malformed_line_counted eve_client operation lab_path dry_run count delay
  i raw success_count failure_count n :
  skipped (PyStr.strip raw) = false ->
  List.length (PyStr.split "," (PyStr.strip raw)) <> 2%nat ->
  List.length (PyStr.split "," (PyStr.strip raw)) <> 4%nat ->
  process_line eve_client operation lab_path dry_run count delay i raw
    (success_count, failure_count) n
  = (Return (success_count, (failure_count + 1)%Z),
     [EvPrint
        ("Line " ++ PyStr.str_int i
           ++ ": Invalid format - expected 2 or 4 comma-separated values, got "
           ++ PyStr.str_int
                (Z.of_nat (List.length (PyStr.split "," (PyStr.strip raw))))
           ++ " (for " ++ PyStr.strip raw ++ ")")],
     n).
Proof.
  intros Hskip H2 H4. unfold process_line. rewrite Hskip.
  unfold try_except, process_record.
  destruct (PyStr.split "," (PyStr.strip raw))
    as [ | a [ | b [ | c [ | d [ | e l ] ] ] ] ];
    cbn [List.length] in *; try congruence; reflexivity.
Qed.

Lemma batch_loop_cons eve_client operation lab_path dry_run count delay
  i raw rest counts n counts' tr n' :
  process_line eve_client operation lab_path dry_run count delay i raw counts n
  = (Return counts', tr, n') ->
  batch_loop eve_client operation lab_path dry_run count delay
    i (raw :: rest) counts n
  = (value_of (batch_loop eve_client operation lab_path dry_run count delay
                 (i + 1)%Z rest counts' n'),
     (tr ++ trace_of (batch_loop eve_client operation lab_path dry_run
                        count delay (i + 1)%Z rest counts' n'))%list,
     runs_of (batch_loop eve_client operation lab_path dry_run count delay
                (i + 1)%Z rest counts' n')).
Proof.
  intros H. cbn [batch_loop]. rewrite (bind_returns _ _ _ _ _ _ H).
  reflexivity.
Qed.

(** C8.  A blank line, or one beginning with [#], is skipped: the counters
    and the trace are left as they were and the loop goes on with the next
    line.  A line that is not skipped splits on [,] into 4 fields, 2
    fields or some other number of them; in the last case failure_count
    grows by exactly one, success_count is unchanged, the only event is
    the printed message (no transition is entered, no command is run), and
    the loop goes on with the next line. *)
Theorem batch_skips_blank_and_counts_malformed
  eve_client operation lab_path dry_run count delay
  i raw rest success_count failure_count n :
  (PyStr.all_space raw = true \/ PyStr.startswith raw "#" = true ->
     process_line eve_client operation lab_path dry_run count delay i raw
       (success_count, failure_count) n
     = (Return (success_count, failure_count), [], n)
     /\ batch_loop eve_client operation lab_path dry_run count delay
          i (raw :: rest) (success_count, failure_count) n
        = batch_loop eve_client operation lab_path dry_run count delay
            (i + 1)%Z rest (success_count, failure_count) n)
  /\ (skipped (PyStr.strip raw) = false ->
      List.length (PyStr.split "," (PyStr.strip raw)) <> 2%nat ->
      List.length (PyStr.split "," (PyStr.strip raw)) <> 4%nat ->
      exists text,
        process_line eve_client operation lab_path dry_run count delay i raw
          (success_count, failure_count) n
        = (Return (success_count, (failure_count + 1)%Z), [EvPrint text], n)
        /\ batch_loop eve_client operation lab_path dry_run count delay
             i (raw :: rest) (success_count, failure_count) n
           = (value_of (batch_loop eve_client operation lab_path dry_run
                          count delay (i + 1)%Z rest
                          (success_count, (failure_count + 1)%Z) n),
              EvPrint text
                :: trace_of (batch_loop eve_client operation lab_path dry_run
                               count delay (i + 1)%Z rest
                               (success_count, (failure_count + 1)%Z) n),
              runs_of (batch_loop eve_client operation lab_path dry_run
                         count delay (i + 1)%Z rest
                         (success_count, (failure_count + 1)%Z) n))).
Proof.
  split.
  - intros H.
    assert (Hskip : skipped (PyStr.strip raw) = true).
    { destruct H; [ apply blank_line_skipped | apply comment_line_skipped ];
        assumption. }
    pose proof (skipped_line_ignored eve_client operation lab_path dry_run
                  count delay i raw (success_count, failure_count) n Hskip)
      as E.
    split; [ exact E | ].
    rewrite (batch_loop_cons _ _ _ _ _ _ _ _ rest _ _ _ _ _ E).
    cbn [app]. symmetry. apply triple_eta.
  - intros Hskip H2 H4.
    pose proof (malformed_line_counted eve_client operation lab_path dry_run
                  count delay i raw success_count failure_count n
                  Hskip H2 H4) as E.
    eexists. split; [ exact E | ].
    rewrite (batch_loop_cons _ _ _ _ _ _ _ _ rest _ _ _ _ _ E).
    reflexivity.
Qed.

Lemma invalid_operation_rejected operation :
  ~ In operation ["suspend"; "resume"; "flap"] ->
  valid_operation operation = false.
Proof.
  intros H. unfold valid_operation.
  destruct (existsb (String.eqb operation) ["suspend"; "resume"; "flap"]) eqn:E;
    [ | reflexivity ].
  apply existsb_exists in E as [x [Hin Heq]].
  apply String.eqb_eq in Heq. subst x. contradiction.
Qed.

Lemma missing_or_invalid_returns_zero filename operation lab_path
  dry_run count delay n :
  files w filename = None \/ ~ In operation ["suspend"; "resume"; "flap"] ->
  process_batch_file filename operation lab_path dry_run count delay n
  = (Return (0%Z, 0%Z), [], n).
Proof.
  intros [H | H]; unfold process_batch_file, path_exists.
  - rewrite H. reflexivity.
  - rewrite (invalid_operation_rejected _ H).
    destruct (files w filename); reflexivity.
Qed.

Lemma skipped_lines_count_nothing eve_client operation lab_path
  dry_run count delay lines :
  forall i counts n,
    forallb (fun raw => skipped (PyStr.strip raw)) lines = true ->
    batch_loop eve_client operation lab_path dry_run count delay
      i lines counts n
    = (Return counts, [], n).
Proof.
  induction lines as [ | raw lines IH ]; intros i counts n H;
    [ reflexivity | ].
  cbn [forallb] in H. apply andb_true_iff in H as [Hraw Hlines].
  rewrite (batch_loop_cons _ _ _ _ _ _ _ _ _ _ _ _ _ _
             (skipped_line_ignored eve_client operation lab_path dry_run
                count delay i raw counts n Hraw)).
  rewrite (IH _ _ _ Hlines). reflexivity.
Qed.

(** C10.  For a file that does not exist, and for an operation other than
    suspend, resume and flap, [process_batch_file] returns (0, 0) at once:
    no line is read and nothing at all happens.  That is also the outcome
    of the loop over lines that are all skipped, and [main] then returns
    without the non-zero indication, as for a batch without failures. *)
Theorem missing_file_or_invalid_operation_looks_like_success
  filename operation lab_path dry_run count delay n :
  files w filename = None \/ ~ In operation ["suspend"; "resume"; "flap"] ->
  process_batch_file filename operation lab_path dry_run count delay n
  = (Return (0%Z, 0%Z), [], n)
  /\ (forall eve_client i lines m,
        forallb (fun raw => skipped (PyStr.strip raw)) lines = true ->
        value_of (batch_loop eve_client operation lab_path dry_run count delay
                    i lines (0%Z, 0%Z) m)
        = value_of (process_batch_file filename operation lab_path
                      dry_run count delay n))
  /\ (forall lab,
        value_of (main (mkBatchArgs operation filename lab count delay dry_run) n)
        = Return None).
Proof.
  intros H. split; [ | split ].
  - apply missing_or_invalid_returns_zero, H.
  - intros eve_client i lines m Hlines.
    rewrite (skipped_lines_count_nothing _ _ _ _ _ _ _ _ _ _ Hlines).
    rewrite (missing_or_invalid_returns_zero _ _ lab_path dry_run count delay n H).
    reflexivity.
  - intros lab. unfold main. cbn [args_file args_operation args_lab
      args_count args_delay args_dry_run].
    rewrite (bind_returns _ _ _ _ _ _
               (missing_or_invalid_returns_zero _ _ _ dry_run count delay n H)).
    reflexivity.
Qed.

(** * Further properties *)

(** ** Computations that run no command, computations that do not exit *)

Lemma quiet_ret {A : Type} (a : A) : quiet (ret a).
Proof. intros n. split; reflexivity. Qed.

Lemma quiet_raise {A : Type} (e : exn) : quiet (@raise A e).
Proof. intros n. split; reflexivity. Qed.

Lemma quiet_bind {A B : Type} (m : M A) (k : A -> M B) :
  quiet m -> (forall a, quiet (k a)) -> quiet (bind m k).
Proof.
  intros Hm Hk n. rewrite bind_unfold.
  destruct (Hm n) as [Hc Hr].
  destruct (m n) as [[[a | e] tr] n']; cbn [trace_of runs_of fst snd] in *.
  - subst n'. destruct (Hk a n) as [Hc' Hr'].
    rewrite commands_app, Hc, Hc'. split; [ reflexivity | exact Hr' ].
  - split; assumption.
Qed.

Lemma quiet_try_except {A : Type} (m : M A) (h : exn -> M A) :
  quiet m -> (forall e, quiet (h e)) -> quiet (try_except m h).
Proof.
  intros Hm Hh n. unfold try_except.
  destruct (Hm n) as [Hc Hr].
  destruct (m n) as [[[a | e] tr] n']; cbn [trace_of runs_of fst snd] in *.
  - split; assumption.
  - subst n'. destruct (Hh e n) as [Hc' Hr'].
    destruct (h e n) as [[r tr'] n'']; cbn [trace_of runs_of fst snd] in *.
    rewrite commands_app, Hc, Hc'. split; [ reflexivity | exact Hr' ].
Qed.

Lemma quiet_sleep delay : quiet (sleep delay).
Proof. intros n. split; reflexivity. Qed.

Lemma quiet_print text : quiet (print text).
Proof. intros n. split; reflexivity. Qed.

Lemma quiet_if {A : Type} (b : bool) (m1 m2 : M A) :
  quiet m1 -> quiet m2 -> quiet (if b then m1 else m2).
Proof. destruct b; auto. Qed.

Lemma contained_ret {A : Type} (a : A) : contained (ret a).
Proof. intros n code H. discriminate H. Qed.

Lemma contained_bind {A B : Type} (m : M A) (k : A -> M B) :
  contained m -> (forall a, contained (k a)) -> contained (bind m k).
Proof.
  intros Hm Hk n code. rewrite bind_unfold.
  pose proof (Hm n code) as H1.
  destruct (m n) as [[[a | e] tr] n']; cbn [value_of fst] in *.
  - apply Hk.
  - intros H. apply H1. injection H as ->. reflexivity.
Qed.

Lemma contained_if {A : Type} (b : bool) (m1 m2 : M A) :
  contained m1 -> contained m2 -> contained (if b then m1 else m2).
Proof. destruct b; auto. Qed.

Lemma contained_sleep delay : contained (sleep delay).
Proof. intros n code H. discriminate H. Qed.

Lemma contained_print text : contained (print text).
Proof. intros n code H. discriminate H. Qed.

(** Every transition function of the module leaves with a result or with
    an exception of the command; none ends the process. *)
Lemma eveng_interface_contained op lab_path device_id interface_id dry_run :
  contained (eveng_interface op lab_path device_id interface_id dry_run).
Proof.
  intros n code. destruct dry_run.
  - rewrite eveng_interface_dry_run. discriminate.
  - rewrite eveng_interface_apply. cbn [value_of fst].
    destruct (subprocess_run w n _); discriminate.
Qed.

Lemma eveng_link_contained op lab_path d1 i1 d2 i2 dry_run :
  contained (eveng_link op lab_path d1 i1 d2 i2 dry_run).
Proof.
  intros n code. rewrite eveng_link_unfold. revert n code.
  apply contained_bind; [ apply eveng_interface_contained | intros r1 ].
  apply contained_bind; [ apply eveng_interface_contained | intros r2 ].
  repeat apply contained_if; apply contained_ret.
Qed.

Lemma host_suspend_contained name : contained (suspend_interface name).
Proof.
  intros n code.
  unfold suspend_interface, bind, try_except, emit, run, ret, raise; cbn.
  destruct (subprocess_run w n _); discriminate.
Qed.

Lemma host_resume_contained name : contained (resume_interface name).
Proof.
  intros n code.
  unfold resume_interface, bind, try_except, emit, run, ret, raise; cbn.
  destruct (subprocess_run w n _); discriminate.
Qed.

Lemma flap_suspend_contained t : contained (flap_suspend t).
Proof.
  destruct t; [ apply host_suspend_contained
              | apply (eveng_interface_contained Suspend) ].
Qed.

Lemma flap_resume_contained t : contained (flap_resume t).
Proof.
  destruct t; [ apply host_resume_contained
              | apply (eveng_interface_contained Resume) ].
Qed.

Lemma flap_loop_contained suspend resume suspend_failed resume_failed
  count delay remaining :
  contained suspend -> contained resume ->
  forall i,
    contained (flap_loop suspend resume suspend_failed resume_failed
                 count delay i remaining).
Proof.
  intros Hs Hr.
  induction remaining as [ | remaining IH ]; intros i.
  - apply contained_ret.
  - cbn [flap_loop].
    apply contained_bind; [ exact Hs | intros [s1 m1] ].
    apply contained_if; [ apply contained_ret | ].
    apply contained_bind; [ apply contained_sleep | intros _ ].
    apply contained_bind; [ exact Hr | intros [s2 m2] ].
    apply contained_if; [ apply contained_ret | ].
    apply contained_bind;
      [ apply contained_if; [ apply contained_sleep | apply contained_ret ]
      | intros _; apply IH ].
Qed.

Lemma flap_contained t count delay : contained (flap t count delay).
Proof.
  intros n code. rewrite flap_is_flap_with. revert n code.
  unfold flap_with.
  apply contained_bind.
  - apply flap_loop_contained;
      [ apply flap_suspend_contained | apply flap_resume_contained ].
  - intros [res | ]; apply contained_ret.
Qed.

(** ** Batch Runner: every record is counted once *)

Lemma counted_bind {A : Type} s f (m : M A) (k : A -> M (Z * Z)) :
  contained m -> (forall a, counted_once s f (k a)) ->
  counted_once s f (bind m k).
Proof.
  intros Hm Hk n. rewrite bind_unfold.
  pose proof (Hm n) as H1.
  destruct (m n) as [[[a | e] tr] n']; cbn [value_of fst] in *.
  - apply Hk.
  - destruct e as [ text | text | code ]; [ exact I | exact I | ].
    apply (H1 code). reflexivity.
Qed.

Lemma counted_tally i line res s f : counted_once s f (tally i line res (s, f)).
Proof.
  intros n. destruct res as [[ | ] message]; cbn; [ left | right ];
    split; reflexivity.
Qed.

Lemma counted_failure text s f :
  counted_once s f (bind (print text) (fun _ => ret (s, (f + 1)%Z))).
Proof. intros n. cbn. right. split; reflexivity. Qed.

Lemma process_record_counted eve_client operation lab_path dry_run count delay
  i line s f :
  counted_once s f
    (process_record eve_client operation lab_path dry_run count delay
       i line (s, f)).
Proof.
  unfold process_record.
  destruct (PyStr.split "," line) as [ | a [ | b [ | c [ | d [ | e l ] ] ] ] ];
    try apply counted_failure.
  - (* two fields *)
    destruct (falsy (get_device_id_by_name eve_client lab_path a));
      [ apply counted_failure | ].
    destruct (falsy (get_interface_id_by_name eve_client lab_path _ b));
      [ apply counted_failure | ].
    apply counted_bind; [ | intros res; apply counted_tally ].
    repeat apply contained_if.
    + apply (eveng_interface_contained Suspend).
    + apply (eveng_interface_contained Resume).
    + apply (flap_contained (FlapEveng _ _ _ _)).
  - (* four fields *)
    apply counted_bind; [ | intros res; apply counted_tally ].
    repeat apply contained_if.
    + apply (eveng_link_contained Suspend).
    + apply (eveng_link_contained Resume).
    + apply contained_bind;
        [ apply (flap_contained (FlapEveng _ _ _ _)) | intros [r1 m1] ].
      apply contained_bind;
        [ apply (flap_contained (FlapEveng _ _ _ _)) | intros [r2 m2] ].
      apply contained_ret.
Qed.

Lemma process_line_counts eve_client operation lab_path dry_run count delay
  i raw s f n :
  exists s' f' tr n',
    process_line eve_client operation lab_path dry_run count delay i raw (s, f) n
    = (Return (s', f'), tr, n')
    /\ (if skipped (PyStr.strip raw)
        then s' = s /\ f' = f
        else (s' = (s + 1)%Z /\ f' = f) \/ (s' = s /\ f' = (f + 1)%Z)).
Proof.
  unfold process_line.
  destruct (skipped (PyStr.strip raw)).
  - exists s, f, [], n. split; [ reflexivity | split; reflexivity ].
  - unfold try_except.
    pose proof (process_record_counted eve_client operation lab_path dry_run
                  count delay i (PyStr.strip raw) s f n) as H.
    destruct (process_record _ _ _ _ _ _ _ _ _ n)
      as [[[[s' f'] | e] tr] n']; cbn [value_of fst] in H.
    + exists s', f', tr, n'. split; [ reflexivity | exact H ].
    + destruct e as [ text | text | code ]; [ | | contradiction ];
        cbn; do 4 eexists; (split; [ reflexivity | right; split; reflexivity ]).
Qed.

Lemma records_cons raw lines :
  records (raw :: lines)
  = if skipped (PyStr.strip raw) then records lines else raw :: records lines.
Proof.
  unfold records. cbn [List.filter].
  destruct (skipped (PyStr.strip raw)); reflexivity.
Qed.

Lemma batch_loop_counts eve_client operation lab_path dry_run count delay lines :
  forall i s f n,
  exists s' f',
    value_of (batch_loop eve_client operation lab_path dry_run count delay
                i lines (s, f) n)
    = Return (s', f')
    /\ (s <= s')%Z /\ (f <= f')%Z
    /\ ((s' - s) + (f' - f))%Z = Z.of_nat (List.length (records lines)).
Proof.
  induction lines as [ | raw lines IH ]; intros i s f n.
  - exists s, f. cbn. repeat split; lia.
  - destruct (process_line_counts eve_client operation lab_path dry_run
                count delay i raw s f n) as (s1 & f1 & tr & n1 & E & H).
    rewrite (batch_loop_cons _ _ _ _ _ _ _ _ lines _ _ _ _ _ E).
    cbn [value_of fst].
    destruct (IH (i + 1)%Z s1 f1 n1) as (s' & f' & E' & Hs & Hf & Hsum).
    exists s', f'. split; [ exact E' | ].
    rewrite records_cons.
    destruct (skipped (PyStr.strip raw)); cbn [List.length]; lia.
Qed.

Lemma connect_succeeds host username password cli n :
  login w host username password = Some cli ->
  connect_to_eveng host username password n
  = (Return cli, [EvLogin host username password], n).
Proof.
  intros H. unfold connect_to_eveng, bind, emit. rewrite H. reflexivity.
Qed.

Lemma connect_fails host username password n :
  login w host username password = None ->
  connect_to_eveng host username password n
  = (Raise (SystemExit 1%Z), [EvLogin host username password], n).
Proof.
  intros H. unfold connect_to_eveng, bind, emit. rewrite H. reflexivity.
Qed.

Lemma process_batch_file_logged_in filename operation lab_path dry_run
  count delay lines cli n :
  files w filename = Some lines ->
  valid_operation operation = true ->
  login w batch_host batch_username batch_password = Some cli ->
  process_batch_file filename operation lab_path dry_run count delay n
  = (value_of (batch_loop cli operation lab_path dry_run count delay
                 1%Z lines (0%Z, 0%Z) n),
     EvLogin batch_host batch_username batch_password
       :: trace_of (batch_loop cli operation lab_path dry_run count delay
                      1%Z lines (0%Z, 0%Z) n),
     runs_of (batch_loop cli operation lab_path dry_run count delay
                1%Z lines (0%Z, 0%Z) n)).
Proof.
  intros Hf Hop Hlogin.
  unfold process_batch_file, path_exists. rewrite Hf, Hop. cbn [negb].
  fold batch_host batch_username batch_password.
  rewrite (bind_returns _ _ _ _ _ _ (connect_succeeds _ _ _ _ n Hlogin)).
  reflexivity.
Qed.

Lemma batch_counts_every_record_once_aux args lines cli :
  files w (args_file args) = Some lines ->
  valid_operation (args_operation args) = true ->
  login w batch_host batch_username batch_password = Some cli ->
  exists s f,
    value_of (process_batch_file (args_file args) (args_operation args)
                (if PyStr.truthy (args_lab args)
                    && negb (PyStr.startswith (args_lab args) "/opt/unetlab/labs")
                 then "/opt/unetlab/labs/" ++ args_lab args
                 else args_lab args)
                (args_dry_run args) (args_count args) (args_delay args) 0%nat)
    = Return (s, f).
Proof.
  intros Hf Hop Hlogin.
  rewrite (process_batch_file_logged_in _ _ _ _ _ _ _ _ 0%nat Hf Hop Hlogin).
  cbn [value_of fst].
  destruct (batch_loop_counts cli (args_operation args)
              (if PyStr.truthy (args_lab args)
                  && negb (PyStr.startswith (args_lab args) "/opt/unetlab/labs")
               then "/opt/unetlab/labs/" ++ args_lab args
               else args_lab args)
              (args_dry_run args) (args_count args) (args_delay args)
              lines 1%Z 0%Z 0%Z 0%nat) as (s' & f' & E & _).
  exists s', f'. exact E.
Qed.

Lemma batch_login_failure_aux args lines :
  files w (args_file args) = Some lines ->
  valid_operation (args_operation args) = true ->
  login w batch_host batch_username batch_password = None ->
  value_of (process_batch_file (args_file args) (args_operation args)
              (if PyStr.truthy (args_lab args)
                  && negb (PyStr.startswith (args_lab args) "/opt/unetlab/labs")
               then "/opt/unetlab/labs/" ++ args_lab args
               else args_lab args)
              (args_dry_run args) (args_count args) (args_delay args) 0%nat)
  = Raise (SystemExit 1%Z).
Proof.
  intros Hf Hop Hlogin.
  unfold process_batch_file, path_exists. rewrite Hf, Hop. cbn [negb].
  fold batch_host batch_username batch_password.
  rewrite (bind_raises _ _ _ _ _ _ (connect_fails _ _ _ 0%nat Hlogin)).
  reflexivity.
Qed.

(** X1.  When the batch file exists, the operation is one of the three
    and the login succeeds, [process_batch_file] returns: no exception
    leaves it, whatever the external commands and the lab do.  Neither
    counter is negative and the two add up to the number of lines that are
    neither blank nor comments: every record is counted exactly once. *)
Theorem batch_counts_every_record_once
  filename operation lab_path dry_run count delay lines cli n :
  files w filename = Some lines ->
  valid_operation operation = true ->
  login w batch_host batch_username batch_password = Some cli ->
  exists success_count failure_count,
    value_of (process_batch_file filename operation lab_path dry_run
                count delay n)
    = Return (success_count, failure_count)
    /\ (0 <= success_count)%Z /\ (0 <= failure_count)%Z
    /\ (success_count + failure_count)%Z
       = Z.of_nat (List.length (records lines)).
Proof.
  intros Hf Hop Hlogin.
  rewrite (process_batch_file_logged_in _ _ lab_path dry_run count delay
             _ _ n Hf Hop Hlogin).
  cbn [value_of fst].
  destruct (batch_loop_counts cli operation lab_path dry_run count delay
              lines 1%Z 0%Z 0%Z n) as (s' & f' & E & Hs & Hf' & Hsum).
  exists s', f'. split; [ exact E | ]. repeat split; lia.
Qed.

(** X2.  When the batch file exists and the operation is one of the three
    but the login fails, [process_batch_file] ends the process with status 1
    before any line is read: the login attempt is its only event.  The
    credentials are those of the environment, or localhost, admin and eve
    where a variable is unset or empty. *)
Theorem batch_login_failure_exits
  filename operation lab_path dry_run count delay lines n :
  files w filename = Some lines ->
  valid_operation operation = true ->
  login w (or_default (getenv w "EVE_HOST") "localhost")
          (or_default (getenv w "EVE_USERNAME") "admin")
          (or_default (getenv w "EVE_PASSWORD") "eve") = None ->
  process_batch_file filename operation lab_path dry_run count delay n
  = (Raise (SystemExit 1%Z),
     [EvLogin (or_default (getenv w "EVE_HOST") "localhost")
              (or_default (getenv w "EVE_USERNAME") "admin")
              (or_default (getenv w "EVE_PASSWORD") "eve")],
     n).
Proof.
  intros Hf Hop Hlogin.
  unfold process_batch_file, path_exists. rewrite Hf, Hop. cbn [negb].
  rewrite (bind_raises _ _ _ _ _ _ (connect_fails _ _ _ n Hlogin)).
  reflexivity.
Qed.

Lemma main_returns args n s f :
  value_of (process_batch_file (args_file args) (args_operation args)
              (if PyStr.truthy (args_lab args)
                  && negb (PyStr.startswith (args_lab args) "/opt/unetlab/labs")
               then "/opt/unetlab/labs/" ++ args_lab args
               else args_lab args)
              (args_dry_run args) (args_count args) (args_delay args) n)
  = Return (s, f) ->
  value_of (main args n) = Return (if (f >? 0)%Z then Some 1%Z else None).
Proof.
  intros H. unfold main. rewrite bind_unfold.
  destruct (process_batch_file _ _ _ _ _ _ n) as [[[[s' f'] | e] tr] n'];
    cbn [value_of fst] in H; [ | discriminate H ].
  injection H as -> ->.
  cbn. destruct (f >? 0)%Z; reflexivity.
Qed.

Lemma main_raises args n e :
  value_of (process_batch_file (args_file args) (args_operation args)
              (if PyStr.truthy (args_lab args)
                  && negb (PyStr.startswith (args_lab args) "/opt/unetlab/labs")
               then "/opt/unetlab/labs/" ++ args_lab args
               else args_lab args)
              (args_dry_run args) (args_count args) (args_delay args) n)
  = Raise e ->
  value_of (main args n) = Raise e.
Proof.
  intros H. unfold main. rewrite bind_unfold.
  destruct (process_batch_file _ _ _ _ _ _ n) as [[[[s' f'] | e'] tr] n'];
    cbn [value_of fst] in H; [ discriminate H | ].
  injection H as ->. reflexivity.
Qed.

Lemma script_of_value args r :
  value_of (main args 0%nat) = r ->
  script args = match r with
                | Return _ => 0%Z
                | Raise (SystemExit code) => code
                | Raise _ => 1%Z
                end.
Proof.
  intros H. unfold script. rewrite bind_unfold.
  destruct (main args 0%nat) as [[[v | e] tr] n']; cbn [value_of fst] in H;
    subst r; reflexivity.
Qed.

(** X3.  For an operation that the command line accepts, the exit status
    of the batch script does not depend on the lines of the file, on the
    external commands or on the counters.  When no file has the given
    path, the status is 0.  When the path is a text file that can be read,
    the status is 1 exactly when the login fails, and 0 otherwise. *)
Theorem batch_exit_status_only_reflects_login args :
  valid_operation (args_operation args) = true ->
  (files w (args_file args) = None -> script args = 0%Z)
  /\ (forall lines,
        files w (args_file args) = Some lines ->
        script args
        = match login w batch_host batch_username batch_password with
          | Some _ => 0%Z
          | None => 1%Z
          end).
Proof.
  intros Hop. split.
  - intros Hf.
    rewrite (script_of_value args (Return None)); [ reflexivity | ].
    apply (main_returns args 0%nat 0%Z 0%Z).
    unfold process_batch_file, path_exists. rewrite Hf. reflexivity.
  - intros lines Hf.
    destruct (login w batch_host batch_username batch_password)
      as [ cli | ] eqn:Hlogin.
    + destruct (batch_counts_every_record_once_aux args lines cli Hf Hop Hlogin)
        as (s & f & E).
      rewrite (script_of_value _ _ (main_returns _ _ _ _ E)). reflexivity.
    + rewrite (script_of_value args (Raise (SystemExit 1%Z))); [ reflexivity | ].
      apply main_raises.
      rewrite (batch_login_failure_aux args lines Hf Hop Hlogin). reflexivity.
Qed.

(** ** Dry-run mode runs nothing *)

Lemma eveng_interface_dry_quiet op lab_path device_id interface_id :
  quiet (eveng_interface op lab_path device_id interface_id true).
Proof. intros n. rewrite eveng_interface_dry_run. split; reflexivity. Qed.

Lemma eveng_link_dry_quiet op lab_path d1 i1 d2 i2 :
  quiet (eveng_link op lab_path d1 i1 d2 i2 true).
Proof. intros n. rewrite link_dry_run. split; reflexivity. Qed.

Lemma flap_loop_quiet suspend resume suspend_failed resume_failed
  count delay remaining :
  quiet suspend -> quiet resume ->
  forall i,
    quiet (flap_loop suspend resume suspend_failed resume_failed
             count delay i remaining).
Proof.
  intros Hs Hr.
  induction remaining as [ | remaining IH ]; intros i.
  - apply quiet_ret.
  - cbn [flap_loop].
    apply quiet_bind; [ exact Hs | intros [s1 m1] ].
    apply quiet_if; [ apply quiet_ret | ].
    apply quiet_bind; [ apply quiet_sleep | intros _ ].
    apply quiet_bind; [ exact Hr | intros [s2 m2] ].
    apply quiet_if; [ apply quiet_ret | ].
    apply quiet_bind;
      [ apply quiet_if; [ apply quiet_sleep | apply quiet_ret ]
      | intros _; apply IH ].
Qed.

Lemma flap_dry_quiet lab_path device_id interface_id count delay :
  quiet (flap (FlapEveng lab_path device_id interface_id true) count delay).
Proof.
  intros n. rewrite flap_is_flap_with. revert n.
  unfold flap_with.
  apply quiet_bind.
  - apply flap_loop_quiet;
      [ apply (eveng_interface_dry_quiet Suspend)
      | apply (eveng_interface_dry_quiet Resume) ].
  - intros [res | ]; apply quiet_ret.
Qed.

Lemma tally_quiet i line res counts : quiet (tally i line res counts).
Proof.
  destruct res as [[ | ] message], counts as [s f]; cbn [tally];
    (apply quiet_bind; [ apply quiet_print | intros _; apply quiet_ret ]).
Qed.

Lemma process_record_dry_quiet eve_client operation lab_path count delay
  i line counts :
  quiet (process_record eve_client operation lab_path true count delay
           i line counts).
Proof.
  unfold process_record. destruct counts as [s f].
  destruct (PyStr.split "," line) as [ | a [ | b [ | c [ | d [ | e l ] ] ] ] ];
    try (apply quiet_bind; [ apply quiet_print | intros _; apply quiet_ret ]).
  - destruct (falsy (get_device_id_by_name eve_client lab_path a));
      [ apply quiet_bind; [ apply quiet_print | intros _; apply quiet_ret ] | ].
    destruct (falsy (get_interface_id_by_name eve_client lab_path _ b));
      [ apply quiet_bind; [ apply quiet_print | intros _; apply quiet_ret ] | ].
    apply quiet_bind; [ | intros res; apply tally_quiet ].
    repeat apply quiet_if.
    + apply (eveng_interface_dry_quiet Suspend).
    + apply (eveng_interface_dry_quiet Resume).
    + apply flap_dry_quiet.
  - apply quiet_bind; [ | intros res; apply tally_quiet ].
    repeat apply quiet_if.
    + apply (eveng_link_dry_quiet Suspend).
    + apply (eveng_link_dry_quiet Resume).
    + apply quiet_bind; [ apply flap_dry_quiet | intros [r1 m1] ].
      apply quiet_bind; [ apply flap_dry_quiet | intros [r2 m2] ].
      apply quiet_ret.
Qed.

Lemma process_line_dry_quiet eve_client operation lab_path count delay
  i raw counts :
  quiet (process_line eve_client operation lab_path true count delay
           i raw counts).
Proof.
  unfold process_line.
  apply quiet_if; [ apply quiet_ret | ].
  apply quiet_try_except; [ apply process_record_dry_quiet | ].
  intros [ text | text | code ]; destruct counts as [s f];
    try apply quiet_raise;
    (apply quiet_bind; [ apply quiet_print | intros _; apply quiet_ret ]).
Qed.

Lemma batch_loop_dry_quiet eve_client operation lab_path count delay lines :
  forall i counts,
    quiet (batch_loop eve_client operation lab_path true count delay
             i lines counts).
Proof.
  induction lines as [ | raw lines IH ]; intros i counts.
  - apply quiet_ret.
  - cbn [batch_loop].
    apply quiet_bind; [ apply process_line_dry_quiet | intros c; apply IH ].
Qed.

Lemma connect_quiet host username password :
  quiet (connect_to_eveng host username password).
Proof.
  unfold connect_to_eveng.
  apply quiet_bind; [ intros n; split; reflexivity | intros _ ].
  destruct (login w host username password);
    [ apply quiet_ret | apply quiet_raise ].
Qed.

Lemma process_batch_file_dry_quiet filename operation lab_path count delay :
  quiet (process_batch_file filename operation lab_path true count delay).
Proof.
  unfold process_batch_file.
  apply quiet_if; [ apply quiet_ret | ].
  apply quiet_if; [ apply quiet_ret | ].
  apply quiet_bind; [ apply connect_quiet | intros cli ].
  destruct (files w filename);
    [ apply batch_loop_dry_quiet | apply quiet_raise ].
Qed.

(** X4.  A batch in dry-run mode never runs an external command, whatever
    the file holds and whichever the operation: no [subprocess.run] call
    is in the trace of [main], and the count of commands run is as it
    was. *)
Theorem batch_dry_run_runs_no_command args n :
  args_dry_run args = true ->
  commands (trace_of (main args n)) = [] /\ runs_of (main args n) = n.
Proof.
  intros Hdry. revert n.
  change (quiet (main args)).
  unfold main. rewrite Hdry.
  apply quiet_bind; [ apply process_batch_file_dry_quiet | intros [s f] ].
  apply quiet_bind; [ apply quiet_print | intros _ ].
  apply quiet_bind; [ apply quiet_print | intros _ ].
  apply quiet_bind; [ apply quiet_print | intros _ ].
  apply quiet_if; apply quiet_ret.
Qed.

(** ** Flap Sequencer: edge cases and what a whole sequence does *)

Lemma sleeps_app (a b : list event) :
  sleeps (a ++ b) = (sleeps a ++ sleeps b)%list.
Proof.
  induction a as [ | e a IH ]; [ reflexivity | ].
  destruct e; simpl; rewrite IH; reflexivity.
Qed.

Section FlapLoopRuns.

Variables suspend resume : M (bool * string).
Variables suspend_failed resume_failed : string -> string.
Variable count : Z.
Variable delay : float.

Let loop := flap_loop suspend resume suspend_failed resume_failed count delay.

Lemma flap_loop_all_succeed remaining :
  (forall n, exists m tr n', suspend n = (Return (true, m), tr, n')) ->
  (forall n, exists m tr n', resume n = (Return (true, m), tr, n')) ->
  forall i n, value_of (loop i remaining n) = Return None.
Proof.
  intros Hs Hr.
  induction remaining as [ | remaining IH ]; intros i n; [ reflexivity | ].
  unfold loop. rewrite flap_loop_step. fold loop.
  destruct (Hs n) as (m1 & tr1 & n1 & E1). rewrite E1.
  destruct (Hr n1) as (m2 & tr2 & n2 & E2). rewrite E2.
  cbn [value_of fst]. apply IH.
Qed.

Lemma flap_loop_sleeps remaining :
  (forall n, sleeps (trace_of (suspend n)) = []) ->
  (forall n, sleeps (trace_of (resume n)) = []) ->
  forall i n tr n',
    loop i remaining n = (Return None, tr, n') ->
    sleeps tr
    = repeat delay
        (remaining + Z.to_nat (Z.min (i + Z.of_nat remaining) (count - 1) - i)).
Proof.
  intros Hs Hr.
  induction remaining as [ | remaining IH ]; intros i n tr n' H.
  - injection H as <- _. cbn [sleeps].
    replace (0 + Z.to_nat (Z.min (i + Z.of_nat 0) (count - 1) - i)) with 0
      by lia.
    reflexivity.
  - unfold loop in H. rewrite flap_loop_step in H. fold loop in H.
    pose proof (Hs n) as S1.
    destruct (suspend n) as [[[[[ | ] m1] | e1] tr1] n1];
      [ | discriminate H | discriminate H ].
    pose proof (Hr n1) as S2.
    destruct (resume n1) as [[[[[ | ] m2] | e2] tr2] n2];
      [ | discriminate H | discriminate H ].
    cbn [trace_of fst snd] in S1, S2.
    injection H as Hv Ht Hn.
    assert (E : loop (i + 1)%Z remaining n2
                = (Return None, trace_of (loop (i + 1)%Z remaining n2), n')).
    { rewrite (triple_eta (loop (i + 1)%Z remaining n2)) at 1.
      rewrite Hv, Hn. reflexivity. }
    apply IH in E.
    rewrite <- Ht.
    rewrite sleeps_app. cbn [sleeps].
    rewrite !sleeps_app, S1, S2, E.
    cbn [app].
    destruct (Z.ltb_spec i (count - 1)); cbn [sleeps app].
    + replace (S remaining
               + Z.to_nat (Z.min (i + Z.of_nat (S remaining)) (count - 1) - i))
        with (S (S (remaining
                    + Z.to_nat (Z.min (i + 1 + Z.of_nat remaining) (count - 1)
                                - (i + 1)))))
        by lia.
      reflexivity.
    + replace (S remaining
               + Z.to_nat (Z.min (i + Z.of_nat (S remaining)) (count - 1) - i))
        with (S (remaining
                 + Z.to_nat (Z.min (i + 1 + Z.of_nat remaining) (count - 1)
                             - (i + 1))))
        by lia.
      reflexivity.
Qed.

Lemma flap_loop_commands remaining cmd_s cmd_r :
  (forall n, commands (trace_of (suspend n)) = [cmd_s]) ->
  (forall n, commands (trace_of (resume n)) = [cmd_r]) ->
  forall i n tr n',
    loop i remaining n = (Return None, tr, n') ->
    commands tr = List.concat (repeat [cmd_s; cmd_r] remaining).
Proof.
  intros Hs Hr.
  induction remaining as [ | remaining IH ]; intros i n tr n' H.
  - injection H as <- _. reflexivity.
  - unfold loop in H. rewrite flap_loop_step in H. fold loop in H.
    pose proof (Hs n) as S1.
    destruct (suspend n) as [[[[[ | ] m1] | e1] tr1] n1];
      [ | discriminate H | discriminate H ].
    pose proof (Hr n1) as S2.
    destruct (resume n1) as [[[[[ | ] m2] | e2] tr2] n2];
      [ | discriminate H | discriminate H ].
    cbn [trace_of fst snd] in S1, S2.
    injection H as Hv Ht Hn.
    assert (E : loop (i + 1)%Z remaining n2
                = (Return None, trace_of (loop (i + 1)%Z remaining n2), n')).
    { rewrite (triple_eta (loop (i + 1)%Z remaining n2)) at 1.
      rewrite Hv, Hn. reflexivity. }
    apply IH in E.
    rewrite <- Ht.
    rewrite commands_app. cbn [commands].
    rewrite !commands_app, S1, S2, E.
    destruct (i <? count - 1)%Z; reflexivity.
Qed.

End FlapLoopRuns.

Lemma flap_value_of_loop t count delay n :
  value_of (flap_cycles t count delay 0%Z (Z.to_nat count) n) = Return None ->
  flap t count delay n
  = (Return (flap_success t count delay),
     trace_of (flap_cycles t count delay 0%Z (Z.to_nat count) n),
     runs_of (flap_cycles t count delay 0%Z (Z.to_nat count) n)).
Proof.
  intros H.
  rewrite flap_is_flap_with, flap_with_unfold, <- flap_cycles_is_flap_loop.
  rewrite H. reflexivity.
Qed.

(** X5.  With a count of zero or less a flap sequence does nothing at
    all, on a host interface as on an EVE-NG endpoint: no transition, no
    command, no delay; and it reports success, with the count as given in
    its message. *)
Theorem flap_with_no_cycle_succeeds t count delay n :
  (count <= 0)%Z ->
  flap t count delay n = (Return (flap_success t count delay), [], n)
  /\ fst (flap_success t count delay) = true.
Proof.
  intros H. split.
  - rewrite flap_value_of_loop;
      replace (Z.to_nat count) with 0 by lia; destruct t; reflexivity.
  - destruct t as [ name | lab_path device_id interface_id [ | ] ]; reflexivity.
Qed.

Lemma flap_suspend_sleeps t n : sleeps (trace_of (flap_suspend t n)) = [].
Proof.
  destruct t as [ name | lab_path device_id interface_id [ | ] ].
  - cbn [flap_suspend].
    unfold suspend_interface, bind, try_except, emit, run, ret, raise; cbn.
    destruct (subprocess_run w n _); reflexivity.
  - reflexivity.
  - cbn [flap_suspend].
    rewrite (eveng_interface_apply Suspend). reflexivity.
Qed.

Lemma flap_resume_sleeps t n : sleeps (trace_of (flap_resume t n)) = [].
Proof.
  destruct t as [ name | lab_path device_id interface_id [ | ] ].
  - cbn [flap_resume].
    unfold resume_interface, bind, try_except, emit, run, ret, raise; cbn.
    destruct (subprocess_run w n _); reflexivity.
  - reflexivity.
  - cbn [flap_resume].
    rewrite (eveng_interface_apply Resume). reflexivity.
Qed.

Lemma flap_dry_loop_completes lab_path device_id interface_id count delay
  remaining i n :
  value_of (flap_cycles (FlapEveng lab_path device_id interface_id true)
              count delay i remaining n)
  = Return None.
Proof.
  rewrite flap_cycles_is_flap_loop.
  apply flap_loop_all_succeed; intros k; cbn [flap_suspend flap_resume].
  - rewrite (eveng_interface_dry_run Suspend). do 3 eexists. reflexivity.
  - rewrite (eveng_interface_dry_run Resume). do 3 eexists. reflexivity.
Qed.


Lemma eveng_interface_commands op lab_path device_id interface_id n :
  commands (trace_of (eveng_interface op lab_path device_id interface_id false n))
  = [unl_wrapper_cmd (action op) lab_path device_id interface_id].
Proof. rewrite eveng_interface_apply. reflexivity. Qed.


(** ** Batch Runner: failures inside a line, and dry-run link lines *)

(** X8.  In a batch in apply mode, when the command for the first
    endpoint of a link line cannot be started, the exception that the
    executor lets through is caught by the batch runner: the second
    endpoint is not tried, the line adds one to failure_count with the
    error text printed, and the batch goes on. *)
Theorem batch_line_survives_unstartable_command
  eve_client lab_path count delay i raw d1 i1 d2 i2 s f n text :
  skipped (PyStr.strip raw) = false ->
  PyStr.split "," (PyStr.strip raw) = [d1; i1; d2; i2] ->
  subprocess_run w n (unl_wrapper_cmd "suspendlink" lab_path d1 i1)
  = RunFails text ->
  process_line eve_client "suspend" lab_path false count delay i raw (s, f) n
  = (Return (s, (f + 1)%Z),
     [EvTransition Suspend (EvengIf lab_path d1 i1) false;
      EvRun (unl_wrapper_cmd "suspendlink" lab_path d1 i1);
      EvPrint ("Line " ++ PyStr.str_int i ++ ": Error processing line: "
                 ++ text ++ " (for " ++ PyStr.strip raw ++ ")")],
     S n).
Proof.
  intros Hskip Hparts Hrun.
  unfold process_line. rewrite Hskip.
  unfold try_except, process_record. rewrite Hparts.
  cbn [String.eqb Ascii.eqb Bool.eqb].
  assert (E : suspend_eveng_link lab_path d1 i1 d2 i2 false n
              = (Raise (Exception text),
                 [EvTransition Suspend (EvengIf lab_path d1 i1) false;
                  EvRun (unl_wrapper_cmd "suspendlink" lab_path d1 i1)],
                 S n)).
  { change (suspend_eveng_link lab_path d1 i1 d2 i2 false n)
      with (eveng_link Suspend lab_path d1 i1 d2 i2 false n).
    rewrite eveng_link_unfold.
    apply bind_raises.
    rewrite (eveng_interface_apply Suspend). cbn [action].
    rewrite Hrun. reflexivity. }
  rewrite (bind_raises _ _ _ _ _ _ E).
  reflexivity.
Qed.

Lemma dry_link_line_counts_success eve_client operation lab_path count delay
  i raw s f n :
  skipped (PyStr.strip raw) = false ->
  List.length (PyStr.split "," (PyStr.strip raw)) = 4%nat ->
  value_of (process_line eve_client operation lab_path true count delay
              i raw (s, f) n)
  = Return ((s + 1)%Z, f)
  /\ runs_of (process_line eve_client operation lab_path true count delay
                i raw (s, f) n) = n.
Proof.
  intros Hskip Hlen.
  split; [ | apply process_line_dry_quiet ].
  unfold process_line. rewrite Hskip.
  unfold try_except, process_record.
  destruct (PyStr.split "," (PyStr.strip raw))
    as [ | a [ | b [ | c [ | d [ | e l ] ] ] ] ]; try discriminate Hlen.
  rewrite bind_unfold.
  destruct (String.eqb operation "suspend").
  - change (suspend_eveng_link lab_path a b c d true n)
      with (eveng_link Suspend lab_path a b c d true n).
    rewrite link_dry_run. reflexivity.
  - destruct (String.eqb operation "resume").
    + change (resume_eveng_link lab_path a b c d true n)
        with (eveng_link Resume lab_path a b c d true n).
      rewrite link_dry_run. reflexivity.
    + rewrite bind_unfold.
      change (flap_eveng_interface lab_path a b count delay true n)
        with (flap (FlapEveng lab_path a b true) count delay n).
      rewrite (flap_value_of_loop _ _ _ _
                 (flap_dry_loop_completes lab_path a b count delay _ _ n)).
      cbn [flap_success value_of trace_of runs_of fst snd].
      rewrite bind_unfold.
      match goal with
      | |- context [flap_eveng_interface lab_path c d count delay true ?k] =>
          change (flap_eveng_interface lab_path c d count delay true k)
            with (flap (FlapEveng lab_path c d true) count delay k);
          rewrite (flap_value_of_loop _ _ _ _
                     (flap_dry_loop_completes lab_path c d count delay _ _ k))
      end.
      reflexivity.
Qed.

Lemma dry_link_lines_all_succeed eve_client operation lab_path count delay lines :
  forallb (fun raw => skipped (PyStr.strip raw)
                      || Nat.eqb (List.length (PyStr.split "," (PyStr.strip raw))) 4)
    lines = true ->
  forall i s f n,
    value_of (batch_loop eve_client operation lab_path true count delay
                i lines (s, f) n)
    = Return ((s + Z.of_nat (List.length (records lines)))%Z, f).
Proof.
  induction lines as [ | raw lines IH ]; intros H i s f n.
  - cbn. f_equal. f_equal. lia.
  - cbn [forallb] in H. apply andb_true_iff in H as [Hraw Hlines].
    rewrite records_cons.
    destruct (skipped (PyStr.strip raw)) eqn:Hskip.
    + rewrite (batch_loop_cons _ _ _ _ _ _ _ _ lines _ _ _ _ _
                 (skipped_line_ignored eve_client operation lab_path true
                    count delay i raw (s, f) n Hskip)).
      cbn [value_of fst]. apply IH, Hlines.
    + cbn [orb] in Hraw. apply Nat.eqb_eq in Hraw.
      destruct (dry_link_line_counts_success eve_client operation lab_path
                  count delay i raw s f n Hskip Hraw) as [Hv Hr].
      rewrite (batch_loop_cons _ _ _ _ _ _ _ _ lines _ _ _ _ _
                 (eq_trans (triple_eta _)
                    (f_equal2 (fun v r => (v, _, r)) Hv Hr))).
      cbn [value_of fst].
      rewrite (IH Hlines). cbn [List.length]. f_equal. f_equal. lia.
Qed.


(** ** Link Transition Coordinator: no third command *)

(** X10.  In apply mode a link operation runs the command of endpoint 1
    and then, unless that command could not be started, the command of
    endpoint 2, and never any other: whatever the two statuses, nothing is
    retried and nothing is rolled back. *)
Theorem link_runs_two_commands_at_most
  op lab_path device1_id interface1_id device2_id interface2_id n :
  commands (trace_of (eveng_link op lab_path device1_id interface1_id
                        device2_id interface2_id false n))
  = match subprocess_run w n
            (unl_wrapper_cmd (action op) lab_path device1_id interface1_id) with
    | RunFails _ =>
        [unl_wrapper_cmd (action op) lab_path device1_id interface1_id]
    | _ =>
        [unl_wrapper_cmd (action op) lab_path device1_id interface1_id;
         unl_wrapper_cmd (action op) lab_path device2_id interface2_id]
    end.
Proof.
  rewrite eveng_link_unfold, bind_unfold, eveng_interface_apply.
  destruct (subprocess_run w n _) as [ | text | text ];
    cbn [trace_of fst snd]; try reflexivity;
    rewrite bind_unfold, eveng_interface_apply;
    destruct (subprocess_run w (S n) _); reflexivity.
Qed.

(** ** Identifier Resolver *)

Lemma lower_char_idempotent c :
  PyStr.lower_char (PyStr.lower_char c) = PyStr.lower_char c.
Proof. destruct c as [[] [] [] [] [] [] [] []]; reflexivity. Qed.

Lemma lower_idempotent s : PyStr.lower (PyStr.lower s) = PyStr.lower s.
Proof.
  induction s as [ | c s IH ]; [ reflexivity | ].
  cbn [PyStr.lower]. rewrite lower_char_idempotent, IH. reflexivity.
Qed.

Lemma contains_char a c s :
  PyStr.contains (String a "") (String c s)
  = Ascii.eqb a c || PyStr.contains (String a "") s.
Proof.
  cbn [PyStr.contains String.prefix].
  destruct (ascii_dec a c) as [ -> | N ].
  - rewrite Ascii.eqb_refl. destruct s; reflexivity.
  - apply Ascii.eqb_neq in N. rewrite N. reflexivity.
Qed.

Lemma slash_lower_char c :
  Ascii.eqb "/" (PyStr.lower_char c) = Ascii.eqb "/" c.
Proof. destruct c as [[] [] [] [] [] [] [] []]; reflexivity. Qed.

Lemma contains_slash_lower s :
  PyStr.contains "/" (PyStr.lower s) = PyStr.contains "/" s.
Proof.
  induction s as [ | c s IH ]; [ reflexivity | ].
  cbn [PyStr.lower]. rewrite !contains_char, slash_lower_char, IH.
  reflexivity.
Qed.

Lemma find_node_sound nodes device_name node_id :
  find_node nodes device_name = Some node_id ->
  exists before nd after,
    nodes = (before ++ (node_id, nd) :: after)%list
    /\ PyStr.lower (node_name nd) = PyStr.lower device_name
    /\ forall e, In e before ->
                 PyStr.lower (node_name (snd e)) <> PyStr.lower device_name.
Proof.
  induction nodes as [ | [id nd] nodes IH ]; [ discriminate | ].
  cbn [find_node].
  destruct (String.eqb_spec (PyStr.lower (node_name nd)) (PyStr.lower device_name))
    as [E | N].
  - intros H. injection H as <-.
    exists [], nd, nodes. split; [ reflexivity | ]. split; [ exact E | ].
    intros e [].
  - intros H. destruct (IH H) as (before & nd' & after & -> & E & Hb).
    exists ((id, nd) :: before), nd', after.
    split; [ reflexivity | ]. split; [ exact E | ].
    intros e [ <- | Hin ]; [ exact N | apply Hb, Hin ].
Qed.

Lemma find_node_complete nodes device_name :
  find_node nodes device_name = None ->
  forall e, In e nodes ->
            PyStr.lower (node_name (snd e)) <> PyStr.lower device_name.
Proof.
  induction nodes as [ | [id nd] nodes IH ]; [ intros _ e [] | ].
  cbn [find_node].
  destruct (String.eqb_spec (PyStr.lower (node_name nd)) (PyStr.lower device_name))
    as [E | N]; [ discriminate | ].
  intros H e [ <- | Hin ]; [ exact N | apply (IH H), Hin ].
Qed.

(** X11.  [get_device_id_by_name] answers with the id of the first node,
    in the order of the lab's reply, whose name equals the requested name
    up to case; it answers [None] exactly when the API call raises, the
    reply's status is not "success", or no node has such a name. *)
Theorem device_id_is_first_case_insensitive_match eve_client lab_path device_name :
  (forall node_id,
      get_device_id_by_name eve_client lab_path device_name = Some node_id ->
      exists nodes before nd after,
        list_nodes eve_client (to_api_lab_path lab_path)
        = ApiReturns (mkResponse "success" nodes)
        /\ nodes = (before ++ (node_id, nd) :: after)%list
        /\ PyStr.lower (node_name nd) = PyStr.lower device_name
        /\ forall e, In e before ->
                     PyStr.lower (node_name (snd e)) <> PyStr.lower device_name)
  /\ (get_device_id_by_name eve_client lab_path device_name = None ->
      (exists text,
          list_nodes eve_client (to_api_lab_path lab_path) = ApiRaises text)
      \/ (exists r,
            list_nodes eve_client (to_api_lab_path lab_path) = ApiReturns r
            /\ (status r <> "success"
                \/ forall e, In e (data r) ->
                             PyStr.lower (node_name (snd e))
                             <> PyStr.lower device_name))).
Proof.
  unfold get_device_id_by_name.
  destruct (list_nodes eve_client (to_api_lab_path lab_path))
    as [ text | [st nodes] ]; cbn [status data].
  - split; [ discriminate | ]. intros _. left. exists text. reflexivity.
  - destruct (String.eqb_spec st "success") as [ -> | N ]; cbn [negb].
    + split.
      * intros node_id H.
        destruct (find_node_sound _ _ _ H) as (before & nd & after & E & En & Hb).
        exists nodes, before, nd, after. repeat split; assumption.
      * intros H. right. eexists. split; [ reflexivity | ].
        right. exact (find_node_complete _ _ H).
    + split; [ discriminate | ].
      intros _. right. eexists. split; [ reflexivity | ]. left. exact N.
Qed.

Lemma find_interface_in_bucket bucket last_part interface_name if_id :
  find_interface bucket last_part interface_name = Some if_id ->
  In if_id (List.map fst bucket).
Proof.
  induction bucket as [ | [id d] bucket IH ]; [ discriminate | ].
  cbn [find_interface List.map fst].
  destruct (id_matches id last_part);
    [ intros H; injection H as <-; left; reflexivity | ].
  destruct (name_matches d interface_name);
    [ intros H; injection H as <-; left; reflexivity | ].
  destruct (partial_name_matches d interface_name);
    [ intros H; injection H as <-; left; reflexivity | ].
  intros H. right. apply IH, H.
Qed.

Lemma eve_types_bucket interface_type :
  match dict_get eve_types interface_type with
  | Some t => t
  | None => "ethernet"
  end = bucket_of interface_type.
Proof.
  unfold bucket_of, eve_types, dict_get.
  rewrite !(String.eqb_sym interface_type).
  repeat match goal with
         | |- context [String.eqb ?k interface_type] =>
             destruct (String.eqb_spec k interface_type) as [ <- | ? ];
             try reflexivity
         end.
Qed.

(** X12.  An interface id that [get_interface_id_by_name] returns is
    always a local id listed by the lab, in one type bucket only: the
    "serial" bucket when the type token of the name is [s] or [serial],
    the "ethernet" bucket for every other token, recognised or not.  So
    the reply's status was "success", and interfaces listed under any
    other type are never returned. *)
Theorem interface_id_comes_from_one_bucket
  eve_client lab_path device_id interface_name if_id :
  get_interface_id_by_name eve_client lab_path device_id interface_name
  = Some if_id ->
  exists interfaces bucket,
    get_node_interfaces eve_client (to_api_lab_path lab_path) device_id
    = ApiReturns (mkResponse "success" interfaces)
    /\ dict_get interfaces (bucket_of (fst (parse_interface_name interface_name)))
       = Some bucket
    /\ In if_id (List.map fst bucket).
Proof.
  unfold get_interface_id_by_name.
  destruct (get_node_interfaces eve_client (to_api_lab_path lab_path) device_id)
    as [ text | [st interfaces] ]; [ discriminate | ].
  cbn [status data].
  destruct (String.eqb_spec st "success") as [ -> | N ]; [ | discriminate ].
  cbn [negb]. unfold resolve_in.
  destruct (parse_interface_name interface_name) as [ty num]. cbn [fst].
  rewrite eve_types_bucket.
  destruct (dict_get interfaces (bucket_of ty)) as [ bucket | ] eqn:E;
    [ | discriminate ].
  intros H. exists interfaces, bucket.
  split; [ reflexivity | ]. split; [ exact E | ].
  exact (find_interface_in_bucket _ _ _ _ H).
Qed.

Lemma split_not_nil sep s : PyStr.split sep s <> [].
Proof.
  destruct s as [ | c s ]; cbn [PyStr.split]; [ discriminate | ].
  destruct (Ascii.eqb c sep); [ discriminate | ].
  destruct (PyStr.split sep s); discriminate.
Qed.

Lemma split_app_sep sep a b :
  PyStr.split sep (a ++ String sep b)
  = (PyStr.split sep a ++ PyStr.split sep b)%list.
Proof.
  induction a as [ | c a IH ]; cbn [String.append PyStr.split].
  - rewrite Ascii.eqb_refl. reflexivity.
  - destruct (Ascii.eqb c sep).
    + rewrite IH. reflexivity.
    + rewrite IH.
      pose proof (split_not_nil sep a) as N.
      destruct (PyStr.split sep a) as [ | h t ]; [ contradiction | ].
      reflexivity.
Qed.

Lemma split_without_sep sep s :
  PyStr.contains (String sep "") s = false -> PyStr.split sep s = [s].
Proof.
  induction s as [ | c s IH ]; [ reflexivity | ].
  rewrite contains_char. intros H.
  apply orb_false_iff in H as [Hc Hs].
  cbn [PyStr.split]. rewrite Ascii.eqb_sym, Hc, (IH Hs). reflexivity.
Qed.

Lemma split_parts_without_sep sep s :
  forall x, In x (PyStr.split sep s) -> PyStr.contains (String sep "") x = false.
Proof.
  induction s as [ | c s IH ]; intros x Hx.
  - destruct Hx as [ <- | [] ]. reflexivity.
  - cbn [PyStr.split] in Hx.
    destruct (Ascii.eqb c sep) eqn:Ec.
    + destruct Hx as [ <- | Hx ]; [ reflexivity | apply IH, Hx ].
    + pose proof (split_not_nil sep s) as N.
      destruct (PyStr.split sep s) as [ | h t ]; [ contradiction | ].
      destruct Hx as [ <- | Hx ].
      * rewrite contains_char, Ascii.eqb_sym, Ec. cbn [orb].
        apply IH. left. reflexivity.
      * apply IH. right. exact Hx.
Qed.

Lemma contains_app_sep sep a b :
  PyStr.contains (String sep "") (a ++ String sep b) = true.
Proof.
  induction a as [ | c a IH ]; cbn [String.append]; rewrite contains_char.
  - rewrite Ascii.eqb_refl. reflexivity.
  - rewrite IH. apply orb_true_r.
Qed.

Lemma last_app_not_nil {A : Type} (l1 l2 : list A) d :
  l2 <> [] -> last (l1 ++ l2) d = last l2 d.
Proof.
  intros N. induction l1 as [ | a l1 IH ]; [ reflexivity | ].
  cbn [app]. destruct (l1 ++ l2)%list eqn:E.
  - apply app_eq_nil in E as [_ E]. contradiction.
  - cbn [last]. exact IH.
Qed.

Lemma nth_without_sep sep s k :
  PyStr.contains (String sep "") (nth k (PyStr.split sep s) "") = false.
Proof.
  destruct (Nat.lt_ge_cases k (List.length (PyStr.split sep s))) as [ Hk | Hk ].
  - apply (split_parts_without_sep sep s), nth_In, Hk.
  - rewrite (nth_overflow _ _ Hk). reflexivity.
Qed.

(** X13.  For a requested name that holds a slash, the segment compared
    with the local interface ids is the second slash-separated segment of
    the lower-cased name, whatever comes after it: in a name of three
    segments it is the middle one, not the last. *)
Theorem slash_name_is_looked_up_by_second_segment interface_name :
  PyStr.contains "/" interface_name = true ->
  last_part_of (snd (parse_interface_name interface_name))
  = nth 1 (PyStr.split "/" (PyStr.lower interface_name)) "".
Proof.
  intros H. unfold parse_interface_name. rewrite H.
  pose proof (nth_without_sep "/" (PyStr.lower interface_name) 1) as Hseg.
  set (seg := nth 1 (PyStr.split "/" (PyStr.lower interface_name)) "") in *.
  destruct (PyStr.truthy (PyStr.filter PyStr.isdigit
                            (nth 0 (PyStr.split "/" (PyStr.lower interface_name)) "")));
    cbn [snd]; unfold last_part_of.
  - change (?a ++ "/" ++ seg) with (a ++ String "/" seg).
    rewrite contains_app_sep, split_app_sep.
    rewrite last_app_not_nil by apply split_not_nil.
    rewrite (split_without_sep _ _ Hseg). reflexivity.
  - change (PyStr.contains "/" seg) with (PyStr.contains (String "/" "") seg).
    rewrite Hseg. reflexivity.
Qed.

Lemma find_interface_lower bucket last_part interface_name :
  find_interface bucket last_part (PyStr.lower interface_name)
  = find_interface bucket last_part interface_name.
Proof.
  induction bucket as [ | [id d] bucket IH ]; [ reflexivity | ].
  cbn [find_interface]. rewrite IH.
  destruct d as [ name | ]; cbn [name_matches partial_name_matches];
    rewrite ?lower_idempotent; reflexivity.
Qed.

(** X14.  For requested names that hold a slash the resolver is
    insensitive to case: a name and its lower-cased form resolve alike,
    whatever the lab lists. *)
Theorem slash_name_resolution_ignores_case interfaces interface_name :
  PyStr.contains "/" interface_name = true ->
  resolve_in interfaces (PyStr.lower interface_name)
  = resolve_in interfaces interface_name.
Proof.
  intros H. unfold resolve_in, parse_interface_name.
  change (PyStr.contains "/" (PyStr.lower interface_name))
    with (PyStr.contains (String "/" "") (PyStr.lower interface_name)).
  rewrite contains_slash_lower, H, lower_idempotent.
  destruct (PyStr.truthy _);
    destruct (dict_get interfaces _); try reflexivity;
    apply find_interface_lower.
Qed.

(** ** Identifier Resolver: the order of the tests *)

Lemma split_length_cons sep c s :
  List.length (PyStr.split sep (String c s))
  = if Ascii.eqb c sep then S (List.length (PyStr.split sep s))
    else List.length (PyStr.split sep s).
Proof.
  cbn [PyStr.split]. destruct (Ascii.eqb c sep); [ reflexivity | ].
  pose proof (split_not_nil sep s) as N.
  destruct (PyStr.split sep s); [ contradiction | reflexivity ].
Qed.

Lemma split_slash_lower_length s :
  List.length (PyStr.split "/" (PyStr.lower s))
  = List.length (PyStr.split "/" s).
Proof.
  induction s as [ | c s IH ]; [ reflexivity | ].
  cbn [PyStr.lower]. rewrite !split_length_cons, IH.
  rewrite (Ascii.eqb_sym (PyStr.lower_char c)), (Ascii.eqb_sym c).
  rewrite slash_lower_char. reflexivity.
Qed.

Lemma split_length_with_sep sep s :
  PyStr.contains (String sep "") s = true ->
  (2 <= List.length (PyStr.split sep s))%nat.
Proof.
  induction s as [ | c s IH ]; [ discriminate | ].
  rewrite contains_char, split_length_cons. intros H.
  pose proof (split_not_nil sep s) as N.
  destruct (Ascii.eqb c sep) eqn:Ec.
  - destruct (PyStr.split sep s); [ contradiction | cbn [List.length]; lia ].
  - rewrite Ascii.eqb_sym, Ec in H. apply IH, H.
Qed.

Lemma contains_char_drop a i s :
  PyStr.contains (String a "") s = false ->
  PyStr.contains (String a "") (PyStr.drop i s) = false.
Proof.
  revert s. induction i as [ | i IH ]; intros s H; [ exact H | ].
  destruct s as [ | c s ]; [ reflexivity | ].
  cbn [PyStr.drop]. apply IH.
  rewrite contains_char in H. apply orb_false_iff in H as [_ H]. exact H.
Qed.

Lemma last_part_of_slash_name interface_name :
  PyStr.contains "/" interface_name = true ->
  last_part_of (snd (parse_interface_name interface_name))
  = nth 1 (PyStr.split "/" (PyStr.lower interface_name)) "".
Proof.
  intros H. unfold parse_interface_name. rewrite H.
  pose proof (nth_without_sep "/" (PyStr.lower interface_name) 1) as Hseg.
  set (seg := nth 1 (PyStr.split "/" (PyStr.lower interface_name)) "") in *.
  destruct (PyStr.truthy (PyStr.filter PyStr.isdigit
                            (nth 0 (PyStr.split "/" (PyStr.lower interface_name)) "")));
    cbn [snd]; unfold last_part_of.
  - change (?a ++ "/" ++ seg) with (a ++ String "/" seg).
    rewrite contains_app_sep, split_app_sep.
    rewrite last_app_not_nil by apply split_not_nil.
    rewrite (split_without_sep _ _ Hseg). reflexivity.
  - change (PyStr.contains "/" seg) with (PyStr.contains (String "/" "") seg).
    rewrite Hseg. reflexivity.
Qed.

Lemma last_part_is_last_segment interface_name :
  (List.length (PyStr.split "/" interface_name) <= 2)%nat ->
  last_part_of (snd (parse_interface_name interface_name))
  = last_segment interface_name.
Proof.
  intros H. unfold last_segment.
  destruct (PyStr.contains "/" interface_name) eqn:Hc.
  - rewrite (last_part_of_slash_name _ Hc).
    rewrite <- split_slash_lower_length in H.
    pose proof (split_length_with_sep "/" (PyStr.lower interface_name)) as H2.
    change (PyStr.contains (String "/" "") (PyStr.lower interface_name))
      with (PyStr.contains "/" (PyStr.lower interface_name)) in H2.
    rewrite contains_slash_lower in H2. specialize (H2 Hc).
    destruct (PyStr.split "/" (PyStr.lower interface_name))
      as [ | a [ | b [ | c l ] ] ]; cbn [List.length] in H, H2; try lia.
    reflexivity.
  - unfold parse_interface_name. rewrite Hc.
    destruct (PyStr.first_digit (PyStr.lower interface_name)) as [ i | ];
      cbn [snd]; unfold last_part_of.
    + change (PyStr.contains "/" (PyStr.drop i interface_name))
        with (PyStr.contains (String "/" "") (PyStr.drop i interface_name)).
      rewrite (contains_char_drop "/" i _ Hc). reflexivity.
    + reflexivity.
Qed.

(** C7 (as amended).  For a requested name with at most one slash, the
    text compared with the local IDs is the last segment of the name, and
    within the bucket of the name's type the interfaces are tried in the
    provider's order: the one returned is the first that passes any of
    the three tests (local ID equal to the last segment, display name
    equal up to case, requested name contained in the display name), and
    none is returned when no interface passes one or the lab has no such
    bucket.  So an interface whose local ID equals the last segment is
    the one returned whenever no interface listed before it passes any of
    the tests. *)
Theorem first_interface_passing_any_test_is_returned interfaces interface_name :
  (List.length (PyStr.split "/" interface_name) <= 2)%nat ->
  last_part_of (snd (parse_interface_name interface_name))
  = last_segment interface_name
  /\ resolve_in interfaces interface_name
     = match dict_get interfaces
               (bucket_of (fst (parse_interface_name interface_name))) with
       | Some bucket =>
           option_map fst
             (find (entry_matches (last_segment interface_name) interface_name)
                bucket)
       | None => None
       end
  /\ (forall bucket before if_id d after,
        dict_get interfaces
          (bucket_of (fst (parse_interface_name interface_name)))
        = Some bucket ->
        bucket = (before ++ (if_id, d) :: after)%list ->
        forallb (fun e => negb (entry_matches (last_segment interface_name)
                                  interface_name e))
          before = true ->
        if_id = last_segment interface_name ->
        resolve_in interfaces interface_name = Some if_id).
Proof.
  intros H. pose proof (last_part_is_last_segment _ H) as E.
  assert (R : resolve_in interfaces interface_name
              = match dict_get interfaces
                        (bucket_of (fst (parse_interface_name interface_name))) with
                | Some bucket =>
                    option_map fst
                      (find (entry_matches (last_segment interface_name)
                               interface_name) bucket)
                | None => None
                end).
  { unfold resolve_in.
    destruct (parse_interface_name interface_name) as [t num].
    cbn [fst snd] in *. rewrite eve_types_bucket.
    destruct (dict_get interfaces (bucket_of t)); [ | reflexivity ].
    rewrite E. apply find_interface_is_first_match. }
  split; [ exact E | ]. split; [ exact R | ].
  intros bucket before if_id d after Hb -> Hbefore Hid.
  rewrite R, Hb. clear R Hb.
  induction before as [ | e before IH ]; cbn [app find forallb] in *.
  - unfold entry_matches, id_matches. cbn [fst snd].
    rewrite Hid, String.eqb_refl. reflexivity.
  - apply andb_true_iff in Hbefore as [He Hbefore].
    apply negb_true_iff in He. rewrite He. apply IH, Hbefore.
Qed.

Lemma prefix_append a b : String.prefix a (a ++ b) = true.
Proof.
  induction a as [ | c a IH ]; cbn [String.append String.prefix].
  - destruct b; reflexivity.
  - destruct (ascii_dec c c) as [ _ | N ]; [ exact IH | contradiction ].
Qed.

Lemma drop_append a b : PyStr.drop (String.length a) (a ++ b) = b.
Proof. induction a as [ | c a IH ]; [ destruct b; reflexivity | exact IH ]. Qed.

Lemma take_append a b : PyStr.take (String.length a) (a ++ b) = a.
Proof.
  induction a as [ | c a IH ]; [ destruct b; reflexivity | ].
  cbn [String.length String.append PyStr.take]. rewrite IH. reflexivity.
Qed.

Lemma length_append a b :
  String.length (a ++ b) = String.length a + String.length b.
Proof.
  induction a as [ | c a IH ]; [ reflexivity | ].
  cbn [String.append String.length]. rewrite IH. reflexivity.
Qed.

Lemma endswith_append a b : PyStr.endswith (a ++ b) b = true.
Proof.
  unfold PyStr.endswith. rewrite length_append.
  replace (String.length a + String.length b - String.length b)
    with (String.length a) by lia.
  rewrite drop_append, String.eqb_refl.
  apply andb_true_iff. split; [ apply Nat.leb_le; lia | reflexivity ].
Qed.

(** X15.  The path the resolver hands to the API undoes what [main] does
    to the lab argument: from a lab path made of the [/opt/unetlab/labs/]
    prefix, a relative path and the [.unl] extension, the API gets the
    relative path alone, whatever it is. *)
Theorem api_lab_path_strips_prefix_and_extension relative :
  to_api_lab_path ("/opt/unetlab/labs/" ++ relative ++ ".unl") = relative.
Proof.
  unfold to_api_lab_path, PyStr.startswith.
  rewrite prefix_append, drop_append, endswith_append, length_append.
  replace (String.length relative + String.length ".unl" - 4)
    with (String.length relative) by (cbn; lia).
  apply take_append.
Qed.

(** ** The lab-to-host mapping *)

Lemma dict_get_set_same {V : Type} (d : dict V) k v :
  dict_get (dict_set d k v) k = Some v.
Proof.
  induction d as [ | [k' v'] d IH ]; cbn [dict_set dict_get].
  - rewrite String.eqb_refl. reflexivity.
  - destruct (String.eqb k' k) eqn:E; cbn [dict_get]; rewrite E;
      [ reflexivity | exact IH ].
Qed.

Lemma dict_get_set_other {V : Type} (d : dict V) k v k' :
  k' <> k -> dict_get (dict_set d k v) k' = dict_get d k'.
Proof.
  intros N. induction d as [ | [k0 v0] d IH ]; cbn [dict_set dict_get].
  - destruct (String.eqb_spec k k'); [ congruence | reflexivity ].
  - destruct (String.eqb_spec k0 k) as [ -> | N0 ]; cbn [dict_get].
    + destruct (String.eqb_spec k k'); [ congruence | reflexivity ].
    + rewrite IH. reflexivity.
Qed.

Lemma unmapped_interfaces_values interfaces :
  forall m name host_if,
    (forall name' v, dict_get m name' = Some v -> v = None) ->
    dict_get (unmapped_interfaces interfaces m) name = Some host_if ->
    host_if = None.
Proof.
  induction interfaces as [ | [idx d] interfaces IH ];
    intros m name host_if Hm H; cbn [unmapped_interfaces] in H.
  - exact (Hm _ _ H).
  - refine (IH _ _ _ _ H).
    intros name' v Hv.
    destruct (String.eqb_spec name' (inv_if_name d)) as [ -> | N ].
    + rewrite dict_get_set_same in Hv. congruence.
    + rewrite (dict_get_set_other _ _ _ _ N) in Hv. exact (Hm _ _ Hv).
Qed.

Lemma unmapped_interfaces_keeps interfaces :
  forall m name,
    dict_get m name = Some None ->
    dict_get (unmapped_interfaces interfaces m) name = Some None.
Proof.
  induction interfaces as [ | [idx d] interfaces IH ]; intros m name H;
    cbn [unmapped_interfaces]; [ exact H | ].
  apply IH.
  destruct (String.eqb_spec name (inv_if_name d)) as [ -> | N ].
  - apply dict_get_set_same.
  - rewrite (dict_get_set_other _ _ _ _ N). exact H.
Qed.

Lemma unmapped_interfaces_has interfaces :
  forall m e,
    In e interfaces ->
    dict_get (unmapped_interfaces interfaces m) (inv_if_name (snd e)) = Some None.
Proof.
  induction interfaces as [ | [idx d] interfaces IH ]; intros m e Hin;
    [ destruct Hin | ].
  destruct Hin as [ <- | Hin ]; cbn [unmapped_interfaces snd].
  - apply unmapped_interfaces_keeps, dict_get_set_same.
  - apply IH, Hin.
Qed.

Lemma map_nodes_get inventory :
  forall acc node_name,
    dict_get (map_nodes inventory acc) node_name
    = match last_node_named inventory node_name with
      | Some nd => Some (unmapped_interfaces (inv_interfaces nd) [])
      | None => dict_get acc node_name
      end.
Proof.
  induction inventory as [ | [id nd] inventory IH ]; intros acc node_name;
    [ reflexivity | ].
  cbn [map_nodes last_node_named]. rewrite IH.
  destruct (last_node_named inventory node_name); [ reflexivity | ].
  destruct (String.eqb_spec (inv_name nd) node_name) as [ <- | N ].
  - apply dict_get_set_same.
  - apply dict_get_set_other. congruence.
Qed.

(** X16.  The mapping built from an inventory holds an entry for a node
    name exactly when a node of the inventory bears it; the entry lists
    every interface name of that node (of the last such node when several
    share the name), and every host interface in it is [None]: nothing is
    ever mapped, whatever table of MAC addresses is passed. *)
Theorem lab_mapping_lists_interfaces_all_unmapped
  inventory mac_to_interface node_name :
  dict_get (map_lab_to_host_interfaces inventory mac_to_interface) node_name
  = option_map (fun nd => unmapped_interfaces (inv_interfaces nd) [])
      (last_node_named inventory node_name)
  /\ (forall nd e,
        last_node_named inventory node_name = Some nd ->
        In e (inv_interfaces nd) ->
        exists entry,
          dict_get (map_lab_to_host_interfaces inventory mac_to_interface)
            node_name = Some entry
          /\ dict_get entry (inv_if_name (snd e)) = Some None)
  /\ (forall entry if_name host_if,
        dict_get (map_lab_to_host_interfaces inventory mac_to_interface)
          node_name = Some entry ->
        dict_get entry if_name = Some host_if ->
        host_if = None).
Proof.
  unfold map_lab_to_host_interfaces. rewrite map_nodes_get. cbn [dict_get].
  split; [ destruct (last_node_named inventory node_name); reflexivity | ].
  split.
  - intros nd e -> Hin. eexists. split; [ reflexivity | ].
    apply unmapped_interfaces_has, Hin.
  - intros entry if_name host_if Hentry Hif.
    destruct (last_node_named inventory node_name) as [ nd | ];
      [ | discriminate Hentry ].
    injection Hentry as <-.
    apply (unmapped_interfaces_values (inv_interfaces nd) [] if_name host_if);
      [ intros name' v Hv; discriminate Hv | exact Hif ].
Qed.

(** ** The [suspend], [resume] and [flap] subcommands *)

Lemma main_lab_path_missing lab n :
  falsy lab = true -> falsy (getenv w "EVE_LAB") = true ->
  main_lab_path lab n
  = (Raise (Exception "'Namespace' object has no attribute 'use_eveng_api'"),
     [], n).
Proof.
  intros Hl He. unfold main_lab_path, py_or. rewrite Hl, He. reflexivity.
Qed.

(** X17.  Run without a lab path, neither [--lab] nor [EVE_LAB] being set
    (or both being empty), each of [suspend], [resume] and [flap] stops on
    an exception before anything is done, because [main] then reads
    [args.use_eveng_api], which no parser defines: this holds even for a
    host interface, whose transition needs no lab; the process exits with
    status 1. *)
Theorem transition_without_lab_path_raises c args n :
  falsy (targs_lab args) = true ->
  falsy (getenv w "EVE_LAB") = true ->
  main_transition c args n
  = (Raise (Exception "'Namespace' object has no attribute 'use_eveng_api'"),
     [], n)
  /\ exit_status_of (main_transition c args) = 1%Z.
Proof.
  intros Hl He.
  assert (E : forall k,
             main_transition c args k
             = (Raise (Exception
                         "'Namespace' object has no attribute 'use_eveng_api'"),
                [], k)).
  { intros k.
    destruct c; cbn [main_transition];
      unfold main_suspend, main_resume, main_flap;
      apply bind_raises, main_lab_path_missing; assumption. }
  split; [ apply E | ].
  unfold exit_status_of. rewrite (bind_raises _ _ _ _ _ _ (E 0%nat)).
  reflexivity.
Qed.

Lemma returning_ret {A : Type} (a : A) : returning (ret a).
Proof. intros n. exists a. reflexivity. Qed.

Lemma returning_bind {A B : Type} (m : M A) (k : A -> M B) :
  returning m -> (forall a, returning (k a)) -> returning (bind m k).
Proof.
  intros Hm Hk n. rewrite bind_unfold.
  destruct (Hm n) as [a Ha].
  destruct (m n) as [[[a' | e] tr] n']; cbn [value_of fst] in *;
    [ apply Hk | discriminate Ha ].
Qed.

Lemma returning_if {A : Type} (b : bool) (m1 m2 : M A) :
  returning m1 -> returning m2 -> returning (if b then m1 else m2).
Proof. destruct b; auto. Qed.

Lemma returning_print text : returning (print text).
Proof. intros n. exists tt. reflexivity. Qed.

Lemma returning_sleep delay : returning (sleep delay).
Proof. intros n. exists tt. reflexivity. Qed.

Lemma returning_then_value {A B : Type} (m : M A) (b : B) n :
  returning m -> value_of (bind m (fun _ => ret b) n) = Return b.
Proof.
  intros Hm. rewrite bind_unfold.
  destruct (Hm n) as [a Ha].
  destruct (m n) as [[[a' | e] tr] n']; cbn [value_of fst] in *;
    [ reflexivity | discriminate Ha ].
Qed.

Section CommandsStart.

(** Every external command can at least be started. *)
Hypothesis commands_start :
  forall k cmd text, subprocess_run w k cmd <> RunFails text.

Lemma eveng_interface_returning op lab_path device_id interface_id dry_run :
  returning (eveng_interface op lab_path device_id interface_id dry_run).
Proof.
  intros n. destruct dry_run.
  - rewrite eveng_interface_dry_run. eexists. reflexivity.
  - rewrite eveng_interface_apply. cbn [value_of fst].
    pose proof (commands_start n
                  (unl_wrapper_cmd (action op) lab_path device_id interface_id))
      as N.
    destruct (subprocess_run w n _) as [ | text | text ];
      [ eexists; reflexivity | eexists; reflexivity | ].
    exfalso. apply (N text). reflexivity.
Qed.

Lemma eveng_link_returning op lab_path d1 i1 d2 i2 dry_run :
  returning (eveng_link op lab_path d1 i1 d2 i2 dry_run).
Proof.
  intros n. rewrite eveng_link_unfold. revert n.
  apply returning_bind; [ apply eveng_interface_returning | intros r1 ].
  apply returning_bind; [ apply eveng_interface_returning | intros r2 ].
  repeat apply returning_if; apply returning_ret.
Qed.

Lemma host_suspend_returning name : returning (suspend_interface name).
Proof.
  intros n.
  unfold suspend_interface, bind, try_except, emit, run, ret, raise; cbn.
  pose proof (commands_start n ["sudo"; "ip"; "link"; "set"; name; "down"]) as N.
  destruct (subprocess_run w n _) as [ | text | text ];
    [ eexists; reflexivity | eexists; reflexivity | ].
  exfalso. apply (N text). reflexivity.
Qed.

Lemma host_resume_returning name : returning (resume_interface name).
Proof.
  intros n.
  unfold resume_interface, bind, try_except, emit, run, ret, raise; cbn.
  pose proof (commands_start n ["sudo"; "ip"; "link"; "set"; name; "up"]) as N.
  destruct (subprocess_run w n _) as [ | text | text ];
    [ eexists; reflexivity | eexists; reflexivity | ].
  exfalso. apply (N text). reflexivity.
Qed.

Lemma flap_loop_returning suspend resume suspend_failed resume_failed
  count delay remaining :
  returning suspend -> returning resume ->
  forall i,
    returning (flap_loop suspend resume suspend_failed resume_failed
                 count delay i remaining).
Proof.
  intros Hs Hr.
  induction remaining as [ | remaining IH ]; intros i.
  - apply returning_ret.
  - cbn [flap_loop].
    apply returning_bind; [ exact Hs | intros [s1 m1] ].
    apply returning_if; [ apply returning_ret | ].
    apply returning_bind; [ apply returning_sleep | intros _ ].
    apply returning_bind; [ exact Hr | intros [s2 m2] ].
    apply returning_if; [ apply returning_ret | ].
    apply returning_bind;
      [ apply returning_if; [ apply returning_sleep | apply returning_ret ]
      | intros _; apply IH ].
Qed.

Lemma flap_returning t count delay : returning (flap t count delay).
Proof.
  intros n. rewrite flap_is_flap_with. revert n.
  unfold flap_with.
  apply returning_bind.
  - apply flap_loop_returning; destruct t;
      first [ apply host_suspend_returning
            | apply host_resume_returning
            | apply (eveng_interface_returning Suspend)
            | apply (eveng_interface_returning Resume) ].
  - intros [res | ]; apply returning_ret.
Qed.

Lemma main_lab_path_returning lab :
  falsy (py_or lab (getenv w "EVE_LAB")) = false ->
  returning (main_lab_path lab).
Proof.
  intros H. unfold main_lab_path. rewrite H.
  apply returning_if; apply returning_ret.
Qed.

Lemma printing_result_returning (m : M (bool * string)) :
  returning m ->
  returning (bind m (fun x => let '(success, message) := x in print message)).
Proof.
  intros H. apply returning_bind; [ exact H | intros [s msg] ].
  apply returning_print.
Qed.

Lemma main_transition_body_returning c args n :
  falsy (py_or (targs_lab args) (getenv w "EVE_LAB")) = false ->
  value_of (main_transition c args n) = Return None.
Proof.
  intros H.
  destruct c; cbn [main_transition];
    unfold main_suspend, main_resume, main_flap;
    rewrite bind_unfold;
    destruct (main_lab_path_returning _ H n) as [lab_path E];
    destruct (main_lab_path (targs_lab args) n) as [[[lp | e] tr] n'];
    cbn [value_of fst] in E; try discriminate E;
    cbn [value_of fst];
    apply returning_then_value;
    repeat apply returning_if;
    first [ apply returning_print | apply printing_result_returning ];
    first [ apply (eveng_link_returning Suspend)
          | apply (eveng_link_returning Resume)
          | apply (eveng_interface_returning Suspend)
          | apply (eveng_interface_returning Resume)
          | apply host_suspend_returning
          | apply host_resume_returning
          | apply (flap_returning (FlapEveng _ _ _ _))
          | apply (flap_returning (FlapHost _)) ].
Qed.

End CommandsStart.


(** ** Host interfaces and bridges *)

Lemma dict_get_set_cases {V : Type} (d : dict V) k v k' x :
  dict_get (dict_set d k v) k' = Some x -> x = v \/ dict_get d k' = Some x.
Proof.
  destruct (String.eqb_spec k' k) as [ -> | N ].
  - rewrite dict_get_set_same. intros H. injection H as <-. left. reflexivity.
  - rewrite (dict_get_set_other _ _ _ _ N). intros H. right. exact H.
Qed.

Lemma in_dict_set {V : Type} (d : dict V) k v k' v' :
  In (k', v') (dict_set d k v) -> (k', v') = (k, v) \/ In (k', v') d.
Proof.
  induction d as [ | [k0 v0] d IH ]; cbn [dict_set].
  - intros [ H | [] ]. left. symmetry. exact H.
  - destruct (String.eqb_spec k0 k) as [ -> | N ].
    + intros [ H | H ]; [ left; symmetry; exact H | right; right; exact H ].
    + intros [ H | H ]; [ right; left; exact H | ].
      destruct (IH H) as [ E | Hin ]; [ left; exact E | right; right; exact Hin ].
Qed.

Lemma not_falsy_some (x : option string) :
  falsy x = false -> exists s, x = Some s /\ s <> "".
Proof.
  destruct x as [ s | ]; [ | discriminate ].
  cbn [falsy]. unfold PyStr.truthy. rewrite negb_involutive.
  intros H. exists s. split; [ reflexivity | ].
  apply String.eqb_neq, H.
Qed.

Lemma bridges_loop_sound (P : string -> Prop) lines :
  (forall line,
      In line lines ->
      (4 <= List.length (split_ws line))%nat ->
      nth 0 (split_ws line) "" <> "bridge" ->
      P (nth 0 (split_ws line) "")) ->
  forall current acc,
    (forall b, current = Some b -> P b) ->
    (forall k v, dict_get acc k = Some v -> P v) ->
    forall k v, dict_get (bridges_loop lines current acc) k = Some v -> P v.
Proof.
  induction lines as [ | line lines IH ]; intros Hlines current acc Hcur Hacc k v;
    cbn [bridges_loop]; [ apply Hacc | ].
  assert (Hlines' : forall l,
             In l lines ->
             (4 <= List.length (split_ws l))%nat ->
             nth 0 (split_ws l) "" <> "bridge" ->
             P (nth 0 (split_ws l) ""))
    by (intros l Hl; apply Hlines; right; exact Hl).
  destruct (Nat.leb_spec 4 (List.length (split_ws line))) as [ H4 | H4 ];
    cbn [andb].
  - destruct (String.eqb_spec (nth 0 (split_ws line) "") "bridge") as [ E | N ];
      cbn [negb].
    + destruct (Nat.eqb_spec (List.length (split_ws line)) 1) as [ E1 | N1 ];
        [ lia | ].
      cbn [andb]. apply (IH Hlines' _ _ Hcur Hacc).
    + assert (Pb : P (nth 0 (split_ws line) ""))
        by (apply Hlines; [ left; reflexivity | exact H4 | exact N ]).
      apply (IH Hlines').
      * intros b Hb. injection Hb as <-. exact Pb.
      * intros k' v' Hv.
        destruct (3 <? List.length (split_ws line))%nat; [ | apply (Hacc _ _ Hv) ].
        destruct (dict_get_set_cases _ _ _ _ _ Hv) as [ -> | Hv' ];
          [ exact Pb | apply (Hacc _ _ Hv') ].
  - destruct (Nat.eqb (List.length (split_ws line)) 1); cbn [andb];
      [ | apply (IH Hlines' _ _ Hcur Hacc) ].
    destruct (falsy current) eqn:Hf; cbn [negb];
      [ apply (IH Hlines' _ _ Hcur Hacc) | ].
    destruct (not_falsy_some _ Hf) as (b & -> & Hb).
    apply (IH Hlines' _ _ Hcur).
    intros k' v' Hv. cbn [name_of] in Hv.
    destruct (dict_get_set_cases _ _ _ _ _ Hv) as [ -> | Hv' ];
      [ apply Hcur; reflexivity | apply (Hacc _ _ Hv') ].
Qed.

(** X19.  Every bridge that [get_bridges_for_interfaces] gives for an
    interface is the first word of some line of the [brctl show] output
    that has four words or more and does not start with the word "bridge";
    in particular the header line names no bridge.  When the command
    cannot be run the mapping is empty. *)
Theorem bridges_come_from_bridge_lines stdout :
  (forall interface_name bridge,
      dict_get (get_bridges_for_interfaces (Some stdout)) interface_name
      = Some bridge ->
      exists line,
        In line (splitlines stdout)
        /\ (4 <= List.length (split_ws line))%nat
        /\ nth 0 (split_ws line) "" = bridge
        /\ bridge <> "bridge")
  /\ get_bridges_for_interfaces None = [].
Proof.
  split; [ | reflexivity ].
  intros interface_name bridge H. cbn [get_bridges_for_interfaces] in H.
  refine (bridges_loop_sound
            (fun b => exists line,
                 In line (splitlines stdout)
                 /\ (4 <= List.length (split_ws line))%nat
                 /\ nth 0 (split_ws line) "" = b
                 /\ b <> "bridge")
            (splitlines stdout) _ None [] _ _ interface_name bridge H).
  - intros line Hin H4 N. exists line. repeat split; assumption.
  - intros b Hb. discriminate Hb.
  - intros k v Hv. discriminate Hv.
Qed.

Lemma macs_loop_invariant lines :
  forall current acc m,
    macs_loop lines current acc = Some m ->
    (forall b, current = Some b -> PyStr.contains "@" b = false) ->
    (forall mac name,
        In (mac, name) acc ->
        PyStr.lower mac = mac /\ PyStr.contains "@" name = false /\ name <> "") ->
    forall mac name,
      In (mac, name) m ->
      PyStr.lower mac = mac /\ PyStr.contains "@" name = false /\ name <> "".
Proof.
  induction lines as [ | line lines IH ]; intros current acc m H Hcur Hacc;
    cbn [macs_loop] in H.
  - injection H as <-. exact Hacc.
  - destruct (PyStr.contains ": " line).
    + apply (IH _ _ _ H); [ | exact Hacc ].
      intros b Hb. injection Hb as <-.
      apply (nth_without_sep "@" _ 0).
    + destruct (PyStr.contains "link/ether" line); cbn [andb] in H;
        [ | apply (IH _ _ _ H Hcur Hacc) ].
      destruct (falsy current) eqn:Hf; cbn [negb] in H;
        [ apply (IH _ _ _ H Hcur Hacc) | ].
      destruct (nth_error (split_ws line) 1) as [ token | ]; [ | discriminate H ].
      destruct (not_falsy_some _ Hf) as (b & -> & Hb).
      apply (IH _ _ _ H Hcur).
      intros mac name Hin. cbn [name_of] in Hin.
      destruct (in_dict_set _ _ _ _ _ Hin) as [ E | Hin' ];
        [ | apply (Hacc _ _ Hin') ].
      injection E as -> ->.
      split; [ apply lower_idempotent | ].
      split; [ apply Hcur; reflexivity | exact Hb ].
Qed.

(** X20.  In every mapping that [map_macs_to_host_interfaces] returns,
    each MAC address is in lower case, and each interface name is not
    empty and holds no [@]: the peer suffix that [ip link] shows after the
    name is cut off. *)
Theorem mac_table_is_normalised stdout mac_to_interface :
  map_macs_to_host_interfaces (Some stdout) = Return mac_to_interface ->
  forall mac interface_name,
    In (mac, interface_name) mac_to_interface ->
    PyStr.lower mac = mac
    /\ PyStr.contains "@" interface_name = false
    /\ interface_name <> "".
Proof.
  cbn [map_macs_to_host_interfaces].
  destruct (macs_loop (splitlines stdout) None []) as [ m | ] eqn:E;
    [ | discriminate ].
  intros H. injection H as <-.
  apply (macs_loop_invariant _ _ _ _ E).
  - intros b Hb. discriminate Hb.
  - intros mac name [].
Qed.

(** ** Name records and the by-name transitions *)

(** X21.  A 2-field line of a suspend or resume batch is counted as the
    by-name transition on the same names would decide: whenever
    [suspend_interface_by_name] (or [resume_interface_by_name]) returns a
    result for the device and interface names of the line, the line adds
    one to success_count if that result is a success and one to
    failure_count if it is not, resolution failures included. *)
Theorem name_record_counts_as_by_name_transition
  op eve_client lab_path dry_run count delay i line device_name interface_name
  s f n success message tr n' :
  PyStr.split "," line = [device_name; interface_name] ->
  interface_by_name op eve_client lab_path device_name interface_name dry_run n
  = (Return (success, message), tr, n') ->
  value_of (process_record eve_client (verb op) lab_path dry_run count delay
              i line (s, f) n)
  = Return (if success then ((s + 1)%Z, f) else (s, (f + 1)%Z)).
Proof.
  intros Hsplit H.
  unfold process_record. rewrite Hsplit.
  destruct op; cbn [interface_by_name verb] in *;
    unfold suspend_interface_by_name, resume_interface_by_name in H;
    destruct (get_device_id_by_name eve_client lab_path device_name)
      as [ device_id | ]; cbn [falsy name_of] in *;
    try (injection H as <- _ _ _; reflexivity);
    destruct (PyStr.truthy device_id); cbn [negb] in *;
    try (injection H as <- _ _ _; reflexivity);
    destruct (get_interface_id_by_name eve_client lab_path device_id
                interface_name) as [ interface_id | ];
    cbn [falsy name_of] in *;
    try (injection H as <- _ _ _; reflexivity);
    destruct (PyStr.truthy interface_id); cbn [negb] in *;
    try (injection H as <- _ _ _; reflexivity);
    cbn [String.eqb Ascii.eqb Bool.eqb];
    rewrite (bind_returns _ _ _ _ _ _ H);
    destruct success; reflexivity.
Qed.

End Program.

Arguments value_of {float A} x.
Arguments trace_of {float A} x.
Arguments runs_of {float A} x.
Arguments transitions {float} tr.
Arguments commands {float} tr.
Arguments skeleton {float} tr.
Arguments mid_pair_delays {float} tr.
Arguments between_pair_delays {float} tr.
Arguments transitions_performed {float} tr.
Arguments EvTransition {float} op t dry_run.
Arguments EvRun {float} cmd.
Arguments EvSleep {float} delay.
Arguments EvPrint {float} text.
Arguments EvLogin {float} host username password.

(** * The properties on concrete runs *)

(** C9.  On a batch file whose only line has three fields, the batch ends
    with failure_count = 1 and [main] returns 1, yet the script drops that
    value and the process exits with status 0. *)
Theorem batch_failure_exits_with_status_zero :
  let w := world_with_file "links.txt" ["a,b,c"] in
  let args := mkBatchArgs sample_float "suspend" "links.txt" "demo.unl" 1%Z "1.0" false in
  value_of (process_batch_file sample_float sample_str_float w
              "links.txt" "suspend" demo_lab false 1%Z "1.0" 0)
    = Return (0%Z, 1%Z)
  /\ value_of (main sample_float sample_str_float w args 0) = Return (Some 1%Z)
  /\ script sample_float sample_str_float w args = 0%Z.
Proof. cbv zeta. repeat split; reflexivity. Qed.

(** C5.  A flap sequence on a host interface whose suspend is rejected by
    the host stops at that step, with no resume and no delay, and returns
    success=false; but its result does not carry the failure of the step:
    the message that [suspend_interface] returned, with the error text of
    the command, is dropped, and only the name of the step is reported.
    In the same situation the sequence on an EVE-NG endpoint appends the
    message of the step to its own. *)
Theorem flap_interface_drops_step_failure :
  let w := world_rejecting 0 "exit status 1" in
  let step := suspend_interface sample_float w "vunl0_1_0" 0 in
  let host := flap_interface sample_float w "vunl0_1_0" 2%Z "1.0" 0 in
  let eveng :=
    flap_eveng_interface sample_float sample_str_float w
      demo_lab "1" "0" 2%Z "1.0" false 0 in
  value_of step = Return (false, "Failed to suspend vunl0_1_0: exit status 1")
  /\ value_of host = Return (false, "Failed to flap vunl0_1_0 (suspend failed)")
  /\ trace_of host = trace_of step
  /\ PyStr.contains "Failed to suspend vunl0_1_0: exit status 1"
       "Failed to flap vunl0_1_0 (suspend failed)" = false
  /\ PyStr.contains "exit status 1"
       "Failed to flap vunl0_1_0 (suspend failed)" = false
  /\ value_of eveng
     = Return (false, "Failed to flap device 1 interface 0 (suspend failed): "
                        ++ "Failed to suspend EVE-NG interface: exit status 1")
  /\ PyStr.contains "exit status 1"
       ("Failed to flap device 1 interface 0 (suspend failed): "
          ++ "Failed to suspend EVE-NG interface: exit status 1") = true.
Proof. cbv zeta. repeat split; reflexivity. Qed.

(** ** Inputs on which a claim fails as first stated *)

(** C3 fails as first stated: when the command of endpoint 1 cannot be
    started, the exception leaves [suspend_eveng_link] before endpoint 2 is
    tried, so the executor is entered once, not twice. *)
Lemma link_skips_endpoint2_when_endpoint1_raises :
  let x := suspend_eveng_link sample_float world_without_sudo
             demo_lab "1" "0" "2" "0" false 0 in
  value_of x = Raise (Exception "[Errno 2] No such file or directory: 'sudo'")
  /\ transitions (trace_of x) = [(Suspend, EvengIf demo_lab "1" "0", false)]
  /\ transitions (trace_of x)
     <> [(Suspend, EvengIf demo_lab "1" "0", false);
         (Suspend, EvengIf demo_lab "2" "0", false)].
Proof.
  cbv zeta. split; [ reflexivity | ]. split; [ reflexivity | ].
  intros H. vm_compute in H. discriminate H.
Qed.

(** C4 fails as first stated: with N = 1 there is one delay between the
    suspend and its resume and none after the resume, not N-1 = 0 of the
    first kind and N = 1 of the second. *)
Lemma flap_once_has_one_mid_pair_delay :
  let x := flap_eveng_interface sample_float sample_str_float calm_world
             demo_lab "1" "0" 1%Z "1.0" true 0 in
  value_of x
  = Return (true, "DRY RUN - Would flap device 1 interface 0 1 times with 1.0s delay")
  /\ mid_pair_delays (trace_of x) = 1
  /\ between_pair_delays (trace_of x) = 0
  /\ ~ (mid_pair_delays (trace_of x) = Z.to_nat (1 - 1)
        /\ between_pair_delays (trace_of x) = Z.to_nat 1).
Proof.
  cbv zeta. repeat (split; [ reflexivity | ]).
  intros [H _]. vm_compute in H. discriminate H.
Qed.

(** C6 fails as first stated: when the command cannot be started, the
    executor returns no result at all; the exception goes to its caller. *)
Lemma executor_lets_other_exceptions_through :
  value_of (suspend_eveng_interface sample_float world_without_sudo
              demo_lab "1" "0" false 0)
  = Raise (Exception "[Errno 2] No such file or directory: 'sudo'")
  /\ ~ (exists message,
          value_of (suspend_eveng_interface sample_float world_without_sudo
                      demo_lab "1" "0" false 0)
          = Return (false, message)).
Proof.
  split; [ reflexivity | ].
  intros [message H]. vm_compute in H. discriminate H.
Qed.

(** C7 fails as first stated: asked for "e0/1" where interface 0 is named
    "e0/10" and interface 1 is named "e0/1", the resolver returns 0, found
    by the substring test on the first entry, although interface 1 has the
    local ID of the last segment and the very name asked for. *)
Lemma earlier_substring_match_beats_later_id_match :
  let bucket := [("0", IfDict (Some "e0/10")); ("1", IfDict (Some "e0/1"))] in
  let client :=
    mkClient (fun _ => ApiReturns (mkResponse "success" [("7", mkNode "R1")]))
             (fun _ _ => ApiReturns (mkResponse "success" [("ethernet", bucket)])) in
  last_part_of (snd (parse_interface_name "e0/1")) = "1"
  /\ id_matches "1" "1" = true
  /\ name_matches (IfDict (Some "e0/1")) "e0/1" = true
  /\ id_matches "0" "1" = false
  /\ name_matches (IfDict (Some "e0/10")) "e0/1" = false
  /\ partial_name_matches (IfDict (Some "e0/10")) "e0/1" = true
  /\ find_interface bucket "1" "e0/1" = Some "0"
  /\ get_interface_id_by_name client demo_lab "7" "e0/1" = Some "0"
  /\ get_interface_id_by_name client demo_lab "7" "e0/1" <> Some "1".
Proof.
  cbv zeta. repeat (split; [ reflexivity | ]).
  intros H. vm_compute in H. discriminate H.
Qed.

(** ** The theorems at work *)

Lemma link_result_combines_endpoints_witness :
  exists m1 tr1 n1 m2 tr2 n2,
    eveng_interface sample_float (world_rejecting 1 "exit status 1")
      Suspend demo_lab "1" "0" false 0
    = (Return (true, m1), tr1, n1)
    /\ eveng_interface sample_float (world_rejecting 1 "exit status 1")
         Suspend demo_lab "2" "0" false n1
       = (Return (false, m2), tr2, n2)
    /\ exists success message,
         eveng_link sample_float (world_rejecting 1 "exit status 1")
           Suspend demo_lab "1" "0" "2" "0" false 0
         = (Return (success, message), (tr1 ++ tr2)%list, n2)
         /\ (success = true <-> true = true /\ false = true)
         /\ (true = false ->
             message = "Failed to " ++ verb Suspend ++ " first side of link: " ++ m1)
         /\ (true = true -> false = false ->
             message = "Failed to " ++ verb Suspend ++ " second side of link: " ++ m2).
Proof.
  do 6 eexists. split; [ reflexivity | ]. split; [ reflexivity | ].
  eapply link_result_combines_endpoints; reflexivity.
Defined.

Lemma link_invokes_both_endpoints_in_order_witness :
  exists r1 tr1 n1,
    eveng_interface sample_float (world_rejecting 0 "exit status 1")
      Suspend demo_lab "1" "0" false 0
    = (Return r1, tr1, n1)
    /\ fst r1 = false
    /\ transitions
         (trace_of (eveng_link sample_float (world_rejecting 0 "exit status 1")
                      Suspend demo_lab "1" "0" "2" "0" false 0))
       = [(Suspend, EvengIf demo_lab "1" "0", false);
          (Suspend, EvengIf demo_lab "2" "0", false)].
Proof.
  do 3 eexists. split; [ reflexivity | ]. split; [ reflexivity | ].
  eapply link_invokes_both_endpoints_in_order. reflexivity.
Defined.

Lemma flap_transition_and_delay_counts_witness :
  (1 <= 2)%Z
  /\ value_of (flap sample_float sample_str_float calm_world
                 (FlapEveng demo_lab "1" "0" false) 2%Z "0.5" 0)
     = Return (true, "Successfully flapped device 1 interface 0 2 times with 0.5s delay")
  /\ (count_transitions Suspend
        (skeleton (trace_of (flap sample_float sample_str_float calm_world
                               (FlapEveng demo_lab "1" "0" false) 2%Z "0.5" 0)))
      = Z.to_nat 2
      /\ count_transitions Resume
           (skeleton (trace_of (flap sample_float sample_str_float calm_world
                                  (FlapEveng demo_lab "1" "0" false) 2%Z "0.5" 0)))
         = Z.to_nat 2
      /\ transitions_performed
           (trace_of (flap sample_float sample_str_float calm_world
                        (FlapEveng demo_lab "1" "0" false) 2%Z "0.5" 0))
         = 2 * Z.to_nat 2
      /\ mid_pair_delays
           (trace_of (flap sample_float sample_str_float calm_world
                        (FlapEveng demo_lab "1" "0" false) 2%Z "0.5" 0))
         = Z.to_nat 2
      /\ between_pair_delays
           (trace_of (flap sample_float sample_str_float calm_world
                        (FlapEveng demo_lab "1" "0" false) 2%Z "0.5" 0))
         = Z.to_nat 2 - 1).
Proof.
  assert (H : (1 <= 2)%Z) by lia.
  split; [ exact H | ]. split; [ reflexivity | ].
  apply (proj1 (flap_transition_and_delay_counts sample_float sample_str_float
                  calm_world (FlapEveng demo_lab "1" "0" false) 2%Z "0.5" 0 H)
           "Successfully flapped device 1 interface 0 2 times with 0.5s delay").
  reflexivity.
Defined.

Lemma flap_aborts_at_first_failure_witness :
  exists tr0 n0 m1 tr1 n1,
    (0 <= 1 < 2)%Z
    /\ flap_cycles sample_float (world_rejecting 2 "exit status 1")
         (FlapEveng demo_lab "1" "0" false) 2%Z "0.5" 0%Z (Z.to_nat 1) 0
       = (Return None, tr0, n0)
    /\ flap_suspend sample_float (world_rejecting 2 "exit status 1")
         (FlapEveng demo_lab "1" "0" false) n0
       = (Return (false, m1), tr1, n1)
    /\ flap sample_float sample_str_float (world_rejecting 2 "exit status 1")
         (FlapEveng demo_lab "1" "0" false) 2%Z "0.5" 0
       = (Return (false, flap_failure (FlapEveng demo_lab "1" "0" false) Suspend m1),
          (tr0 ++ tr1)%list, n1).
Proof.
  assert (H : (0 <= 1 < 2)%Z) by lia.
  do 5 eexists. split; [ exact H | ]. split; [ reflexivity | ].
  split; [ reflexivity | ].
  eapply (proj1 (flap_aborts_at_first_failure sample_float sample_str_float
                   (world_rejecting 2 "exit status 1")
                   (FlapEveng demo_lab "1" "0" false) 2%Z "0.5" 1%Z 0 _ _
                   H eq_refl)).
  reflexivity.
Defined.

Lemma nonzero_status_caught_other_failures_raised_witness :
  subprocess_run (world_rejecting 0 "exit status 1") 0
    (unl_wrapper_cmd (action Resume) demo_lab "1" "0")
  = NonZeroExit "exit status 1"
  /\ value_of (eveng_interface sample_float (world_rejecting 0 "exit status 1")
                 Resume demo_lab "1" "0" false 0)
     = Return (false, "Failed to " ++ verb Resume ++ " EVE-NG interface: "
                        ++ "exit status 1").
Proof.
  split; [ reflexivity | ].
  apply (proj1 (nonzero_status_caught_other_failures_raised sample_float
                  (world_rejecting 0 "exit status 1") Resume demo_lab "1" "0" 0)).
  reflexivity.
Defined.

Lemma find_interface_first_entry_passing_any_test_witness :
  forallb (fun e => negb (entry_matches "1" "e0/1" e))
    [("0", IfDict (Some "Ethernet0/0"))] = true
  /\ id_matches "1" "1" = true
  /\ find_interface
       [("0", IfDict (Some "Ethernet0/0")); ("1", IfDict (Some "Ethernet0/1"))]
       "1" "e0/1"
     = Some "1".
Proof.
  split; [ reflexivity | ]. split; [ reflexivity | ].
  apply (proj2 (find_interface_first_entry_passing_any_test
                  [("0", IfDict (Some "Ethernet0/0"));
                   ("1", IfDict (Some "Ethernet0/1"))] "1" "e0/1")
           [("0", IfDict (Some "Ethernet0/0"))] "1"
           (IfDict (Some "Ethernet0/1")) []);
    reflexivity.
Defined.

Lemma batch_skips_blank_and_counts_malformed_witness :
  (PyStr.all_space "# core links" = true
   \/ PyStr.startswith "# core links" "#" = true)
  /\ process_line sample_float sample_str_float calm_world empty_lab
       "suspend" demo_lab false 1%Z "1.0" 2%Z "# core links" (1%Z, 0%Z) 0
     = (Return (1%Z, 0%Z), [], 0)
  /\ skipped (PyStr.strip "R1,e0/0,R2") = false
  /\ List.length (PyStr.split "," (PyStr.strip "R1,e0/0,R2")) <> 2
  /\ List.length (PyStr.split "," (PyStr.strip "R1,e0/0,R2")) <> 4
  /\ exists text,
       process_line sample_float sample_str_float calm_world empty_lab
         "suspend" demo_lab false 1%Z "1.0" 3%Z "R1,e0/0,R2" (1%Z, 0%Z) 0
       = (Return (1%Z, (0 + 1)%Z), [EvPrint text], 0).
Proof.
  assert (Hc : PyStr.all_space "# core links" = true
               \/ PyStr.startswith "# core links" "#" = true)
    by (right; reflexivity).
  assert (H2 : List.length (PyStr.split "," (PyStr.strip "R1,e0/0,R2")) <> 2)
    by (intros H; discriminate H).
  assert (H4 : List.length (PyStr.split "," (PyStr.strip "R1,e0/0,R2")) <> 4)
    by (intros H; discriminate H).
  split; [ exact Hc | ].
  split.
  { exact (proj1 (proj1 (batch_skips_blank_and_counts_malformed
                           sample_float sample_str_float calm_world empty_lab
                           "suspend" demo_lab false 1%Z "1.0" 2%Z
                           "# core links" [] 1%Z 0%Z 0) Hc)). }
  split; [ reflexivity | ]. split; [ exact H2 | ]. split; [ exact H4 | ].
  destruct (proj2 (batch_skips_blank_and_counts_malformed
                     sample_float sample_str_float calm_world empty_lab
                     "suspend" demo_lab false 1%Z "1.0" 3%Z
                     "R1,e0/0,R2" [] 1%Z 0%Z 0) eq_refl H2 H4)
    as [text [E _]].
  exists text. exact E.
Defined.

Lemma missing_file_or_invalid_operation_looks_like_success_witness :
  (files calm_world "links.txt" = None
   \/ ~ In "suspend" ["suspend"; "resume"; "flap"])
  /\ process_batch_file sample_float sample_str_float calm_world
       "links.txt" "suspend" demo_lab false 1%Z "1.0" 0
     = (Return (0%Z, 0%Z), [], 0)
  /\ (files (world_with_file "links.txt" ["1,0,2,0"]) "links.txt" = None
      \/ ~ In "restart" ["suspend"; "resume"; "flap"])
  /\ process_batch_file sample_float sample_str_float
       (world_with_file "links.txt" ["1,0,2,0"])
       "links.txt" "restart" demo_lab false 1%Z "1.0" 0
     = (Return (0%Z, 0%Z), [], 0).
Proof.
  assert (Hf : files calm_world "links.txt" = None
               \/ ~ In "suspend" ["suspend"; "resume"; "flap"])
    by (left; reflexivity).
  assert (Ho : files (world_with_file "links.txt" ["1,0,2,0"]) "links.txt" = None
               \/ ~ In "restart" ["suspend"; "resume"; "flap"]).
  { right. intros [H | [H | [H | []]]]; discriminate H. }
  split; [ exact Hf | ].
  split.
  { exact (proj1 (missing_file_or_invalid_operation_looks_like_success
                    sample_float sample_str_float calm_world
                    "links.txt" "suspend" demo_lab false 1%Z "1.0" 0 Hf)). }
  split; [ exact Ho | ].
  exact (proj1 (missing_file_or_invalid_operation_looks_like_success
                  sample_float sample_str_float
                  (world_with_file "links.txt" ["1,0,2,0"])
                  "links.txt" "restart" demo_lab false 1%Z "1.0" 0 Ho)).
Defined.

Arguments sleeps {float} tr.
Arguments printed {float} tr.

(** ** The further properties at work *)

Lemma batch_counts_every_record_once_witness :
  files (world_with_file "links.txt" ["1,0,2,0"; "# core"; "x,y,z"]) "links.txt"
  = Some ["1,0,2,0"; "# core"; "x,y,z"]
  /\ valid_operation "suspend" = true
  /\ login (world_with_file "links.txt" ["1,0,2,0"; "# core"; "x,y,z"])
       (batch_host (world_with_file "links.txt" ["1,0,2,0"; "# core"; "x,y,z"]))
       (batch_username (world_with_file "links.txt" ["1,0,2,0"; "# core"; "x,y,z"]))
       (batch_password (world_with_file "links.txt" ["1,0,2,0"; "# core"; "x,y,z"]))
     = Some empty_lab
  /\ exists success_count failure_count,
       value_of (process_batch_file sample_float sample_str_float
                   (world_with_file "links.txt" ["1,0,2,0"; "# core"; "x,y,z"])
                   "links.txt" "suspend" demo_lab false 1%Z "1.0" 0)
       = Return (success_count, failure_count)
       /\ (0 <= success_count)%Z /\ (0 <= failure_count)%Z
       /\ (success_count + failure_count)%Z
          = Z.of_nat (List.length (records ["1,0,2,0"; "# core"; "x,y,z"])).
Proof.
  split; [ reflexivity | ]. split; [ reflexivity | ]. split; [ reflexivity | ].
  apply (batch_counts_every_record_once sample_float sample_str_float
           (world_with_file "links.txt" ["1,0,2,0"; "# core"; "x,y,z"])
           "links.txt" "suspend" demo_lab false 1%Z "1.0"
           ["1,0,2,0"; "# core"; "x,y,z"] empty_lab 0);
    reflexivity.
Defined.

Lemma batch_login_failure_exits_witness :
  files (world_locked_out "links.txt" ["1,0,2,0"]) "links.txt" = Some ["1,0,2,0"]
  /\ valid_operation "flap" = true
  /\ process_batch_file sample_float sample_str_float
       (world_locked_out "links.txt" ["1,0,2,0"])
       "links.txt" "flap" demo_lab false 1%Z "1.0" 0
     = (Raise (SystemExit 1%Z), [EvLogin "localhost" "admin" "eve"], 0).
Proof.
  split; [ reflexivity | ]. split; [ reflexivity | ].
  apply (batch_login_failure_exits sample_float sample_str_float
           (world_locked_out "links.txt" ["1,0,2,0"])
           "links.txt" "flap" demo_lab false 1%Z "1.0" ["1,0,2,0"] 0);
    reflexivity.
Defined.

Lemma batch_exit_status_only_reflects_login_witness :
  valid_operation "flap" = true
  /\ files (world_locked_out "links.txt" ["1,0,2,0"]) "links.txt"
     = Some ["1,0,2,0"]
  /\ files (world_locked_out "links.txt" ["1,0,2,0"]) "other.txt" = None
  /\ script sample_float sample_str_float
       (world_locked_out "links.txt" ["1,0,2,0"])
       (mkBatchArgs sample_float "flap" "links.txt" "demo.unl" 1%Z "1.0" false)
     = 1%Z
  /\ script sample_float sample_str_float
       (world_locked_out "links.txt" ["1,0,2,0"])
       (mkBatchArgs sample_float "flap" "other.txt" "demo.unl" 1%Z "1.0" false)
     = 0%Z.
Proof.
  split; [ reflexivity | ]. split; [ reflexivity | ]. split; [ reflexivity | ].
  split.
  - exact (proj2 (batch_exit_status_only_reflects_login sample_float
                    sample_str_float
                    (world_locked_out "links.txt" ["1,0,2,0"])
                    (mkBatchArgs sample_float "flap" "links.txt" "demo.unl"
                       1%Z "1.0" false)
                    eq_refl)
             ["1,0,2,0"] eq_refl).
  - exact (proj1 (batch_exit_status_only_reflects_login sample_float
                    sample_str_float
                    (world_locked_out "links.txt" ["1,0,2,0"])
                    (mkBatchArgs sample_float "flap" "other.txt" "demo.unl"
                       1%Z "1.0" false)
                    eq_refl)
             eq_refl).
Defined.

Lemma batch_dry_run_runs_no_command_witness :
  commands
    (trace_of (main sample_float sample_str_float
                 (world_with_file "links.txt" ["1,0,2,0"; "R1,e0/0"])
                 (mkBatchArgs sample_float "flap" "links.txt" "demo.unl"
                    3%Z "0.5" true) 0))
  = []
  /\ runs_of (main sample_float sample_str_float
                (world_with_file "links.txt" ["1,0,2,0"; "R1,e0/0"])
                (mkBatchArgs sample_float "flap" "links.txt" "demo.unl"
                   3%Z "0.5" true) 0)
     = 0.
Proof.
  apply (batch_dry_run_runs_no_command sample_float sample_str_float
           (world_with_file "links.txt" ["1,0,2,0"; "R1,e0/0"])
           (mkBatchArgs sample_float "flap" "links.txt" "demo.unl"
              3%Z "0.5" true) 0).
  reflexivity.
Defined.

Lemma flap_with_no_cycle_succeeds_witness :
  (0 <= 0)%Z
  /\ flap sample_float sample_str_float world_without_sudo
       (FlapHost "vunl0_1_0") 0%Z "1.0" 0
     = (Return (true, "Successfully flapped vunl0_1_0 0 times"), [], 0).
Proof.
  assert (H : (0 <= 0)%Z) by lia.
  split; [ exact H | ].
  exact (proj1 (flap_with_no_cycle_succeeds sample_float sample_str_float
                  world_without_sudo (FlapHost "vunl0_1_0") 0%Z "1.0" 0 H)).
Defined.



Lemma batch_line_survives_unstartable_command_witness :
  skipped (PyStr.strip "1,0,2,0") = false
  /\ PyStr.split "," (PyStr.strip "1,0,2,0") = ["1"; "0"; "2"; "0"]
  /\ subprocess_run world_without_sudo 0
       (unl_wrapper_cmd "suspendlink" demo_lab "1" "0")
     = RunFails "[Errno 2] No such file or directory: 'sudo'"
  /\ value_of (process_line sample_float sample_str_float world_without_sudo
                 empty_lab "suspend" demo_lab false 1%Z "1.0" 1%Z "1,0,2,0"
                 (0%Z, 0%Z) 0)
     = Return (0%Z, (0 + 1)%Z).
Proof.
  split; [ reflexivity | ]. split; [ reflexivity | ]. split; [ reflexivity | ].
  rewrite (batch_line_survives_unstartable_command sample_float
             sample_str_float world_without_sudo empty_lab demo_lab
             1%Z "1.0" 1%Z "1,0,2,0" "1" "0" "2" "0" 0%Z 0%Z 0
             "[Errno 2] No such file or directory: 'sudo'"
             eq_refl eq_refl eq_refl).
  reflexivity.
Defined.


Lemma device_id_is_first_case_insensitive_match_witness :
  get_device_id_by_name demo_client demo_lab "R2" = Some "2"
  /\ exists nodes before nd after,
       list_nodes demo_client (to_api_lab_path demo_lab)
       = ApiReturns (mkResponse "success" nodes)
       /\ nodes = (before ++ ("2", nd) :: after)%list
       /\ PyStr.lower (node_name nd) = PyStr.lower "R2"
       /\ forall e, In e before ->
                    PyStr.lower (node_name (snd e)) <> PyStr.lower "R2".
Proof.
  split; [ reflexivity | ].
  apply (proj1 (device_id_is_first_case_insensitive_match
                  demo_client demo_lab "R2") "2").
  reflexivity.
Defined.

Lemma interface_id_comes_from_one_bucket_witness :
  get_interface_id_by_name demo_client demo_lab "1" "Serial1/0" = Some "0"
  /\ exists interfaces bucket,
       get_node_interfaces demo_client (to_api_lab_path demo_lab) "1"
       = ApiReturns (mkResponse "success" interfaces)
       /\ dict_get interfaces (bucket_of (fst (parse_interface_name "Serial1/0")))
          = Some bucket
       /\ In "0" (List.map fst bucket).
Proof.
  split; [ reflexivity | ].
  apply (interface_id_comes_from_one_bucket demo_client demo_lab "1"
           "Serial1/0" "0").
  reflexivity.
Defined.

Lemma slash_name_is_looked_up_by_second_segment_witness :
  PyStr.contains "/" "Gi1/0/3" = true
  /\ last_part_of (snd (parse_interface_name "Gi1/0/3"))
     = nth 1 (PyStr.split "/" (PyStr.lower "Gi1/0/3")) "".
Proof.
  split; [ reflexivity | ].
  apply slash_name_is_looked_up_by_second_segment. reflexivity.
Defined.

Lemma slash_name_resolution_ignores_case_witness :
  PyStr.contains "/" "E0/1" = true
  /\ resolve_in [("ethernet", [("0", IfDict (Some "e0/0"));
                               ("1", IfDict (Some "e0/1"))])]
       (PyStr.lower "E0/1")
     = resolve_in [("ethernet", [("0", IfDict (Some "e0/0"));
                                 ("1", IfDict (Some "e0/1"))])]
         "E0/1".
Proof.
  split; [ reflexivity | ].
  apply slash_name_resolution_ignores_case. reflexivity.
Defined.

Lemma first_interface_passing_any_test_is_returned_witness :
  (List.length (PyStr.split "/" "e0/1") <= 2)%nat
  /\ last_segment "e0/1" = "1"
  /\ forallb (fun e => negb (entry_matches (last_segment "e0/1") "e0/1" e))
       [("0", IfDict (Some "Ethernet0/0"))] = true
  /\ resolve_in
       [("serial", [("1", IfDict (Some "Serial1/1"))]);
        ("ethernet", [("0", IfDict (Some "Ethernet0/0"));
                      ("1", IfDict (Some "Ethernet0/1"))])]
       "e0/1"
     = Some "1".
Proof.
  assert (H : (List.length (PyStr.split "/" "e0/1") <= 2)%nat) by (cbn; lia).
  split; [ exact H | ]. split; [ reflexivity | ]. split; [ reflexivity | ].
  apply (proj2 (proj2 (first_interface_passing_any_test_is_returned
                         [("serial", [("1", IfDict (Some "Serial1/1"))]);
                          ("ethernet", [("0", IfDict (Some "Ethernet0/0"));
                                        ("1", IfDict (Some "Ethernet0/1"))])]
                         "e0/1" H))
           [("0", IfDict (Some "Ethernet0/0"));
            ("1", IfDict (Some "Ethernet0/1"))]
           [("0", IfDict (Some "Ethernet0/0"))] "1"
           (IfDict (Some "Ethernet0/1")) []);
    reflexivity.
Defined.

Lemma lab_mapping_lists_interfaces_all_unmapped_witness :
  last_node_named
    [("1", mkInventoryNode "R1"
             [("ethernet_0", mkInventoryInterface "e0/0" 1%Z);
              ("ethernet_1", mkInventoryInterface "e0/1" 0%Z)])]
    "R1"
  = Some (mkInventoryNode "R1"
            [("ethernet_0", mkInventoryInterface "e0/0" 1%Z);
             ("ethernet_1", mkInventoryInterface "e0/1" 0%Z)])
  /\ In ("ethernet_1", mkInventoryInterface "e0/1" 0%Z)
        (inv_interfaces
           (mkInventoryNode "R1"
              [("ethernet_0", mkInventoryInterface "e0/0" 1%Z);
               ("ethernet_1", mkInventoryInterface "e0/1" 0%Z)]))
  /\ exists entry,
       dict_get
         (map_lab_to_host_interfaces
            [("1", mkInventoryNode "R1"
                     [("ethernet_0", mkInventoryInterface "e0/0" 1%Z);
                      ("ethernet_1", mkInventoryInterface "e0/1" 0%Z)])]
            [("52:54:00:12:34:56", "vunl0_1_0")])
         "R1"
       = Some entry
       /\ dict_get entry "e0/1" = Some None.
Proof.
  split; [ reflexivity | ]. split; [ right; left; reflexivity | ].
  apply (proj1 (proj2 (lab_mapping_lists_interfaces_all_unmapped
                         [("1", mkInventoryNode "R1"
                                  [("ethernet_0", mkInventoryInterface "e0/0" 1%Z);
                                   ("ethernet_1", mkInventoryInterface "e0/1" 0%Z)])]
                         [("52:54:00:12:34:56", "vunl0_1_0")] "R1"))
           (mkInventoryNode "R1"
              [("ethernet_0", mkInventoryInterface "e0/0" 1%Z);
               ("ethernet_1", mkInventoryInterface "e0/1" 0%Z)])
           ("ethernet_1", mkInventoryInterface "e0/1" 0%Z)).
  - reflexivity.
  - right. left. reflexivity.
Defined.

Lemma transition_without_lab_path_raises_witness :
  falsy None = true
  /\ falsy (getenv calm_world "EVE_LAB") = true
  /\ exit_status_of sample_float
       (main_transition sample_float sample_str_float calm_world CmdSuspend
          (mkTransitionArgs sample_float (Some "vunl0_1_0") None None None
             None None None None 1%Z "1.0" false))
     = 1%Z.
Proof.
  split; [ reflexivity | ]. split; [ reflexivity | ].
  apply (proj2 (transition_without_lab_path_raises sample_float
                  sample_str_float calm_world CmdSuspend
                  (mkTransitionArgs sample_float (Some "vunl0_1_0") None None None
                     None None None None 1%Z "1.0" false) 0
                  eq_refl eq_refl)).
Defined.


Lemma bridges_come_from_bridge_lines_witness :
  dict_get
    (get_bridges_for_interfaces
       (Some ("bridge name bridge id STP enabled interfaces" ++ newline
                ++ "vnet0_1 8000.0050561 no vunl0_1_0" ++ newline
                ++ "   vunl0_2_0" ++ newline)))
    "vunl0_2_0"
  = Some "vnet0_1"
  /\ exists line,
       In line (splitlines
                  ("bridge name bridge id STP enabled interfaces" ++ newline
                     ++ "vnet0_1 8000.0050561 no vunl0_1_0" ++ newline
                     ++ "   vunl0_2_0" ++ newline))
       /\ (4 <= List.length (split_ws line))%nat
       /\ nth 0 (split_ws line) "" = "vnet0_1"
       /\ "vnet0_1" <> "bridge".
Proof.
  split; [ reflexivity | ].
  apply (proj1 (bridges_come_from_bridge_lines
                  ("bridge name bridge id STP enabled interfaces" ++ newline
                     ++ "vnet0_1 8000.0050561 no vunl0_1_0" ++ newline
                     ++ "   vunl0_2_0" ++ newline))
           "vunl0_2_0" "vnet0_1").
  reflexivity.
Defined.

Lemma mac_table_is_normalised_witness :
  map_macs_to_host_interfaces
    (Some ("2: vunl0_1_0@if3: <BROADCAST,UP>" ++ newline
             ++ "    link/ether 52:54:AA:12:34:56 brd ff:ff:ff:ff:ff:ff" ++ newline))
  = Return [("52:54:aa:12:34:56", "vunl0_1_0")]
  /\ In ("52:54:aa:12:34:56", "vunl0_1_0") [("52:54:aa:12:34:56", "vunl0_1_0")]
  /\ PyStr.lower "52:54:aa:12:34:56" = "52:54:aa:12:34:56"
  /\ PyStr.contains "@" "vunl0_1_0" = false
  /\ "vunl0_1_0" <> "".
Proof.
  assert (E : map_macs_to_host_interfaces
                (Some ("2: vunl0_1_0@if3: <BROADCAST,UP>" ++ newline
                         ++ "    link/ether 52:54:AA:12:34:56 brd ff:ff:ff:ff:ff:ff"
                         ++ newline))
              = Return [("52:54:aa:12:34:56", "vunl0_1_0")]) by reflexivity.
  assert (Hin : In ("52:54:aa:12:34:56", "vunl0_1_0")
                   [("52:54:aa:12:34:56", "vunl0_1_0")]) by (left; reflexivity).
  split; [ exact E | ]. split; [ exact Hin | ].
  exact (mac_table_is_normalised _ _ E _ _ Hin).
Defined.

Lemma name_record_counts_as_by_name_transition_witness :
  PyStr.split "," "r1,e0/1" = ["r1"; "e0/1"]
  /\ interface_by_name sample_float (world_rejecting 0 "exit status 1") Suspend
       demo_client demo_lab "r1" "e0/1" false 0
     = (Return (false, "Failed to suspend EVE-NG interface: exit status 1"),
        [EvTransition Suspend (EvengIf demo_lab "1" "1") false;
         EvRun (unl_wrapper_cmd "suspendlink" demo_lab "1" "1")],
        1)
  /\ value_of (process_record sample_float sample_str_float
                 (world_rejecting 0 "exit status 1") demo_client
                 (verb Suspend) demo_lab false 1%Z "1.0" 1%Z "r1,e0/1"
                 (0%Z, 0%Z) 0)
     = Return (0%Z, (0 + 1)%Z).
Proof.
  split; [ reflexivity | ]. split; [ reflexivity | ].
  apply (name_record_counts_as_by_name_transition sample_float sample_str_float
           (world_rejecting 0 "exit status 1") Suspend demo_client demo_lab
           false 1%Z "1.0" 1%Z "r1,e0/1" "r1" "e0/1" 0%Z 0%Z 0 false
           "Failed to suspend EVE-NG interface: exit status 1"
           [EvTransition Suspend (EvengIf demo_lab "1" "1") false;
            EvRun (unl_wrapper_cmd "suspendlink" demo_lab "1" "1")]
           1);
    reflexivity.
Defined.

(** ** Examples *)

Example lower_Gi : PyStr.lower "Gi0/1" = "gi0/1".
Proof. reflexivity. Qed.

Example split_three : PyStr.split "," "a,,b" = ["a"; ""; "b"].
Proof. reflexivity. Qed.

Example split_empty : PyStr.split "," "" = [""].
Proof. reflexivity. Qed.

Example strip_line : PyStr.strip ("  R1,e0/0 " ++ String (ascii_of_nat 10) "") = "R1,e0/0".
Proof. reflexivity. Qed.

Example str_int_samples :
  PyStr.str_int 0 = "0" /\ PyStr.str_int 12 = "12" /\ PyStr.str_int (-3) = "-3".
Proof. repeat split; reflexivity. Qed.

Example endswith_unl : PyStr.endswith "demo/lab1.unl" ".unl" = true.
Proof. reflexivity. Qed.

(** The resolution examples: under type [ethernet], interface "0" is named
    "Ethernet0/0". *)
Example resolve_by_id :
  resolve_in [("ethernet", [("0", IfDict (Some "Ethernet0/0"))])] "e0/0" = Some "0".
Proof. reflexivity. Qed.

Example resolve_by_name :
  find_interface [("7", IfDict (Some "Ethernet0/0"))] "0" "ethernet0/0" = Some "7".
Proof. reflexivity. Qed.

Example resolve_by_substring :
  find_interface [("7", IfDict (Some "Ethernet0/0"))] "0" "net0/" = Some "7".
Proof. reflexivity. Qed.

Example parse_samples :
  parse_interface_name "Gi0/1" = ("gi", "0/1")
  /\ parse_interface_name "eth0" = ("eth", "0")
  /\ parse_interface_name "Serial" = ("", "").
Proof. repeat split; reflexivity. Qed.

(** A batch of four lines in dry-run mode: one link record, one comment, one
    blank line, one name record whose device is unknown. *)
Example batch_of_four_lines :
  value_of (process_batch_file sample_float sample_str_float
              (world_with_file "links.txt"
                 ["R1,e0/0,R2,e0/1"; "# comment"; ""; "R3,e1/0"])
              "links.txt" "suspend" demo_lab true 1%Z "1.0" 0)
  = Return (1%Z, 1%Z).
Proof. reflexivity. Qed.

(** With every command completing, a link operation runs the two commands
    in order. *)
Example link_commands_in_order :
  commands (trace_of (resume_eveng_link sample_float calm_world
                        demo_lab "1" "0" "2" "3" false 0))
  = [unl_wrapper_cmd "resumelink" demo_lab "1" "0";
     unl_wrapper_cmd "resumelink" demo_lab "2" "3"].
Proof. reflexivity. Qed.
